(** * GovInfo bulk ingestion: paginator, enricher, downloader, driver

    A shallow embedding of [govinfo_cli.py] (the Published-service
    paginator [fetch_published_packages], the summary fetch, the retrying
    downloader [download_with_retries], the per-package driver
    [download_package_formats]) and of the paginator of
    [govinfo_sql_ingest.py] ([fetch_packages_for_collection]).

    Conventions of the embedding:
    - JSON documents are the values [json.loads] produces: [None] is
      [JNull], a dict is a finite map from strings;
    - Python [str] is modelled by [string]: a character is one of the
      256 code points of Latin-1, and the functions on text ([strip],
      [lower], [isdigit], [int]) treat it as Python treats that code
      point;
    - a Python exception that leaves a function is the [Raise] outcome of
      the [result] type;
    - the network is an oracle handed to each function; the calls a
      function makes ([requests.get], [time.sleep]) are returned as a trace;
    - a [while True] loop is a fixpoint on a fuel argument: [None] means
      the fuel ran out before the loop ended. *)

From Stdlib Require Import ZArith Ascii String List Bool Lia.
From stdpp Require Import gmap strings list pretty.

Set Warnings "-register-all,-clear-no-such-hyp".
Set Default Proof Using "Type".

Local Open Scope Z_scope.

(** ** Python values and outcomes *)

Module Py.

(** The exception classes that the modelled functions can meet. *)
Inductive exn :=
  | RequestException
  | JSONDecodeError
  | AttributeError
  | TypeError
  | ValueError
  | OSError
  | OverflowError.

(** What a call does: it returns a value or lets an exception out. *)
Inductive result (A : Type) :=
  | Return (a : A)
  | Raise (e : exn).
Arguments Return {A} a.
Arguments Raise {A} e.

Definition bind {A B} (r : result A) (k : A -> result B) : result B :=
  match r with
  | Return a => k a
  | Raise e => Raise e
  end.

(** A value decoded from JSON.  Numbers are taken to be integers (a
    float matters here only through its zero test, which is the same). *)
Inductive json :=
  | JNull
  | JBool (b : bool)
  | JNum (z : Z)
  | JStr (s : string)
  | JArr (l : list json)
  | JObj (m : gmap string json).

(** Python truth value ([if x], [not x], [x or y]). *)
Definition truthy (v : json) : bool :=
  match v with
  | JNull => false
  | JBool b => b
  | JNum z => negb (z =? 0)
  | JStr s => negb (String.eqb s "")
  | JArr l => match l with [] => false | _ => true end
  | JObj m => negb (bool_decide (m = ∅))
  end.

(** [x or y]. *)
Definition py_or (x y : json) : json := if truthy x then x else y.

(** [d.get(key)] on a dict: a missing key gives [None]. *)
Definition dict_get (m : gmap string json) (key : string) : json :=
  default JNull (m !! key).

(** [v.get(key)] on any value: only a dict has the method. *)
Definition get (v : json) (key : string) : result json :=
  match v with
  | JObj m => Return (dict_get m key)
  | _ => Raise AttributeError
  end.

(** *** Strings *)

(** [sub in s]. *)
Definition contains (sub s : string) : bool :=
  match String.index 0 sub s with Some _ => true | None => false end.

(** [s.startswith(p)]. *)
Definition startswith (s p : string) : bool := String.prefix p s.

(** [s[:n]]. *)
Definition str_take (n : nat) (s : string) : string := String.substring 0 n s.

(** [s[n:]]. *)
Fixpoint str_drop (n : nat) (s : string) : string :=
  match n, s with
  | O, _ => s
  | S n', String _ s' => str_drop n' s'
  | S _, EmptyString => EmptyString
  end.

(** [s.split(sep, 1)[0]]: the text before the first [sep], all of [s]
    when [sep] does not occur. *)
Definition before_first (sep s : string) : string :=
  match String.index 0 sep s with
  | Some i => str_take i s
  | None => s
  end.

(** [s.split(sep)[-1]]: the text after the last [sep], all of [s] when
    [sep] does not occur.  [fuel] bounds the number of separators. *)
Fixpoint after_last_aux (fuel : nat) (sep s : string) : string :=
  match fuel with
  | O => s
  | S fuel' =>
      match String.index 0 sep s with
      | Some i => after_last_aux fuel' sep (str_drop (i + String.length sep) s)
      | None => s
      end
  end.

Definition after_last (sep s : string) : string :=
  after_last_aux (S (String.length s)) sep s.

Definition is_digit (c : ascii) : bool :=
  let n := nat_of_ascii c in ((48 <=? n) && (n <=? 57))%nat.

Definition digit_value (c : ascii) : Z := Z.of_nat (nat_of_ascii c) - 48.

Fixpoint all_chars (p : ascii -> bool) (s : string) : bool :=
  match s with
  | EmptyString => true
  | String c s' => p c && all_chars p s'
  end.

(** [c.isdigit()]: the decimal digits and the superscripts two, three
    and one (178, 179, 185), which are digits without being decimal. *)
Definition is_digit_char (c : ascii) : bool :=
  let n := nat_of_ascii c in
  (is_digit c || (n =? 178) || (n =? 179) || (n =? 185))%nat.

(** [s.isdigit()]: false on the empty string. *)
Definition isdigit (s : string) : bool :=
  negb (String.eqb s "") && all_chars is_digit_char s.

(** [c.isspace()], the characters [str.strip()] takes off: the blank,
    tab to carriage return, the four separators 28 to 31, next line
    (133) and the no-break space (160). *)
Definition is_space (c : ascii) : bool :=
  let n := nat_of_ascii c in
  ((n =? 32) || ((9 <=? n) && (n <=? 13)) || ((28 <=? n) && (n <=? 31))
   || (n =? 133) || (n =? 160))%nat.

(** The characters [int()] takes off: those of C's [isspace] and the
    two blanks beyond ASCII, which it turns into blanks first; not the
    separators 28 to 31. *)
Definition is_int_space (c : ascii) : bool :=
  let n := nat_of_ascii c in
  ((n =? 32) || ((9 <=? n) && (n <=? 13)) || (n =? 133) || (n =? 160))%nat.

Fixpoint lstrip_by (blank : ascii -> bool) (s : string) : string :=
  match s with
  | String c s' => if blank c then lstrip_by blank s' else s
  | EmptyString => EmptyString
  end.

Fixpoint rstrip_by (blank : ascii -> bool) (s : string) : string :=
  match s with
  | EmptyString => EmptyString
  | String c s' =>
      match rstrip_by blank s' with
      | EmptyString => if blank c then EmptyString else String c EmptyString
      | r => String c r
      end
  end.

Definition lstrip (s : string) : string := lstrip_by is_space s.
Definition rstrip (s : string) : string := rstrip_by is_space s.

(** [s.strip()]. *)
Definition strip (s : string) : string := rstrip (lstrip s).

(** [c.lower()]: the capitals of ASCII and those of Latin-1 (192 to
    222 without the multiplication sign 215). *)
Definition lower_char (c : ascii) : ascii :=
  let n := nat_of_ascii c in
  if (((65 <=? n) && (n <=? 90))
      || ((192 <=? n) && (n <=? 222) && negb (n =? 215)))%nat
  then ascii_of_nat (n + 32) else c.

(** [s.lower()]. *)
Fixpoint lower (s : string) : string :=
  match s with
  | EmptyString => EmptyString
  | String c s' => String (lower_char c) (lower s')
  end.

(** Decimal digits with single underscores between them, as [int()]
    reads them; [prev_digit] tells whether the previous character was a
    digit (an underscore must stand between two digits). *)
Fixpoint int_digits (acc : Z) (prev_digit : bool) (s : string) : option Z :=
  match s with
  | EmptyString => if prev_digit then Some acc else None
  | String c s' =>
      if is_digit c then int_digits (10 * acc + digit_value c) true s'
      else if (Ascii.eqb c "_" && prev_digit)%bool then
        match s' with
        | String d _ => if is_digit d then int_digits acc false s' else None
        | EmptyString => None
        end
      else None
  end.

(** The number of characters of [s] that [p] holds of. *)
Fixpoint count_chars (p : ascii -> bool) (s : string) : nat :=
  match s with
  | EmptyString => O
  | String c s' => if p c then S (count_chars p s') else count_chars p s'
  end.

(** [sys.int_info.default_max_str_digits]: the most digits [int()]
    converts (Python 3.11, unless the limit is set otherwise). *)
Definition MAX_STR_DIGITS : nat := 4300.

(** [int(s)] for a [str]: blanks around, an optional sign, decimal
    digits, no more of them than the limit.  [None] stands for
    [ValueError]. *)
Definition py_int (s : string) : option Z :=
  let t := rstrip_by is_int_space (lstrip_by is_int_space s) in
  if (MAX_STR_DIGITS <? count_chars is_digit t)%nat then None
  else
    match t with
    | String "+" u => int_digits 0 false u
    | String "-" u => Z.opp <$> int_digits 0 false u
    | _ => int_digits 0 false t
    end.

(** [str(n)] for an [int]. *)
Definition str_of_int (n : Z) : string := pretty n.

(** [sep.join(l)]. *)
Fixpoint str_join (sep : string) (l : list string) : string :=
  match l with
  | [] => ""
  | [x] => x
  | x :: l' => (x ++ sep ++ str_join sep l')%string
  end.

(** [s.split(c)] for a one-character separator. *)
Fixpoint split_char (c : ascii) (s : string) : list string :=
  match s with
  | EmptyString => [""]
  | String a s' =>
      if Ascii.eqb a c then "" :: split_char c s'
      else match split_char c s' with
           | x :: l => String a x :: l
           | [] => [String a ""]
           end
  end.

End Py.

Import Py.

(** [x ← c; k] runs [c] and hands its value to [k]; an exception of [c]
    leaves the whole. *)
#[global] Instance result_bind : MBind result := fun A B k r => Py.bind r k.
#[global] Instance result_ret : MRet result := fun A a => Return a.

(** ** [datetime.strptime] on the three formats the code tries

    [_strptime] turns a format into a regular expression, one group of
    ordered alternatives per directive, matches it at the start of the
    text without regard to letter case, and refuses text left over. *)

Module Dates.

(** A character class of the regular expression. *)
Definition cls := ascii -> bool.

Definition any_digit : cls := is_digit.

Definition digit_in (lo hi : Z) : cls :=
  fun c => is_digit c && (lo <=? digit_value c) && (digit_value c <=? hi).

Definition blank : cls := fun c => Ascii.eqb c " ".

(** The tokens of a format: the directives used by the code and
    literal characters. *)
Inductive tok :=
  | DirY | Dirm | Dird | DirH | DirM | DirS
  | Lit (c : ascii).

(** The alternatives of each directive, in the order of the expression
    that [_strptime] builds. *)
Definition alternatives (t : tok) : list (list cls) :=
  match t with
  | DirY => [[any_digit; any_digit; any_digit; any_digit]]
  | Dirm => [[digit_in 1 1; digit_in 0 2]; [digit_in 0 0; digit_in 1 9];
             [digit_in 1 9]]
  | Dird => [[digit_in 3 3; digit_in 0 1]; [digit_in 1 2; any_digit];
             [digit_in 0 0; digit_in 1 9]; [digit_in 1 9];
             [blank; digit_in 1 9]]
  | DirH => [[digit_in 2 2; digit_in 0 3]; [digit_in 0 1; any_digit];
             [any_digit]]
  | DirM => [[digit_in 0 5; any_digit]; [any_digit]]
  | DirS => [[digit_in 6 6; digit_in 0 1]; [digit_in 0 5; any_digit];
             [any_digit]]
  | Lit c => [[fun a => Ascii.eqb (lower_char a) (lower_char c)]]
  end.

(** Match a sequence of classes at the start of [s]: the matched
    characters (latest first in [acc]) and the rest. *)
Fixpoint match_classes (cs : list cls) (acc s : string)
  : option (string * string) :=
  match cs with
  | [] => Some (acc, s)
  | p :: cs' =>
      match s with
      | String a s' => if p a then match_classes cs' (String a acc) s' else None
      | EmptyString => None
      end
  end.

(** The number a group stands for: its digits, blanks skipped.
    [rev_text] holds the matched characters, latest first. *)
Fixpoint group_value (rev_text : string) : Z :=
  match rev_text with
  | EmptyString => 0
  | String a r => if is_digit a then 10 * group_value r + digit_value a
                  else group_value r
  end.

(** Match the tokens in sequence with backtracking over the
    alternatives: the values of the groups (a literal counts 0) and the
    text left. *)
Fixpoint match_toks (ts : list tok) (s : string) : option (list Z * string) :=
  match ts with
  | [] => Some ([], s)
  | t :: ts' =>
      (fix attempt (alts : list (list cls)) : option (list Z * string) :=
         match alts with
         | [] => None
         | alt :: alts' =>
             match match_classes alt "" s with
             | Some (txt, rest) =>
                 match match_toks ts' rest with
                 | Some (vs, rest') => Some (group_value txt :: vs, rest')
                 | None => attempt alts'
                 end
             | None => attempt alts'
             end
         end) (alternatives t)
  end.

Definition is_leap (y : Z) : bool :=
  (y mod 4 =? 0) && (negb (y mod 100 =? 0) || (y mod 400 =? 0)).

Definition days_in_month (y m : Z) : Z :=
  if m =? 2 then (if is_leap y then 29 else 28)
  else if (m =? 4) || (m =? 6) || (m =? 9) || (m =? 11) then 30
  else 31.

(** The checks of [datetime(year, month, day, ...)]. *)
Definition valid_date (y m d : Z) : bool :=
  (1 <=? y) && (y <=? 9999) && (1 <=? m) && (m <=? 12)
  && (1 <=? d) && (d <=? days_in_month y m).

Definition valid_time (h mi s : Z) : bool :=
  (0 <=? h) && (h <=? 23) && (0 <=? mi) && (mi <=? 59)
  && (0 <=? s) && (s <=? 59).

(** ["%Y-%m-%d"], ["%Y-%m-%dT%H:%M:%SZ"], ["%Y-%m-%dT%H:%M:%S"]. *)
Definition fmt_date : list tok :=
  [DirY; Lit "-"; Dirm; Lit "-"; Dird].
Definition fmt_datetime : list tok :=
  fmt_date ++ [Lit "T"; DirH; Lit ":"; DirM; Lit ":"; DirS].
Definition fmt_datetime_z : list tok :=
  fmt_datetime ++ [Lit "Z"].

(** [datetime.strptime(s, fmt).year]; [None] stands for [ValueError]. *)
Definition strptime_year (fmt : list tok) (s : string) : option Z :=
  match match_toks fmt s with
  | Some (vs, EmptyString) =>
      match vs with
      | [y; _; m; _; d] =>
          if valid_date y m d then Some y else None
      | y :: _ :: m :: _ :: d :: _ :: h :: _ :: mi :: _ :: sec :: _ =>
          if valid_date y m d && valid_time h mi sec then Some y else None
      | _ => None
      end
  | _ => None
  end.

End Dates.

(** ** [pathlib] paths (POSIX flavour) *)

Module Paths.

(** A path as [pathlib] holds it: a root (["" ], ["/"] or ["//"]) and the
    components, none of them empty or ["."]. *)
Record Path := mkPath { root : string; parts : list string }.

Definition keep (part : string) : bool :=
  negb (String.eqb part "") && negb (String.eqb part ".").

Definition parts_of (s : string) : list string :=
  List.filter keep (split_char "/" s).

(** The root of a textual path: two leading slashes are kept, one or
    three and more give ["/"]. *)
Definition root_of (s : string) : string :=
  match s with
  | String "/" (String "/" (String "/" _)) => "/"
  | String "/" (String "/" _) => "//"
  | String "/" _ => "/"
  | _ => ""
  end.

(** [Path(s)]. *)
Definition of_string (s : string) : Path :=
  mkPath (root_of s) (parts_of s).

(** [p / seg]: an absolute segment replaces [p]. *)
Definition joinpath (p : Path) (seg : string) : Path :=
  if startswith seg "/" then of_string seg
  else mkPath (root p) (parts p ++ parts_of seg).

(** [str(p)]. *)
Definition to_string (p : Path) : string :=
  match root p, parts p with
  | EmptyString, [] => "."
  | r, ps => (r ++ str_join "/" ps)%string
  end.

End Paths.

Notation "p // seg" := (Paths.joinpath p seg) (at level 40, left associativity).

(** ** Utility functions of [govinfo_cli.py] *)

(** [package_collection_code]: the collection code of a packageId. *)
Definition package_collection_code (package_id : string) : string :=
  if contains "-" package_id then before_first "-" package_id else "UNKNOWN".

(** The [for fmt in (...)] loop of [package_year_from_date]: the first
    format under which the text parses gives the year. *)
Fixpoint first_year (fmts : list (list Dates.tok)) (s : string) : option Z :=
  match fmts with
  | [] => None
  | fmt :: fmts' =>
      match Dates.strptime_year fmt s with
      | Some y => Some y
      | None => first_year fmts' s
      end
  end.

(** [package_year_from_date]: a year string from a dateIssued field. *)
Definition package_year_from_date (date_issued : option string) : string :=
  match date_issued with
  | None => "unknown_year"
  | Some d =>
      if String.eqb d "" then "unknown_year"
      else
        match first_year [Dates.fmt_date; Dates.fmt_datetime_z; Dates.fmt_datetime]
                         (str_take 19 d) with
        | Some y => str_of_int y
        | None =>
            let year := str_take 4 d in
            if isdigit year then year else "unknown_year"
        end
  end.

(** ** The Published service as the paginators see it *)

(** What one page request comes to: [requests.get] or
    [raise_for_status] raises a [RequestException], the body is not
    JSON, or the body decodes to a document. *)
Inductive page_response :=
  | RequestFailed
  | BodyNotJson
  | Body (data : json).

(** The request did not bring a document. *)
Definition request_failed (r : page_response) : bool :=
  match r with
  | RequestFailed | BodyNotJson => true
  | Body _ => false
  end.

(** The endpoint for one fixed filter and date range: the answer to the
    request number [n] (counted from 0) asking for [offsetMark]. *)
Definition server := nat -> json -> page_response.

(** ** [govinfo_cli.py]: discovery *)

Definition MAX_PAGE_SIZE : Z := 1000.

Record PackageRecord := mkPackageRecord {
  package_id : json;
  date_issued : json;
  raw : json
}.

(** The way the loop of [fetch_published_packages] was left, as its
    last log line tells. *)
Inductive stop :=
  | RequestError          (* "Error fetching published data" *)
  | DecodeError           (* "Failed to decode JSON response" *)
  | EmptyPage             (* "No more results (empty page)." *)
  | CapReached            (* "Reached max-packages limit" *)
  | NoNextPage            (* "No nextPage value; finished traversal." *)
  | RepeatedOffset (c : string).  (* "Detected repeated offsetMark" *)

#[global] Instance stop_eq_dec : EqDecision stop.
Proof. solve_decision. Defined.

(** One pass over a page either ends discovery or names the next
    offset mark. *)
Inductive page_outcome :=
  | Finished (packages : list PackageRecord) (why : stop)
  | NextPage (packages : list PackageRecord) (next_offset : string).

(** The [for item in items] loop is left by [return] or runs through. *)
Inductive scan :=
  | Through (packages : list PackageRecord)
  | Capped (packages : list PackageRecord).

(** [v.get(k1) or v.get(k2)]. *)
Definition get_or (v : json) (k1 k2 : string) : result json :=
  a ← get v k1;
  if truthy a then Return a else get v k2.

(** [max_packages is not None and len(packages) >= max_packages]. *)
Definition cap_reached (max_packages : option Z) (packages : list PackageRecord)
  : bool :=
  match max_packages with
  | Some m => m <=? Z.of_nat (length packages)
  | None => false
  end.

(** The [for key in ("packages", "results", "records")] loop: the first
    key that holds a list. *)
Fixpoint first_list (m : gmap string json) (keys : list string) : list json :=
  match keys with
  | [] => []
  | key :: keys' =>
      match dict_get m key with
      | JArr l => l
      | _ => first_list m keys'
      end
  end.

Definition find_items (data : json) : result (list json) :=
  match data with
  | JObj m => Return (first_list m ["packages"; "results"; "records"])
  | _ => Raise AttributeError
  end.

(** The [for item in items] loop. *)
Fixpoint scan_items (max_packages : option Z) (packages : list PackageRecord)
    (items : list json) : result scan :=
  match items with
  | [] => Return (Through packages)
  | item :: items' =>
      pkg_id ← get_or item "packageId" "package_id";
      if negb (truthy pkg_id) then scan_items max_packages packages items'
      else
        date ← get_or item "dateIssued" "date_issued";
        let packages' := packages ++ [mkPackageRecord pkg_id date item] in
        if cap_reached max_packages packages' then Return (Capped packages')
        else scan_items max_packages packages' items'
  end.

Definition is_str (s : string) (v : json) : bool :=
  match v with JStr t => String.eqb s t | _ => false end.

Section Published.

(** [parse_qs(urlparse(url).query).get(key)] of [urllib.parse]: the
    values of the key, the empty list standing for [None]; or [None]
    when [urlparse] raises [ValueError] (as it does on a bracket of an
    IPv6 host that is not closed). *)
Variable parse_qs_get : string -> string -> option (list string).

(** [next_offset_from_nextpage].  On a truthy value that is not a
    string, Python raises in the [in] test (number, boolean), in
    [startswith] (a list or dict holding ["offsetMark="]), or returns
    the value as it is, and the caller's [next_offset in seen_offsets]
    raises [TypeError] on the unhashable list or dict before anything
    else happens: the model raises here.  A [ValueError] of [urlparse]
    is not caught, here or in the caller. *)
Definition next_offset_from_nextpage (next_page : json)
  : result (option string) :=
  if negb (truthy next_page) then Return None
  else
    match next_page with
    | JStr s =>
        if contains "offsetMark=" s && startswith s "http" then
          match parse_qs_get s "offsetMark" with
          | None => Raise ValueError
          | Some (v :: _) => Return (Some v)
          | Some [] => Return (Some s)
          end
        else Return (Some s)
    | JArr l =>
        if existsb (is_str "offsetMark=") l then Raise AttributeError
        else Raise TypeError
    | JObj m =>
        if bool_decide (is_Some (m !! "offsetMark=")) then Raise AttributeError
        else Raise TypeError
    | _ => Raise TypeError
    end.

(** The body of the [while True] loop after a page was decoded. *)
Definition process_page (max_packages : option Z)
    (packages : list PackageRecord) (seen_offsets : gset string)
    (data : json) : result page_outcome :=
  items ← find_items data;
  match items with
  | [] => Return (Finished packages EmptyPage)
  | _ =>
      sc ← scan_items max_packages packages items;
      match sc with
      | Capped packages' => Return (Finished packages' CapReached)
      | Through packages' =>
          next_page_val ← get data "nextPage";
          next_offset ← next_offset_from_nextpage next_page_val;
          match next_offset with
          | None => Return (Finished packages' NoNextPage)
          | Some c =>
              if String.eqb c "" then Return (Finished packages' NoNextPage)
              else if bool_decide (c ∈ seen_offsets) then
                Return (Finished packages' (RepeatedOffset c))
              else Return (NextPage packages' c)
          end
      end
  end.

(** A run: the offset marks requested, in order, and how the function
    was left (the list returned, with the reason the loop ended). *)
Definition run : Type :=
  list string * result (list PackageRecord * stop).

(** The [while True] loop.  [trace] holds the offset marks requested so
    far. *)
Fixpoint published_loop (srv : server) (max_packages : option Z) (fuel : nat)
    (packages : list PackageRecord) (offset_mark : string)
    (seen_offsets : gset string) (trace : list string) : option run :=
  match fuel with
  | O => None
  | S fuel' =>
      let trace' := trace ++ [offset_mark] in
      match srv (length trace) (JStr offset_mark) with
      | RequestFailed => Some (trace', Return (packages, RequestError))
      | BodyNotJson => Some (trace', Return (packages, DecodeError))
      | Body data =>
          match process_page max_packages packages seen_offsets data with
          | Raise e => Some (trace', Raise e)
          | Return (Finished packages' why) =>
              Some (trace', Return (packages', why))
          | Return (NextPage packages' c) =>
              published_loop srv max_packages fuel' packages' c
                             ({[c]} ∪ seen_offsets) trace'
          end
      end
  end.

(** The checks before the loop: the page size, and at least one
    collection code that is not blank. *)
Definition valid_request (collections : list string) (page_size : Z) : bool :=
  negb ((page_size <=? 0) || (MAX_PAGE_SIZE <? page_size))
  && existsb (fun c => negb (String.eqb (strip c) "")) collections.

(** [fetch_published_packages]. *)
Definition fetch_published_packages (srv : server) (fuel : nat)
    (collections : list string) (page_size : Z) (max_packages : option Z)
  : option run :=
  if valid_request collections page_size then
    published_loop srv max_packages fuel [] "*" ∅ []
  else Some ([], Raise ValueError).

End Published.

(** ** [govinfo_sql_ingest.py]: discovery *)

(** The dict appended to [all_items]. *)
Record sql_item := mkSqlItem {
  packageId : json;
  dateIssued : json;
  lastModified : json
}.

(** [get_json]: nothing is caught.  (The API key is taken to be set, so
    [api_key] does not exit.) *)
Definition get_json (srv : server) (n : nat) (offset : json) : result json :=
  match srv n offset with
  | RequestFailed => Raise RequestException
  | BodyNotJson => Raise JSONDecodeError
  | Body data => Return data
  end.

(** The [for p in items] loop over a list. *)
Fixpoint append_items (all_items : list sql_item) (items : list json)
  : result (list sql_item) :=
  match items with
  | [] => Return all_items
  | p :: items' =>
      a ← get p "packageId";
      b ← get p "dateIssued";
      c ← get p "lastModified";
      append_items (all_items ++ [mkSqlItem a b c]) items'
  end.

(** [for p in items] over any truthy value: a string or a dict yields
    strings, which have no [get]; a number or [True] is not iterable. *)
Definition iterate_items (all_items : list sql_item) (items : json)
  : result (list sql_item) :=
  match items with
  | JArr l => append_items all_items l
  | JStr _ | JObj _ => Raise AttributeError
  | _ => Raise TypeError
  end.

(** The lines after [nxt = data.get("nextPage")], for a truthy [nxt]:
    the offset of the next request. *)
Definition sql_next_offset (nxt : json) : result json :=
  match nxt with
  | JStr s =>
      if contains "offsetMark=" s then Return (JStr (after_last "offsetMark=" s))
      else Return nxt
  | JArr l =>
      if existsb (is_str "offsetMark=") l then Raise AttributeError
      else Return nxt
  | JObj m =>
      if bool_decide (is_Some (m !! "offsetMark=")) then Raise AttributeError
      else Return nxt
  | _ => Raise TypeError
  end.

(** One pass of the loop of [fetch_packages_for_collection]: [inl] when
    the loop is left, [inr] with the next offset otherwise. *)
Definition sql_page (all_items : list sql_item) (data : json)
  : result (list sql_item + list sql_item * json) :=
  a ← get data "packages";
  b ← (if truthy a then Return a else get data "results");
  let items := py_or a (py_or b (JArr [])) in
  if negb (truthy items) then Return (inl all_items)
  else
    all_items' ← iterate_items all_items items;
    nxt ← get data "nextPage";
    if negb (truthy nxt) then Return (inl all_items')
    else
      offset ← sql_next_offset nxt;
      Return (inr (all_items', offset)).

(** [fetch_packages_for_collection]: the requested offsets and the
    outcome; [None] when the fuel runs out. *)
Fixpoint sql_loop (srv : server) (fuel : nat) (all_items : list sql_item)
    (offset : json) (trace : list json)
  : option (list json * result (list sql_item)) :=
  match fuel with
  | O => None
  | S fuel' =>
      let trace' := trace ++ [offset] in
      match data ← get_json srv (length trace) offset;
            sql_page all_items data with
      | Raise e => Some (trace', Raise e)
      | Return (inl items) => Some (trace', Return items)
      | Return (inr (items, offset')) => sql_loop srv fuel' items offset' trace'
      end
  end.

Definition fetch_packages_for_collection (srv : server) (fuel : nat)
  : option (list json * result (list sql_item)) :=
  sql_loop srv fuel [] (JStr "*") [].

(** ** [govinfo_cli.py]: the retrying downloader *)

(** What the file system raises: [OSError], or [ValueError] for a path
    it cannot take (a NUL in it, say). *)
Inductive file_exn :=
  | FileOSError
  | FileValueError.

Definition file_exn_class (e : file_exn) : exn :=
  match e with
  | FileOSError => OSError
  | FileValueError => ValueError
  end.

(** What becomes of the response body once the status is accepted:
    [dest.parent.mkdir], [dest.open("wb")], then the chunks of
    [iter_content] written one by one. *)
Inductive write_outcome :=
  | Written                    (* every chunk written, the file closed *)
  | MkdirFailed (e : file_exn) (* [mkdir] raised *)
  | OpenFailed (e : file_exn)  (* the directories made, [open] raised *)
  | StreamFailed   (* the file opened, [iter_content] raised a
                      [RequestException] at some chunk *)
  | WriteFailed.   (* the file opened, [write] or the closing raised
                      [OSError] *)

(** What one [requests.get(url, stream=True)] comes to. *)
Inductive attempt_outcome :=
  | NoResponse     (* [requests.get] raised a [RequestException] *)
  | Response (status_code : Z) (retry_after : option string)
             (body : write_outcome).

(** What a download does to the outside.  [Opened] is the opening of
    the destination for writing, which creates it or empties it; from
    then on it holds the chunks written so far, the whole body once
    [Saved] follows. *)
Inductive event :=
  | Get (attempt : Z)
  | Sleep (seconds : Z)
  | MadeDirs
  | Opened
  | Saved.

(** What a download meets: the answer of the endpoint to the attempt
    number [attempt] (counted from 1, as the variable [attempt]
    counts), and, of the machine, whether its clock takes a sleep of a
    given length. *)
Record asset_server := mkAssetServer {
  answer :> Z -> attempt_outcome;
  clock_accepts : Z -> bool
}.

Definition traced (A : Type) : Type := (list event * result A)%type.

(** Put the events [evs] before those of the rest of a run. *)
Definition after {A} (evs : list event) (rest : option (traced A))
  : option (traced A) :=
  match rest with
  | Some (t, r) => Some (evs ++ t, r)
  | None => None
  end.

(** [resp.headers.get("Retry-After", "30")]. *)
Definition retry_after_header (retry_after : option string) : string :=
  default "30"%string retry_after.

(** The most seconds that fit the 64-bit count of nanoseconds in
    which [time.sleep] holds a length. *)
Definition MAX_SLEEP : Z := 9223372036.

(** [time.sleep(seconds)] for an [int] (CPython 3.11 on Linux): the
    exception it raises, [None] when it sleeps.  A length whose
    nanoseconds do not fit 64 bits raises [OverflowError], another
    negative one [ValueError]; the others are slept unless the clock of
    the machine cannot hold the deadline (the kernel then refuses with
    [EINVAL], an [OSError]), which happens within the time the machine
    has been up of [MAX_SLEEP]. *)
Definition time_sleep (accepts : Z -> bool) (seconds : Z) : option exn :=
  if (seconds <? - MAX_SLEEP) || (MAX_SLEEP <? seconds) then Some OverflowError
  else if seconds <? 0 then Some ValueError
  else if accepts seconds then None
  else Some OSError.

(** [resp.raise_for_status()] raises for 4xx and 5xx. *)
Definition is_http_error (status_code : Z) : bool :=
  (400 <=? status_code) && (status_code <? 600).

(** The [while attempt <= max_retries] loop of [download_with_retries].
    The lengths [5 * attempt] of the handler are taken to be slept:
    [time.sleep] refuses none below [MAX_SLEEP] less the time the
    machine has been up, which [5 * attempt] reaches only after more
    than a billion attempts, each but the first after such a sleep. *)
Fixpoint download_loop (srv : asset_server) (max_retries : Z) (fuel : nat)
    (attempt : Z) : option (traced bool) :=
  match fuel with
  | O => None
  | S fuel' =>
      if attempt <=? max_retries then
        let attempt := attempt + 1 in
        (* the [except requests.RequestException] handler, after the
           events [evs] of the attempt *)
        let on_request_exception (evs : list event) :=
          if max_retries <? attempt then Some (evs, Return false)
          else after (evs ++ [Sleep (5 * attempt)])
                     (download_loop srv max_retries fuel' attempt) in
        match srv attempt with
        | NoResponse => on_request_exception [Get attempt]
        | Response status_code retry_after body =>
            if status_code =? 503 then
              match py_int (retry_after_header retry_after) with
              | None => Some ([Get attempt], Raise ValueError)
              | Some seconds =>
                  match time_sleep (clock_accepts srv) seconds with
                  | Some e => Some ([Get attempt], Raise e)
                  | None =>
                      after [Get attempt; Sleep seconds]
                            (download_loop srv max_retries fuel' attempt)
                  end
              end
            else if is_http_error status_code then
              on_request_exception [Get attempt]
            else
              match body with
              | Written =>
                  Some ([Get attempt; MadeDirs; Opened; Saved], Return true)
              | MkdirFailed e =>
                  Some ([Get attempt], Raise (file_exn_class e))
              | OpenFailed e =>
                  Some ([Get attempt; MadeDirs], Raise (file_exn_class e))
              | StreamFailed =>
                  on_request_exception [Get attempt; MadeDirs; Opened]
              | WriteFailed =>
                  Some ([Get attempt; MadeDirs; Opened], Raise OSError)
              end
        end
      else Some ([], Return false)
  end.

(** Fuel that lets the loop run to its end. *)
Definition download_fuel (max_retries : Z) : nat :=
  S (Z.to_nat (max_retries + 1)).

(** [download_with_retries]; the default is never taken (see
    [download_loop_total]). *)
Definition download_with_retries (srv : asset_server) (max_retries : Z)
  : traced bool :=
  default ([], Raise OSError)
          (download_loop srv max_retries (download_fuel max_retries) 0).

(** The attempt ends in the [except requests.RequestException]
    handler: no response, an error status other than 503, or a body
    that breaks off. *)
Definition raises_request_exception (o : attempt_outcome) : bool :=
  match o with
  | NoResponse => true
  | Response status_code _ body =>
      negb (status_code =? 503)
      && (is_http_error status_code
          || match body with StreamFailed => true | _ => false end)
  end.

(** The first [n] steps of the linear backoff: 5, 10, ... seconds. *)
Definition backoffs (n : nat) : list Z :=
  map (fun i => 5 * Z.of_nat i) (seq 1 n).

(** The number of requests in a trace. *)
Definition attempts (t : list event) : nat :=
  length (List.filter (fun e => match e with Get _ => true | _ => false end) t).

(** The lengths slept, in order. *)
Definition sleeps (t : list event) : list Z :=
  omap (fun e => match e with Sleep s => Some s | _ => None end) t.

(** ** [govinfo_cli.py]: the per-package driver *)

Definition DOWNLOAD_KEY_MAP : gmap string string :=
  list_to_map
    [("txt", "txtLink"); ("htm", "htmLink"); ("html", "htmLink");
     ("xml", "xmlLink"); ("pdf", "pdfLink"); ("mods", "modsLink");
     ("premis", "premisLink"); ("zip", "zipLink")]%string.

(** What the driver does to the outside. *)
Inductive driver_event :=
  | SummaryRequest (package_id : json)
  | DryRun (url : json) (dest : Paths.Path)
  | Download (url : json) (dest : Paths.Path) (calls : list event).

(** [[f.strip().lower() for f in formats if f.strip()]]. *)
Definition normalize_formats (formats : list string) : list string :=
  map (fun f => lower (strip f))
      (List.filter (fun f => negb (String.eqb (strip f) "")) formats).

Section Driver.

(** The Packages service: the answer to the summary request for a
    packageId. *)
Variable summary_srv : json -> page_response.

(** The asset endpoints, by URL. *)
Variable asset_srv : json -> asset_server.

(** [str(v)] for a JSON value that is not a string, as an f-string
    formats it. *)
Variable py_str : json -> string.

(** [fetch_package_summary]: the summary, [None] on a failed request or
    a body that is not JSON. *)
Definition fetch_package_summary (package_id : json) : json :=
  match summary_srv package_id with
  | RequestFailed => JNull
  | BodyNotJson => JNull
  | Body d => d
  end.

(** [package_collection_code] on the value a record holds: the
    annotation says [str], the value comes from the server. *)
Definition collection_code_of (package_id : json) : result string :=
  match package_id with
  | JStr s => Return (package_collection_code s)
  | JArr l =>
      if existsb (is_str "-") l then Raise AttributeError
      else Return "UNKNOWN"%string
  | JObj m =>
      if bool_decide (is_Some (m !! "-"%string)) then Raise AttributeError
      else Return "UNKNOWN"%string
  | _ => Raise TypeError
  end.

(** [package_year_from_date] on the value a record holds.  A truthy
    value that is not a string fails in [date_issued[:19]] or in
    [strptime] with an exception that is not the [ValueError] caught
    ([TypeError]; [KeyError] for a dict from Python 3.12 on, modelled as
    [TypeError] too). *)
Definition year_of (date_issued : json) : result string :=
  if negb (truthy date_issued) then Return "unknown_year"%string
  else
    match date_issued with
    | JStr d => Return (package_year_from_date (Some d))
    | _ => Raise TypeError
    end.

(** [f"{package.package_id}.{fmt}"]. *)
Definition file_name (package_id : json) (fmt : string) : string :=
  ((match package_id with JStr s => s | v => py_str v end) ++ "." ++ fmt)%string.

(** [base_output_dir / collection_code / year / f"{package.package_id}.{fmt}"]. *)
Definition destination (base_output_dir : Paths.Path) (package_id : json)
    (collection_code year fmt : string) : Paths.Path :=
  base_output_dir // collection_code // year // file_name package_id fmt.

(** The [for fmt in fmt_list] loop of [download_package_formats]. *)
Fixpoint download_formats (package_id download_info : json)
    (collection_code year : string) (base_output_dir : Paths.Path)
    (dry_run : bool) (fmt_list : list string)
  : list driver_event * result unit :=
  match fmt_list with
  | [] => ([], Return tt)
  | fmt :: fmt_list' =>
      let continue :=
        download_formats package_id download_info collection_code year
                         base_output_dir dry_run fmt_list' in
      match DOWNLOAD_KEY_MAP !! fmt with
      | None => continue
      | Some link_key =>
          match get download_info link_key with
          | Raise e => ([], Raise e)
          | Return url =>
              if negb (truthy url) then continue
              else
                let dest := destination base_output_dir package_id
                                        collection_code year fmt in
                if dry_run then
                  let '(t, r) := continue in (DryRun url dest :: t, r)
                else
                  match download_with_retries (asset_srv url) 3 with
                  | (calls, Raise e) => ([Download url dest calls], Raise e)
                  | (calls, Return _) =>
                      let '(t, r) := continue in
                      (Download url dest calls :: t, r)
                  end
          end
      end
  end.

(** [download_package_formats]. *)
Definition download_package_formats (package : PackageRecord)
    (formats : list string) (base_output_dir : Paths.Path) (dry_run : bool)
  : list driver_event * result unit :=
  match normalize_formats formats with
  | [] => ([], Return tt)
  | fmt_list =>
      let summary := fetch_package_summary (package_id package) in
      let rest : result (list driver_event * result unit) :=
        if negb (truthy summary) then Return ([], Return tt)
        else
          d ← get summary "download";
          let download_info := py_or d (JObj ∅) in
          if negb (truthy download_info) then Return ([], Return tt)
          else
            collection_code ← collection_code_of (package_id package);
            year ← year_of (date_issued package);
            Return (download_formats (package_id package) download_info
                      collection_code year base_output_dir dry_run fmt_list) in
      match rest with
      | Raise e => ([SummaryRequest (package_id package)], Raise e)
      | Return (t, r) => (SummaryRequest (package_id package) :: t, r)
      end
  end.

(** The [for idx, pkg in enumerate(packages, start=1)] loop of
    [handle_download_command]. *)
Fixpoint process_packages (packages : list PackageRecord)
    (fmt_list : list string) (output_dir : Paths.Path) (dry_run : bool)
  : list driver_event * result unit :=
  match packages with
  | [] => ([], Return tt)
  | pkg :: packages' =>
      match download_package_formats pkg fmt_list output_dir dry_run with
      | (t, Raise e) => (t, Raise e)
      | (t, Return _) =>
          let '(t', r) := process_packages packages' fmt_list output_dir dry_run in
          (t ++ t', r)
      end
  end.

End Driver.

(** ** What a run of the paginator is compared with *)

(** The record made from one item: none for an item without a
    packageId (or one that is no dict, on which the code raises). *)
Definition item_record (item : json) : option PackageRecord :=
  match item with
  | JObj m =>
      let pkg_id := py_or (dict_get m "packageId") (dict_get m "package_id") in
      if truthy pkg_id then
        Some (mkPackageRecord pkg_id
                (py_or (dict_get m "dateIssued") (dict_get m "date_issued")) item)
      else None
  | _ => None
  end.

(** The records of a list of items, in order. *)
Definition records_of_items (items : list json) : list PackageRecord :=
  omap item_record items.

(** The items and the records on the page a response carries. *)
Definition page_items (r : page_response) : list json :=
  match r with
  | Body (JObj m) => first_list m ["packages"; "results"; "records"]%string
  | _ => []
  end.

Definition page_records (r : page_response) : list PackageRecord :=
  records_of_items (page_items r).

(** The records on the pages that the requests of [trace] fetched: the
    request number [n] asked for the [n]-th offset mark of the trace. *)
Definition fetched (srv : server) (trace : list string) : list PackageRecord :=
  concat (imap (fun n c => page_records (srv n (JStr c))) trace).

(** There is room under the cap: fewer records than the cap allows.
    The check comes after a record is appended, so a cap below 1 acts
    as 1. *)
Definition room (max_packages : option Z) (packages : list PackageRecord)
  : Prop :=
  match max_packages with
  | Some m => Z.of_nat (length packages) < Z.max 1 m
  | None => True
  end.

(** The ids of a list of records. *)
Definition ids (packages : list PackageRecord) : list json :=
  map package_id packages.

Definition is_dict (v : json) : bool :=
  match v with JObj _ => true | _ => false end.

Section PublishedSpec.

Variable parse_qs_get : string -> string -> option (list string).

(** The offset mark a page names as the next one, when it names one. *)
Definition next_cursor (data : json) : option string :=
  match v ← get data "nextPage"; next_offset_from_nextpage parse_qs_get v with
  | Return (Some c) => Some c
  | _ => None
  end.


(** The loop invariant of [fetch_published_packages], at the head of
    the loop: [trace] holds the requests made, [offset_mark] the next
    one to make. *)
Record inv (srv : server) (max_packages : option Z)
    (packages : list PackageRecord) (offset_mark : string)
    (seen_offsets : gset string) (trace : list string) : Prop := mkInv {
  (* the requests are the sentinel and then the marks followed, which
     are pairwise distinct and make up [seen_offsets] *)
  inv_trace : ∃ followed,
      trace ++ [offset_mark] = "*"%string :: followed
      ∧ seen_offsets = list_to_set followed ∧ NoDup followed;
  (* the list holds the records of the pages fetched *)
  inv_packages : packages = fetched srv trace;
  (* the cap was not reached when any of the requests was made, nor now *)
  inv_cap : ∀ k, (k ≤ length trace)%nat →
      room max_packages (fetched srv (take k trace));
  (* every request so far was answered by a page *)
  inv_pages : ∀ k c, trace !! k = Some c → ∃ data, srv k (JStr c) = Body data;
  (* and the mark of each request after the first is the one that the
     page before it names *)
  inv_named : ∀ k c c', trace !! k = Some c →
      (trace ++ [offset_mark]) !! S k = Some c' →
      ∃ data, srv k (JStr c) = Body data ∧ next_cursor data = Some c'
}.

(** The last pass of the loop: how the answer to the last request
    decides the outcome. *)
Definition last_pass (srv : server) (max_packages : option Z)
    (packages : list PackageRecord) (offset_mark : string)
    (seen_offsets : gset string) (trace : list string)
    (out : result (list PackageRecord * stop)) : Prop :=
  match srv (length trace) (JStr offset_mark) with
  | RequestFailed => out = Return (packages, RequestError)
  | BodyNotJson => out = Return (packages, DecodeError)
  | Body data =>
      match process_page parse_qs_get max_packages packages seen_offsets data with
      | Raise e => out = Raise e
      | Return (Finished packages' why) => out = Return (packages', why)
      | Return (NextPage _ _) => False
      end
  end.

End PublishedSpec.

(** ** What a run of the driver is compared with *)




(** The text of an issued date, if the field holds text. *)
Definition date_text (v : json) : option string :=
  match v with JStr d => Some d | _ => None end.

(** The destination an event of the driver names. *)
Definition dest_of (ev : driver_event) : option Paths.Path :=
  match ev with
  | SummaryRequest _ => None
  | DryRun _ dest => Some dest
  | Download _ dest _ => Some dest
  end.

(** The position of the first [c] in [s]. *)
Fixpoint find_char (c : ascii) (s : string) : option nat :=
  match s with
  | EmptyString => None
  | String a s' => if Ascii.eqb a c then Some O else S <$> find_char c s'
  end.

(** ** Servers and inputs used in the examples *)

Definition obj (kvs : list (string * json)) : json := JObj (list_to_map kvs).

Definition item (pid : string) : json := obj [("packageId"%string, JStr pid)].

(** No URL parsing is needed for plain offset marks. *)
Definition no_query : string -> string -> option (list string) :=
  fun _ _ => Some [].

(** A server whose only page names the sentinel as the next mark. *)
Definition sentinel_page : json :=
  obj [("packages", JArr [item "BILLS-1"]); ("nextPage", JStr "*")]%string.

Definition sentinel_server : server := fun _ _ => Body sentinel_page.

(** A server that serves the same item on two pages with different
    marks. *)
Definition repeating_server : server :=
  fun _ c =>
    if is_str "*" c then
      Body (obj [("packages", JArr [item "BILLS-1"]);
                 ("nextPage", JStr "p2")]%string)
    else Body (obj [("packages", JArr [item "BILLS-1"])]%string).

(** Three pages of two records each; the last names the second again. *)
Definition three_pages : server :=
  fun _ c =>
    if is_str "*" c then
      Body (obj [("packages", JArr [item "A-1"; item "A-2"]);
                 ("nextPage", JStr "p2")]%string)
    else if is_str "p2" c then
      Body (obj [("results", JArr [item "A-3"; obj []; item "A-4"]);
                 ("nextPage", JStr "p3")]%string)
    else if is_str "p3" c then
      Body (obj [("records", JArr [item "A-5"; item "A-6"]);
                 ("nextPage", JStr "p2")]%string)
    else RequestFailed.

(** A server that fails on the second request. *)
Definition failing_server : server :=
  fun n _ =>
    match n with
    | O => Body (obj [("packages", JArr [item "A-1"]);
                      ("nextPage", JStr "p2")]%string)
    | _ => RequestFailed
    end.


(** A clock that takes every length it is asked for. *)
Definition any_length : Z -> bool := fun _ => true.

(** An asset endpoint that always answers with the given status. *)
Definition always (status_code : Z) (retry_after : option string)
  : asset_server :=
  mkAssetServer (fun _ => Response status_code retry_after Written) any_length.

(** An asset endpoint whose destination cannot be made. *)
Definition unwritable : asset_server :=
  mkAssetServer (fun _ => Response 200 None (MkdirFailed FileOSError)) any_length.

(** 503 with [Retry-After: 2] twice, then 200. *)
Definition busy_twice : asset_server :=
  mkAssetServer
    (fun attempt =>
       if attempt <=? 2 then Response 503 (Some "2"%string) Written
       else Response 200 None Written)
    any_length.

(** The Packages service for five records: the summary of ["R-3"]
    cannot be fetched, the others offer a PDF. *)
Definition pdf_summary : json :=
  obj [("download", obj [("pdfLink", JStr "https://api.govinfo.gov/pdf")])]%string.

Definition summaries : json -> page_response :=
  fun pid => if is_str "R-3" pid then RequestFailed else Body pdf_summary.

Definition assets : json -> asset_server := fun _ => always 200 None.

Definition plain_str : json -> string := fun _ => ""%string.

Definition record (pid date : string) : PackageRecord :=
  mkPackageRecord (JStr pid) (JStr date) (item pid).

Definition data_dir : Paths.Path := Paths.of_string "/data".

(** * More of the code

    ** What the further properties are stated with *)

(** The item has an identifier:
    [item.get("packageId") or item.get("package_id")] is truthy. *)
Definition has_id (item : json) : bool :=
  match get_or item "packageId" "package_id" with
  | Return v => truthy v
  | Raise _ => false
  end.

(** The record holds what its raw item gives: a truthy identifier and
    the issued date, each read under either spelling of its key. *)
Definition from_item (r : PackageRecord) : Prop :=
  truthy (package_id r) = true
  /\ get_or (raw r) "packageId" "package_id" = Return (package_id r)
  /\ get_or (raw r) "dateIssued" "date_issued" = Return (date_issued r).

(** What the 503 branch does with the header: the seconds slept, or
    the exception of [int()] or [time.sleep]. *)
Definition retry_after_wait (accepts : Z -> bool) (retry_after : option string)
  : result Z :=
  match py_int (retry_after_header retry_after) with
  | None => Raise ValueError
  | Some seconds =>
      match time_sleep accepts seconds with
      | Some e => Raise e
      | None => Return seconds
      end
  end.

(** The answer to the attempt lets it go round the loop after a sleep:
    503 with a Retry-After that reads as a length the machine
    sleeps. *)
Definition busy (srv : asset_server) (attempt : Z) : bool :=
  match srv attempt with
  | Response status_code retry_after _ =>
      (status_code =? 503)
      && match retry_after_wait (clock_accepts srv) retry_after with
         | Return _ => true
         | Raise _ => false
         end
  | NoResponse => false
  end.

(** The answer is a body that is written to the destination. *)
Definition succeeds (o : attempt_outcome) : bool :=
  match o with
  | Response status_code _ Written =>
      negb (status_code =? 503) && negb (is_http_error status_code)
  | _ => false
  end.

(** The event is the writing of the file. *)
Definition is_saved (e : event) : bool :=
  match e with Saved => true | _ => false end.

(** What a dry run logs where a real run downloads. *)
Definition planned (ev : driver_event) : driver_event :=
  match ev with
  | Download url dest _ => DryRun url dest
  | _ => ev
  end.

(** The packageId a summary was requested for. *)
Definition summary_of (ev : driver_event) : option json :=
  match ev with SummaryRequest pid => Some pid | _ => None end.

(** The kind has a link key, and the download section offers a link. *)
Definition offered (download_info : gmap string json) (fmt : string)
  : option json :=
  match DOWNLOAD_KEY_MAP !! fmt with
  | Some link_key =>
      let url := dict_get download_info link_key in
      if truthy url then Some url else None
  | None => None
  end.

(** No ["/"] in the text. *)
Definition slash_free (s : string) : bool :=
  bool_decide (find_char "/" s = None).

(** The event is a request for an asset. *)
Definition is_download (ev : driver_event) : bool :=
  match ev with Download _ _ _ => true | _ => false end.

(** The issued date a record may hold for the year to be read from it:
    text, or a value that counts as none. *)
Definition date_readable (v : json) : bool :=
  match v with JStr _ => true | _ => negb (truthy v) end.

(** ** [govinfo_cli.py]: the arguments of the command *)

(** [c.upper()]: the small letters of ASCII and of Latin-1 (224 to 254
    without the division sign 247); the sharp s (223) gives two
    letters.  The micro sign (181) and the y with diaeresis (255) have
    their capitals outside Latin-1 and are left as they are: like
    their capitals they are no blanks, and the codes only go to the
    server. *)
Definition upper_char (c : ascii) : string :=
  let n := nat_of_ascii c in
  if (((97 <=? n) && (n <=? 122))
      || ((224 <=? n) && (n <=? 254) && negb (n =? 247)))%nat
  then String (ascii_of_nat (n - 32)) ""
  else if (n =? 223)%nat then "SS"
  else String c "".

(** [s.upper()]. *)
Fixpoint upper (s : string) : string :=
  match s with
  | EmptyString => EmptyString
  | String c s' => (upper_char c ++ upper s')%string
  end.

(** [[c.strip().upper() for c in args.collections.split(",") if c.strip()]]. *)
Definition cli_collections (arg : string) : list string :=
  map (fun c => upper (strip c))
      (List.filter (fun c => negb (String.eqb (strip c) "")) (split_char "," arg)).

(** [resolve_api_key]: the key of the command line, else the one of the
    environment; [None] stands for [SystemExit(1)]. *)
Definition resolve_api_key (cli_key env_key : option string) : option string :=
  let key := match cli_key with
             | Some k => if String.eqb k "" then env_key else Some k
             | None => env_key
             end in
  match key with
  | Some k => if String.eqb k "" then None else Some k
  | None => None
  end.

(** [parse_date_arg]. *)
Definition parse_date_arg (date_str : string) : result string :=
  match Dates.strptime_year Dates.fmt_date date_str with
  | Some _ => Return date_str
  | None => Raise ValueError
  end.

(** ** [datetime.date]

    The proleptic Gregorian calendar of the [datetime] module: the
    ordinal of a date (1 for 0001-01-01) and back, the constructor with
    its checks, the subtraction of a number of days. *)

Module Datetime.

Record date := mkDate { year : Z; month : Z; day : Z }.

Definition valid (t : date) : bool :=
  Dates.valid_date (year t) (month t) (day t).

Definition MAXORDINAL : Z := 3652059.

(** The table [_DAYS_BEFORE_MONTH]. *)
Definition DAYS_BEFORE_MONTH (month : Z) : Z :=
  nth (Z.to_nat month) [-1; 0; 31; 59; 90; 120; 151; 181; 212; 243; 273; 304; 334] 0.

(** The table [_DAYS_IN_MONTH]. *)
Definition DAYS_IN_MONTH (month : Z) : Z :=
  nth (Z.to_nat month) [-1; 31; 28; 31; 30; 31; 30; 31; 31; 30; 31; 30; 31] 0.

Definition days_before_year (year : Z) : Z :=
  let y := year - 1 in
  y * 365 + y / 4 - y / 100 + y / 400.

Definition days_before_month (year month : Z) : Z :=
  DAYS_BEFORE_MONTH month
  + (if (2 <? month) && Dates.is_leap year then 1 else 0).

Definition ymd2ord (year month day : Z) : Z :=
  days_before_year year + days_before_month year month + day.

Definition DI400Y : Z := 146097.
Definition DI100Y : Z := 36524.
Definition DI4Y : Z := 1461.

(** The end of [_ord2ymd]: the month and the day of the [n]-th day
    (from 0) of a year. *)
Definition month_day (n : Z) (leapyear : bool) : Z * Z :=
  let month := Z.shiftr (n + 50) 5 in
  let preceding :=
    DAYS_BEFORE_MONTH month + (if (2 <? month) && leapyear then 1 else 0) in
  if n <? preceding then
    let month := month - 1 in
    let preceding :=
      preceding
      - (DAYS_IN_MONTH month + (if (month =? 2) && leapyear then 1 else 0)) in
    (month, n - preceding + 1)
  else (month, n - preceding + 1).

Definition ord2ymd (n : Z) : date :=
  let n := n - 1 in
  let n400 := n / DI400Y in
  let n := n mod DI400Y in
  let year := n400 * 400 + 1 in
  let n100 := n / DI100Y in
  let n := n mod DI100Y in
  let n4 := n / DI4Y in
  let n := n mod DI4Y in
  let n1 := n / 365 in
  let n := n mod 365 in
  let year := year + n100 * 100 + n4 * 4 + n1 in
  if (n1 =? 4) || (n100 =? 4) then mkDate (year - 1) 12 31
  else
    let leapyear := (n1 =? 3) && (negb (n4 =? 24) || (n100 =? 3)) in
    let '(month, day) := month_day n leapyear in
    mkDate year month day.

Definition toordinal (t : date) : Z := ymd2ord (year t) (month t) (day t).

(** What the construction of a date comes to. *)
Inductive made :=
  | Date (t : date)
  | ValueError        (* a field is out of range *)
  | OverflowError.    (* the value does not fit *)

(** The year fits a C [int]. *)
Definition fits_int (z : Z) : bool := (- 2 ^ 31 <=? z) && (z <? 2 ^ 31).

(** [date(year, month, day)] with a month and a day taken from a date. *)
Definition new (year month day : Z) : made :=
  if negb (fits_int year) then OverflowError
  else if Dates.valid_date year month day then Date (mkDate year month day)
  else ValueError.

(** [t.replace(year=y)]. *)
Definition replace_year (t : date) (y : Z) : made :=
  new y (month t) (day t).

(** [t - timedelta(days=n)]: the length must be one a [timedelta]
    holds, the result a date from 0001-01-01 to 9999-12-31. *)
Definition minus_days (t : date) (n : Z) : made :=
  if 999999999 <? Z.abs n then OverflowError
  else
    let o := toordinal t - n in
    if (0 <? o) && (o <=? MAXORDINAL) then Date (ord2ymd o) else OverflowError.

(** ["%0<width>d" % n] for [n] that is not negative. *)
Definition zero_padded (width : nat) (n : Z) : string :=
  let s := str_of_int n in
  (string_of_list_ascii (replicate (width - String.length s) "0"%char) ++ s)%string.

(** [t.isoformat()]. *)
Definition isoformat (t : date) : string :=
  (zero_padded 4 (year t) ++ "-" ++ zero_padded 2 (month t) ++ "-"
   ++ zero_padded 2 (day t))%string.

End Datetime.

(** What the computation of a date range comes to. *)
Inductive date_range :=
  | Range (start_date end_date : string)
  | RangeValueError
  | RangeOverflowError.

(** [compute_date_range_from_years], on the day [today]. *)
Definition compute_date_range_from_years (today : Datetime.date)
    (last_years : Z) : date_range :=
  if last_years <=? 0 then RangeValueError
  else
    match Datetime.replace_year today (Datetime.year today - last_years) with
    | Datetime.Date start =>
        Range (Datetime.isoformat start) (Datetime.isoformat today)
    | Datetime.OverflowError => RangeOverflowError
    | Datetime.ValueError =>
        match Datetime.minus_days today (365 * last_years) with
        | Datetime.Date start =>
            Range (Datetime.isoformat start) (Datetime.isoformat today)
        | Datetime.ValueError => RangeValueError
        | Datetime.OverflowError => RangeOverflowError
        end
    end.

(** [date_range_years] of [govinfo_sql_ingest.py], on the day [today]. *)
Definition date_range_years (today : Datetime.date) (years : Z) : date_range :=
  match Datetime.new (Datetime.year today - years) (Datetime.month today)
                     (Datetime.day today) with
  | Datetime.Date start =>
      Range (Datetime.isoformat start) (Datetime.isoformat today)
  | Datetime.ValueError => RangeValueError
  | Datetime.OverflowError => RangeOverflowError
  end.

(** ** [govinfo_cli.py]: the command *)

(** The arguments as [argparse] hands them over. *)
Module Namespace.
Record t := mk {
  api_key : option string;
  last_years : option Z;
  start_date : option string;
  end_date : option string;
  collections : string;
  page_size : Z;
  output_dir : string;
  formats : string;
  max_packages : option Z;
  dry_run : bool
}.
End Namespace.

(** How [handle_download_command] is left. *)
Inductive leave :=
  | Returned
  | SystemExit
  | Raised (e : exn)
  | RaisedForOutputDir.

(** A run of the command: the offset marks requested from the Published
    service, what the driver did, and how the command was left. *)
Record command_run := mkCommandRun {
  requested : list string;
  events : list driver_event;
  outcome : leave
}.

(** An argument the command takes as missing: [None] or empty. *)
Definition given (arg : option string) : option string :=
  match arg with
  | Some s => if String.eqb s "" then None else Some s
  | None => None
  end.

Section Command.

(** [os.getenv("GOVINFO_API_KEY")] and [date.today()]. *)
Variable getenv_key : option string.
Variable today : Datetime.date.

(** [Path(args.output_dir).expanduser().resolve()] followed by
    [ensure_output_dir]: the directory, or [None] when one of them
    raises. *)
Variable prepare_output_dir : string -> option Paths.Path.

(** The services.  [srv] is the Published service at the URL and with
    the parameters the command builds from the dates, the collection
    codes and the key, [summary_srv] the Packages service with the key;
    the model does not follow these into the requests. *)
Variable parse_qs_get : string -> string -> option (list string).
Variable srv : server.
Variable summary_srv : json -> page_response.
Variable asset_srv : json -> asset_server.
Variable py_str : json -> string.

(** The [# Determine date range] lines: the range, or how they are
    left. *)
Definition determine_date_range (args : Namespace.t) : leave + string * string :=
  match Namespace.last_years args with
  | Some last_years =>
      match compute_date_range_from_years today last_years with
      | Range start_date end_date => inr (start_date, end_date)
      | RangeValueError => inl (Raised ValueError)
      | RangeOverflowError => inl (Raised OverflowError)
      end
  | None =>
      match given (Namespace.start_date args) with
      | None => inl SystemExit
      | Some s =>
          match parse_date_arg s with
          | Raise e => inl (Raised e)
          | Return start_date =>
              match given (Namespace.end_date args) with
              | Some e =>
                  match parse_date_arg e with
                  | Raise e => inl (Raised e)
                  | Return end_date => inr (start_date, end_date)
                  end
              | None => inr (start_date, Datetime.isoformat today)
              end
          end
      end
  end.

(** [handle_download_command]; [None] when the fuel of the paginator
    runs out. *)
Definition handle_download_command (fuel : nat) (args : Namespace.t)
  : option command_run :=
  let stop how := Some (mkCommandRun [] [] how) in
  match resolve_api_key (Namespace.api_key args) getenv_key with
  | None => stop SystemExit
  | Some api_key =>
  match determine_date_range args with
  | inl how => stop how
  | inr (start_date, end_date) =>
  match cli_collections (Namespace.collections args) with
  | [] => stop SystemExit
  | collections =>
  match prepare_output_dir (Namespace.output_dir args) with
  | None => stop RaisedForOutputDir
  | Some output_dir =>
  match normalize_formats (split_char "," (Namespace.formats args)) with
  | [] => stop SystemExit
  | fmt_list =>
  match fetch_published_packages parse_qs_get srv fuel collections
          (Namespace.page_size args) (Namespace.max_packages args) with
  | None => None
  | Some (t, Raise e) => Some (mkCommandRun t [] (Raised e))
  | Some (t, Return ([], _)) => Some (mkCommandRun t [] Returned)
  | Some (t, Return (packages, _)) =>
      let '(evs, r) :=
        process_packages summary_srv asset_srv py_str packages fmt_list
                         output_dir (Namespace.dry_run args) in
      Some (mkCommandRun t evs
              (match r with Return _ => Returned | Raise e => Raised e end))
  end end end end end end.

End Command.

(** ** [govinfo_sql_ingest.py]: the rows *)

(** A row for the table [packages] and one for the table [downloads]. *)
Record package_row := mkPackageRow {
  row_package_id : json;
  row_collection_code : json;
  row_date_issued : json;
  row_last_modified : json;
  row_summary : json
}.

Record download_row := mkDownloadRow {
  dl_package_id : json;
  dl_format : string;
  dl_url : json
}.

(** [s.get("download", {}).items()]: the links of a summary.  A dict
    keeps the order of the document, a [gmap] does not: the list is to
    be read as the links in some order. *)
Definition download_items (s : json) : result (list (string * json)) :=
  match s with
  | JObj m =>
      match m !! "download"%string with
      | None => Return []
      | Some (JObj d) => Return (map_to_list d)
      | Some _ => Raise AttributeError
      end
  | _ => Raise AttributeError
  end.

Section Ingest.

(** The Packages service: the answer to the summary request for a
    packageId. *)
Variable summary_srv : json -> page_response.

(** [fetch_summary]: nothing is caught. *)
Definition fetch_summary (pid : json) : result json :=
  match summary_srv pid with
  | RequestFailed => Raise RequestException
  | BodyNotJson => Raise JSONDecodeError
  | Body data => Return data
  end.

(** The [for p in items] loop of [ingest_packages]. *)
Fixpoint ingest_rows (code : json) (items : list sql_item)
    (pkg_rows : list package_row) (dl_rows : list download_row)
  : result (list package_row * list download_row) :=
  match items with
  | [] => Return (pkg_rows, dl_rows)
  | p :: items' =>
      let pid := packageId p in
      if negb (truthy pid) then ingest_rows code items' pkg_rows dl_rows
      else
        match fetch_summary pid with
        | Raise _ => ingest_rows code items' pkg_rows dl_rows
        | Return s =>
            let pkg_rows' :=
              pkg_rows ++ [mkPackageRow pid code (dateIssued p)
                                        (lastModified p) s] in
            links ← download_items s;
            ingest_rows code items' pkg_rows'
              (dl_rows ++ map (fun '(fmt, url) => mkDownloadRow pid fmt url) links)
        end
  end.

(** [ingest_packages]: the rows it inserts, the database taken to
    accept them; an exception leaves before anything is inserted. *)
Definition ingest_packages (code : json) (items : list sql_item)
  : result (list package_row * list download_row) :=
  ingest_rows code items [] [].

(** The summary request for the packageId is answered with a
    document. *)
Definition arrives (pid : json) : bool :=
  match summary_srv pid with Body _ => true | _ => false end.

End Ingest.

(** The entry [fetch_packages_for_collection] makes of an item. *)
Definition sql_entry (item : json) : option sql_item :=
  match item with
  | JObj m => Some (mkSqlItem (dict_get m "packageId") (dict_get m "dateIssued")
                              (dict_get m "lastModified"))
  | _ => None
  end.

(** The items of a page as the SQL script reads them:
    [data.get("packages") or data.get("results") or []]. *)
Definition sql_page_items (r : page_response) : list json :=
  match r with
  | Body (JObj m) =>
      match py_or (dict_get m "packages") (py_or (dict_get m "results") (JArr [])) with
      | JArr l => l
      | _ => []
      end
  | _ => []
  end.




(** The items on the pages that the requests of [trace] fetched, as the
    SQL script reads them. *)
Definition sql_fetched (srv : server) (trace : list json) : list json :=
  concat (imap (fun n c => sql_page_items (srv n c)) trace).

(** The row [ingest_packages] makes of an item: none for an item
    without a packageId or whose summary request fails. *)
Definition row_of (summary_srv : json -> page_response) (code : json)
    (p : sql_item) : option package_row :=
  if truthy (packageId p) then
    match summary_srv (packageId p) with
    | Body s => Some (mkPackageRow (packageId p) code (dateIssued p)
                                   (lastModified p) s)
    | _ => None
    end
  else None.

(** The link is among those of the summary. *)
Definition has_link (s : json) (fmt : string) (url : json) : Prop :=
  exists m d, s = JObj m /\ m !! "download"%string = Some (JObj d)
              /\ d !! fmt = Some url.

(** ** Servers and inputs used in the further examples *)

(** A page with an item that is no dict. *)
Definition ragged_page : json :=
  obj [("packages", JArr [item "A-1"; JStr "oops"; item "A-2"])]%string.

Definition ragged_server : server := fun _ _ => Body ragged_page.

(** The five records of the driver examples. *)
Definition five_records : list PackageRecord :=
  [record "R-1" "2019-05-01"; record "R-2" "2019-05-02";
   record "R-3" "2019-05-03"; record "R-4" "2019-05-04";
   record "R-5" "2019-05-05"].

(** Asset endpoints whose destinations cannot be made. *)
Definition no_assets : json -> asset_server := fun _ => unwritable.

(** The 29th of February 2024. *)
Definition leap_day : Datetime.date := Datetime.mkDate 2024 2 29.

(** [download --collections " bills , " --start-date 2019-05-01
    --formats "PDF, xml" --max-packages 3 --output-dir /data --dry-run],
    the key taken from the environment. *)
Definition example_args : Namespace.t :=
  Namespace.mk None None (Some "2019-05-01"%string) None " bills , " 100
               "/data" "PDF, xml" (Some 3) true.

Definition example_key : option string := Some "DEMO_KEY"%string.

Definition prepare_any : string -> option Paths.Path :=
  fun s => Some (Paths.of_string s).

(** The Packages service for the records of [three_pages]. *)
Definition all_pdf : json -> page_response := fun _ => Body pdf_summary.

(** Four entries of the SQL script: one without a packageId, one whose
    summary cannot be fetched. *)
Definition four_entries : list sql_item :=
  [mkSqlItem (JStr "R-1") (JStr "2019-05-01") JNull;
   mkSqlItem JNull (JStr "2019-05-02") JNull;
   mkSqlItem (JStr "R-3") (JStr "2019-05-03") JNull;
   mkSqlItem (JStr "R-4") JNull (JStr "2019-05-04")].

(** A Packages service whose summary of ["R-4"] has [null] under
    ["download"]. *)
Definition null_download : json -> page_response :=
  fun pid =>
    if is_str "R-4" pid then Body (obj [("download", JNull)]%string)
    else Body pdf_summary.



(** An endpoint whose body breaks off on every attempt. *)
Definition breaking_off : asset_server :=
  mkAssetServer (fun _ => Response 200 None StreamFailed) any_length.




(** * Proofs

    ** The item loop *)
Lemma bind_return {A B} (r : result A) (k : A → result B) b :
  (x ← r; k x) = Return b → ∃ a, r = Return a ∧ k a = Return b.
Proof. destruct r as [a|e]; [eauto | discriminate]. Qed.

Lemma get_or_dict m k1 k2 :
  get_or (JObj m) k1 k2 = Return (py_or (dict_get m k1) (dict_get m k2)).
Proof. unfold get_or, py_or; simpl. by destruct (truthy (dict_get m k1)). Qed.

Lemma get_or_return v k1 k2 a :
  get_or v k1 k2 = Return a →
  ∃ m, v = JObj m ∧ a = py_or (dict_get m k1) (dict_get m k2).
Proof.
  destruct v; try discriminate. rewrite get_or_dict. intros [= <-]. eauto.
Qed.

Lemma records_of_items_cons item items :
  records_of_items (item :: items) =
  match item_record item with
  | Some r => r :: records_of_items items
  | None => records_of_items items
  end.
Proof. reflexivity. Qed.

Lemma not_capped_room max P : cap_reached max P = false → room max P.
Proof.
  destruct max as [m|]; simpl; [|done]. intros H%Z.leb_gt. lia.
Qed.

Lemma room_nil max : room max [].
Proof. destruct max; simpl; [lia|done]. Qed.

(** Where there was room, the record that reaches the cap is the one
    that fills it. *)
Lemma capped_length m (Q : list PackageRecord) r :
  room (Some m) Q → cap_reached (Some m) (Q ++ [r]) = true →
  Z.of_nat (length (Q ++ [r])) = Z.max 1 m.
Proof.
  simpl. rewrite length_app. simpl. intros Hroom Hcap%Z.leb_le. lia.
Qed.

(** One step of the item loop, for a dict. *)
Lemma scan_items_cons max P m items :
  scan_items max P (JObj m :: items) =
  match item_record (JObj m) with
  | None => scan_items max P items
  | Some r =>
      if cap_reached max (P ++ [r]) then Return (Capped (P ++ [r]))
      else scan_items max (P ++ [r]) items
  end.
Proof.
  cbn [scan_items item_record]. rewrite !get_or_dict. cbn [mbind result_bind Py.bind].
  destruct (truthy (py_or (dict_get m "packageId") (dict_get m "package_id")));
    reflexivity.
Qed.

Lemma scan_items_not_dict max P v items :
  is_dict v = false → scan_items max P (v :: items) = Raise AttributeError.
Proof. destruct v; try discriminate; reflexivity. Qed.

Lemma scan_items_through max items : ∀ P P',
  scan_items max P items = Return (Through P') →
  P' = P ++ records_of_items items
  ∧ (room max P → room max P').
Proof.
  induction items as [|v items IH]; intros P P' H.
  - injection H as <-. by rewrite app_nil_r.
  - destruct v; try discriminate H.
    rewrite scan_items_cons in H. rewrite records_of_items_cons.
    destruct (item_record (JObj m)) as [r|]; [|by apply IH].
    destruct (cap_reached max (P ++ [r])) eqn:Hc; [discriminate|].
    apply IH in H as [-> H]. split; [by rewrite <- app_assoc|].
    intros _. by apply H, not_capped_room.
Qed.

Lemma scan_items_capped max items : ∀ P P',
  scan_items max P items = Return (Capped P') →
  cap_reached max P' = true
  ∧ ∃ Q r rest, P' = Q ++ [r]
      ∧ (room max P → room max Q)
      ∧ P ++ records_of_items items = P' ++ rest.
Proof.
  induction items as [|v items IH]; intros P P' H; [discriminate|].
  destruct v; try discriminate H.
  rewrite scan_items_cons in H. rewrite records_of_items_cons.
  destruct (item_record (JObj m)) as [r|]; [|by apply IH].
  destruct (cap_reached max (P ++ [r])) eqn:Hc.
  - injection H as <-. split; [done|].
    exists P, r, (records_of_items items). by rewrite <- app_assoc.
  - apply IH in H as (Hcap & Q & r' & rest & -> & HQ & Heq).
    split; [done|]. exists Q, r', rest. split; [done|].
    split; [intros _; by apply HQ, not_capped_room|].
    by rewrite <- Heq, <- app_assoc.
Qed.

(** On dicts only, the loop never raises. *)
Lemma scan_items_dicts max items : ∀ P,
  forallb is_dict items = true → ∃ sc, scan_items max P items = Return sc.
Proof.
  induction items as [|v items IH]; intros P H; [by eexists|].
  apply andb_true_iff in H as [Hv H]. destruct v; try discriminate Hv.
  rewrite scan_items_cons. destruct (item_record (JObj m)); [|by apply IH].
  destruct (cap_reached max (P ++ [p])); [by eexists | by apply IH].
Qed.

(** The loop over two lists of items in a row. *)
Lemma scan_items_app max l1 : ∀ P l2,
  scan_items max P (l1 ++ l2) =
  match scan_items max P l1 with
  | Return (Through Q) => scan_items max Q l2
  | r => r
  end.
Proof.
  induction l1 as [|it l1 IH]; intros P l2; [done|]. cbn [app].
  destruct it as [| | | | |m]; try done.
  rewrite !scan_items_cons. destruct (item_record (JObj m)); [|apply IH].
  destruct (cap_reached max _); [done|apply IH].
Qed.





(** ** One pass of the paginator, the invariant, termination *)
Section PublishedProofs.

Variable parse_qs_get : string → string → option (list string).
Variable srv : server.
Variable max_packages : option Z.

Local Abbreviation pass := (process_page parse_qs_get max_packages).
Local Abbreviation loop := (published_loop parse_qs_get srv max_packages).
Local Abbreviation next := (next_cursor parse_qs_get).
Local Abbreviation Inv := (inv parse_qs_get srv max_packages).
Local Abbreviation Last := (last_pass parse_qs_get srv max_packages).
Local Abbreviation cap := (cap_reached max_packages).

Ltac run_in H := cbn [mbind result_bind Py.bind] in H.

Lemma page_records_body m :
  page_records (Body (JObj m)) =
  records_of_items (first_list m ["packages"; "results"; "records"]%string).
Proof. reflexivity. Qed.

(** What a pass that goes on to the next page has done. *)
Lemma process_page_next P seen data P' c' :
  pass P seen data = Return (NextPage P' c') →
  P' = P ++ page_records (Body data)
  ∧ (room max_packages P → room max_packages P')
  ∧ (c' ∉ seen)
  ∧ next data = Some c'.
Proof.
  unfold process_page, next_cursor. intros H.
  destruct data as [| | | | |m]; try discriminate H.
  rewrite page_records_body.
  cbn [find_items mbind result_bind Py.bind get] in H |- *.
  destruct (first_list m _) as [|it its] eqn:Hitems; [discriminate H|].
  destruct (scan_items _ _ _) as [[Q|Q]|] eqn:Hscan; run_in H; try discriminate H.
  apply scan_items_through in Hscan as [-> Hcap].
  destruct (next_offset_from_nextpage _ _) as [[c|]|]; run_in H; try discriminate H.
  destruct (String.eqb c ""); [discriminate H|].
  destruct (bool_decide (c ∈ seen)) eqn:Hin; [discriminate H|].
  injection H as <- <-. apply bool_decide_eq_false in Hin.
  done.
Qed.

(** What a pass that ends discovery has done. *)
Lemma process_page_finished P seen data P' why :
  pass P seen data = Return (Finished P' why) →
  why ≠ RequestError ∧ why ≠ DecodeError
  ∧ (why ≠ CapReached →
       P' = P ++ page_records (Body data) ∧ (room max_packages P → room max_packages P'))
  ∧ (why = CapReached →
       cap P' = true
       ∧ ∃ Q r rest, P' = Q ++ [r] ∧ (room max_packages P → room max_packages Q)
           ∧ P ++ page_records (Body data) = P' ++ rest)
  ∧ (∀ c, why = RepeatedOffset c → c ∈ seen ∧ next data = Some c)
  ∧ (why = NoNextPage → next data = None ∨ next data = Some ""%string).
Proof.
  unfold process_page, next_cursor. intros H.
  destruct data as [| | | | |m]; try discriminate H.
  rewrite page_records_body.
  cbn [find_items mbind result_bind Py.bind get] in H |- *.
  destruct (first_list m _) as [|it its] eqn:Hitems.
  { injection H as <- <-. rewrite app_nil_r. repeat split; done. }
  destruct (scan_items _ _ _) as [[Q|Q]|] eqn:Hscan; run_in H; try discriminate H.
  - apply scan_items_through in Hscan as [-> Hcap].
    destruct (next_offset_from_nextpage _ _) as [[c|]|]; run_in H; try discriminate H.
    + destruct (String.eqb c "") eqn:Hc.
      { apply String.eqb_eq in Hc as ->.
        injection H as <- <-. repeat split; try done. by right. }
      destruct (bool_decide (c ∈ seen)) eqn:Hin; [|discriminate H].
      apply bool_decide_eq_true in Hin.
      injection H as <- <-. repeat split; try done; congruence.
    + injection H as <- <-. repeat split; try done. by left.
  - apply scan_items_capped in Hscan as (Hc & Q' & r & rest & -> & HQ & Heq).
    injection H as <- <-. repeat split; try done.
    by exists Q', r, rest.
Qed.

Lemma fetched_snoc t c :
  fetched srv (t ++ [c]) = fetched srv t ++ page_records (srv (length t) (JStr c)).
Proof.
  unfold fetched. rewrite imap_app, concat_app. cbn.
  by rewrite Nat.add_0_r, app_nil_r.
Qed.

Lemma inv_init : Inv [] "*"%string ∅ [].
Proof.
  split.
  - exists []. split_and!; [done|done|constructor].
  - done.
  - intros k Hk. rewrite take_nil. apply room_nil.
  - intros k c Hk. done.
  - intros k c c' Hk. done.
Qed.

Lemma inv_below P c seen t : Inv P c seen t → room max_packages P.
Proof.
  intros [_ -> Hcap _ _]. specialize (Hcap (length t) (le_n _)).
  by rewrite firstn_all in Hcap.
Qed.

(** The invariant is kept by a pass that goes on. *)
Lemma inv_step P c seen t data P' c' :
  Inv P c seen t →
  srv (length t) (JStr c) = Body data →
  pass P seen data = Return (NextPage P' c') →
  Inv P' c' ({[c']} ∪ seen) (t ++ [c]).
Proof.
  intros Hinv Hsrv Hpass.
  pose proof (inv_below _ _ _ _ Hinv) as Hb.
  destruct Hinv as [(followed & Ht & -> & Hnd) -> Hcap Hpages Hnamed].
  apply process_page_next in Hpass as (-> & Hcap' & Hnew & Hnext).
  rewrite <- Hsrv, <- fetched_snoc in *.
  split.
  - exists (followed ++ [c']). rewrite Ht. split; [done|]. split.
    + rewrite list_to_set_app_L. set_solver.
    + apply NoDup_app. repeat split; [done| |apply NoDup_singleton].
      intros x Hx ->%list_elem_of_singleton. apply Hnew.
      by apply elem_of_list_to_set.
  - done.
  - intros k Hk. rewrite length_app in Hk. cbn in Hk.
    destruct (decide (k ≤ length t)%nat) as [Hle|Hgt].
    + rewrite take_app_le by done. by apply Hcap.
    + rewrite take_ge by (rewrite length_app; cbn; lia). by apply Hcap'.
  - intros k x Hk. apply lookup_app_Some in Hk as [Hk|[Hlen Hk]]; [by eapply Hpages|].
    apply list_lookup_singleton_Some in Hk as [Hk <-].
    replace k with (length t) by lia. eauto.
  - intros k x x' Hk Hk'. apply lookup_app_Some in Hk as [Hk|[Hlen Hk]].
    + apply (Hnamed k x x' Hk).
      rewrite lookup_app_l in Hk'; [done|].
      apply lookup_lt_Some in Hk. rewrite length_app. cbn. lia.
    + apply list_lookup_singleton_Some in Hk as [Hk <-].
      assert (k = length t) as -> by lia.
      rewrite lookup_app_r in Hk' by (rewrite length_app; cbn; lia).
      rewrite length_app in Hk'. cbn in Hk'.
      replace (S (length t) - (length t + 1))%nat with 0%nat in Hk' by lia.
      injection Hk' as <-. eauto.
Qed.

(** A run ends with a pass that finishes, started where the invariant
    holds. *)
Lemma loop_end fuel : ∀ P c seen t t' out,
  Inv P c seen t →
  loop fuel P c seen t = Some (t', out) →
  ∃ P0 c0 seen0 t0,
    Inv P0 c0 seen0 t0 ∧ t' = t0 ++ [c0] ∧ Last P0 c0 seen0 t0 out.
Proof.
  induction fuel as [|fuel IH]; intros P c seen t t' out Hinv Hrun; [discriminate|].
  cbn [published_loop] in Hrun.
  destruct (srv (length t) (JStr c)) as [| |data] eqn:Hsrv.
  - injection Hrun as <- <-. exists P, c, seen, t.
    split; [done|]. split; [done|]. unfold last_pass. by rewrite Hsrv.
  - injection Hrun as <- <-. exists P, c, seen, t.
    split; [done|]. split; [done|]. unfold last_pass. by rewrite Hsrv.
  - destruct (pass P seen data) as [[P' why|P' c']|e] eqn:Hpass.
    + injection Hrun as <- <-. exists P, c, seen, t.
      split; [done|]. split; [done|].
      unfold last_pass. by rewrite Hsrv, Hpass.
    + eapply IH; [|exact Hrun]. by eapply inv_step.
    + injection Hrun as <- <-. exists P, c, seen, t.
      split; [done|]. split; [done|].
      unfold last_pass. by rewrite Hsrv, Hpass.
Qed.


(** More fuel does not change a run that ended. *)
Lemma loop_fuel_mono fuel : ∀ fuel' P c seen t r,
  loop fuel P c seen t = Some r →
  (fuel ≤ fuel')%nat →
  loop fuel' P c seen t = Some r.
Proof.
  induction fuel as [|fuel IH]; intros fuel' P c seen t r Hrun Hle; [discriminate|].
  destruct fuel' as [|fuel']; [lia|].
  cbn [published_loop] in *.
  destruct (srv (length t) (JStr c)); [done..|].
  destruct (pass P seen data) as [[P' why|P' c']|e]; [done| |done].
  apply IH; [done|lia].
Qed.

End PublishedProofs.


(** ** Runs of [fetch_published_packages] *)
Section Runs.

Variable parse_qs_get : string → string → option (list string).
Variable srv : server.

Local Abbreviation fetch := (fetch_published_packages parse_qs_get srv).

(** A run that made a request passed the checks; it ends with a pass
    that finishes, started where the invariant holds. *)
Lemma fetch_run fuel cols ps max t out :
  fetch fuel cols ps max = Some (t, out) →
  (valid_request cols ps = false ∧ t = [] ∧ out = Raise ValueError)
  ∨ (valid_request cols ps = true
     ∧ ∃ P0 c0 seen0 t0,
         inv parse_qs_get srv max P0 c0 seen0 t0 ∧ t = t0 ++ [c0]
         ∧ last_pass parse_qs_get srv max P0 c0 seen0 t0 out).
Proof.
  unfold fetch_published_packages. destruct (valid_request cols ps).
  - intros H. right. split; [done|]. eapply loop_end; [apply inv_init|done].
  - intros [= <- <-]. by left.
Qed.

(** The same for a run that returned. *)
Lemma fetch_returned fuel cols ps max t P why :
  fetch fuel cols ps max = Some (t, Return (P, why)) →
  ∃ P0 c0 seen0 t0,
    inv parse_qs_get srv max P0 c0 seen0 t0 ∧ t = t0 ++ [c0]
    ∧ last_pass parse_qs_get srv max P0 c0 seen0 t0 (Return (P, why)).
Proof.
  intros [(_ & _ & [=])|(_ & H)]%fetch_run. done.
Qed.

(** The records returned are those of the pages fetched, in order, cut
    where the cap was reached. *)
Lemma returned_prefix fuel cols ps max t P why :
  fetch fuel cols ps max = Some (t, Return (P, why)) →
  ∃ rest, fetched srv t = P ++ rest ∧ (why ≠ CapReached → rest = []).
Proof.
  intros (P0 & c0 & seen0 & t0 & Hinv & -> & Hlast)%fetch_returned.
  pose proof (inv_packages _ _ _ _ _ _ _ Hinv) as ->.
  rewrite fetched_snoc. unfold last_pass in Hlast.
  destruct (srv (length t0) (JStr c0)) as [| |data] eqn:Hsrv.
  - injection Hlast as -> ->. exists []. by rewrite !app_nil_r.
  - injection Hlast as -> ->. exists []. by rewrite !app_nil_r.
  - destruct (process_page _ _ _ _ _) as [[P' why'|]|] eqn:Hpass; try done.
    injection Hlast as -> ->.
    apply process_page_finished in Hpass as (_ & _ & Hrest & Hcap & _).
    destruct (decide (why' = CapReached)) as [->|Hne].
    + destruct Hcap as (_ & Q & r & rest & -> & _ & ->); [done|].
      by exists rest.
    + destruct (Hrest Hne) as [-> _]. exists []. by rewrite app_nil_r.
Qed.

End Runs.


(** ** The cap and the ids *)
Section Claims.

Variable parse_qs_get : string → string → option (list string).
Variable srv : server.

Local Abbreviation fetch := (fetch_published_packages parse_qs_get srv).
Local Abbreviation loop := (published_loop parse_qs_get srv).




(** C7, as amended (no de-duplication).  The records a run of
    [fetch_published_packages] returns are, in order, the records of the
    items on the pages it fetched, cut where the cap was reached: nothing
    is dropped or merged.  So the returned ids are pairwise distinct
    whenever the ids served on the fetched pages are. *)
Theorem returned_ids_distinct_if_served_distinct fuel cols ps max t P why :
  fetch fuel cols ps max = Some (t, Return (P, why)) →
  NoDup (ids (fetched srv t)) →
  (∃ rest, fetched srv t = P ++ rest ∧ (why ≠ CapReached → rest = []))
  ∧ NoDup (ids P).
Proof.
  intros (rest & Heq & Hrest)%returned_prefix Hnd. split; [by exists rest|].
  unfold ids in *. rewrite Heq, map_app in Hnd. by apply NoDup_app in Hnd as [? _].
Qed.

End Claims.


(** ** The sentinel and failed requests *)
Section Claims2.

Variable parse_qs_get : string → string → option (list string).
Variable srv : server.

Local Abbreviation fetch := (fetch_published_packages parse_qs_get srv).
Local Abbreviation loop := (published_loop parse_qs_get srv).
Local Abbreviation pass := (process_page parse_qs_get).
Local Abbreviation next := (next_cursor parse_qs_get).

(** Without a cap, the item loop runs through a list of dicts. *)
Lemma scan_items_uncapped items P :
  forallb is_dict items = true →
  scan_items None P items = Return (Through (P ++ records_of_items items)).
Proof.
  intros Hd. destruct (scan_items_dicts None items P Hd) as [[Q|Q] H].
  - by apply scan_items_through in H as H'; destruct H' as [-> _].
  - by apply scan_items_capped in H as [? _].
Qed.

(** Without a cap, a page of dicts that names a next mark ends
    discovery exactly when the mark is in the set. *)
Lemma process_page_uncapped data items P seen c :
  find_items data = Return items → items ≠ [] →
  forallb is_dict items = true →
  next data = Some c → c ≠ ""%string →
  pass None P seen data =
  Return (if bool_decide (c ∈ seen)
          then Finished (P ++ records_of_items items) (RepeatedOffset c)
          else NextPage (P ++ records_of_items items) c).
Proof.
  intros Hfind Hne Hd Hnext Hc. unfold process_page, next_cursor in *.
  rewrite Hfind. cbn [mbind result_bind Py.bind].
  destruct items as [|it its]; [done|].
  rewrite scan_items_uncapped by done. cbn [mbind result_bind Py.bind] in *.
  destruct (get data "nextPage") as [v|]; [|done].
  cbn [mbind result_bind Py.bind] in *.
  destruct (next_offset_from_nextpage _ v) as [[c'|]|]; try done.
  injection Hnext as ->. cbn [mbind result_bind Py.bind].
  apply String.eqb_neq in Hc. rewrite Hc. by destruct (bool_decide _).
Qed.

(** C10 (the sentinel is not in the history).  The set of seen marks
    starts empty, without the sentinel ["*"].  So on a server that answers
    the sentinel with a page of items naming ["*"] as the next mark,
    discovery without a cap makes exactly two requests, both for ["*"],
    returns the records of that page twice, and stops only when ["*"]
    comes back a second time. *)
Theorem sentinel_followed_once data items fuel cols ps :
  valid_request cols ps = true →
  (∀ n, srv n (JStr "*") = Body data) →
  find_items data = Return items → items ≠ [] →
  forallb is_dict items = true →
  next data = Some "*"%string →
  (2 ≤ fuel)%nat →
  fetch fuel cols ps None =
  Some (["*"; "*"]%string,
        Return (records_of_items items ++ records_of_items items,
                RepeatedOffset "*")).
Proof.
  intros Hvalid Hsrv Hfind Hne Hd Hnext Hfuel.
  destruct fuel as [|[|fuel]]; [lia..|].
  unfold fetch_published_packages. rewrite Hvalid.
  cbn [published_loop]. rewrite Hsrv.
  rewrite (process_page_uncapped data items _ _ "*"%string) by done.
  rewrite bool_decide_eq_false_2 by set_solver.
  rewrite Hsrv.
  rewrite (process_page_uncapped data items _ _ "*"%string) by done.
  rewrite bool_decide_eq_true_2 by set_solver.
  done.
Qed.

(** If the request number [length t + n] fails, the loop ends by then. *)
Lemma loop_stops_by max n : ∀ fuel P c seen t,
  (∀ c', request_failed (srv (length t + n)%nat c') = true) →
  (n < fuel)%nat →
  ∃ t' out, loop max fuel P c seen t = Some (t', out)
            ∧ (length t' ≤ length t + n + 1)%nat.
Proof.
  induction n as [|n IH]; intros fuel P c seen t Hfail Hfuel;
    (destruct fuel as [|fuel]; [lia|]); cbn [published_loop].
  - specialize (Hfail (JStr c)). rewrite Nat.add_0_r in Hfail.
    destruct (srv (length t) (JStr c)); [| |done];
      eexists _, _; (split; [done|]); rewrite length_app; cbn; lia.
  - destruct (srv (length t) (JStr c)) as [| |data];
      [eexists _, _; (split; [done|]); rewrite length_app; cbn; lia..|].
    destruct (pass max P seen data) as [[P' why|P' c']|e];
      [eexists _, _; (split; [done|]); rewrite length_app; cbn; lia|
      |eexists _, _; (split; [done|]); rewrite length_app; cbn; lia].
    destruct (IH fuel P' c' ({[c']} ∪ seen) (t ++ [c])) as (t' & out & Hrun & Hlen).
    + intros c''. rewrite length_app. cbn.
      replace (length t + 1 + n)%nat with (length t + S n)%nat by lia. apply Hfail.
    + lia.
    + exists t', out. split; [done|]. rewrite length_app in Hlen. cbn in Hlen. lia.
Qed.

(** The same for [fetch_packages_for_collection], where the failed
    request raises. *)
Lemma sql_stops_by n : ∀ fuel all_items offset t,
  (∀ c', request_failed (srv (length t + n)%nat c') = true) →
  (n < fuel)%nat →
  ∃ t' r, sql_loop srv fuel all_items offset t = Some (t', r)
    ∧ (length t' ≤ length t + n + 1)%nat
    ∧ ((length t' = length t + n + 1)%nat →
       r = Raise RequestException ∨ r = Raise JSONDecodeError).
Proof.
  induction n as [|n IH]; intros fuel all_items offset t Hfail Hfuel;
    (destruct fuel as [|fuel]; [lia|]); cbn [sql_loop]; unfold get_json.
  - specialize (Hfail offset). rewrite Nat.add_0_r in Hfail.
    destruct (srv (length t) offset); [| |done];
      eexists _, _; (split; [done|]); rewrite length_app; cbn; (split; [lia|]); auto.
  - destruct (srv (length t) offset) as [| |data];
      [eexists _, _; (split; [done|]); rewrite length_app; cbn; (split; lia)..|].
    cbn [mbind result_bind Py.bind].
    destruct (sql_page all_items data) as [[items|[items offset']]|e];
      [eexists _, _; (split; [done|]); rewrite length_app; cbn; (split; lia)|
      |eexists _, _; (split; [done|]); rewrite length_app; cbn; (split; lia)].
    destruct (IH fuel items offset' (t ++ [offset])) as (t' & r & Hrun & Hlen & Hr).
    + intros c''. rewrite length_app. cbn.
      replace (length t + 1 + n)%nat with (length t + S n)%nat by lia. apply Hfail.
    + lia.
    + exists t', r. split; [done|]. rewrite length_app in Hlen, Hr. cbn in Hlen, Hr.
      split; [lia|]. intros ?. apply Hr. lia.
Qed.

(** C6, as amended (a failed page request).  If the request number [k]
    fails (no response, an error status, or a body that is not JSON),
    [fetch_published_packages] ends within [k + 1] requests, and when it
    got as far as that request it returns the records of the [k] pages
    fetched before, with the error only logged.
    [fetch_packages_for_collection] also ends within [k + 1] requests,
    but when it got as far as that request the exception of [get_json]
    leaves it. *)
Theorem graceful_partial_results k fuel cols ps max :
  valid_request cols ps = true →
  (∀ c, request_failed (srv k c) = true) →
  (k < fuel)%nat →
  (∃ t out, fetch fuel cols ps max = Some (t, out)
     ∧ (length t ≤ S k)%nat
     ∧ (length t = S k →
        ∃ why, out = Return (fetched srv (take k t), why)
               ∧ (why = RequestError ∨ why = DecodeError)))
  ∧ (∃ t r, fetch_packages_for_collection srv fuel = Some (t, r)
       ∧ (length t ≤ S k)%nat
       ∧ (length t = S k →
          r = Raise RequestException ∨ r = Raise JSONDecodeError)).
Proof.
  intros Hvalid Hfail Hfuel. split.
  - destruct (loop_stops_by max k fuel [] "*"%string ∅ []) as (t & out & Hrun & Hlen);
      [done..|].
    assert (fetch fuel cols ps max = Some (t, out)) as Hfetch
      by (unfold fetch_published_packages; by rewrite Hvalid).
    exists t, out. split; [done|]. cbn in Hlen. split; [lia|]. intros Hk.
    apply fetch_run in Hfetch as [(? & _)|(_ & H)]; [congruence|].
    destruct H as (P0 & c0 & seen0 & t0 & Hinv & -> & Hlast).
    rewrite length_app in Hk. cbn in Hk.
    assert (length t0 = k) as <- by lia.
    rewrite take_app_length. rewrite <- (inv_packages _ _ _ _ _ _ _ Hinv).
    unfold last_pass in Hlast. specialize (Hfail (JStr c0)).
    destruct (srv (length t0) (JStr c0)); [| |done]; eauto.
  - destruct (sql_stops_by k fuel [] (JStr "*") []) as (t & r & Hrun & Hlen & Hr);
      [done..|].
    exists t, r. split; [done|]. cbn in Hlen, Hr. split; [lia|]. intros ?. apply Hr. lia.
Qed.

End Claims2.


(** ** The cycle guard *)
Section CycleGuard.

Variable parse_qs_get : string → string → option (list string).
Variable srv : server.

Local Abbreviation fetch := (fetch_published_packages parse_qs_get srv).
Local Abbreviation next := (next_cursor parse_qs_get).






End CycleGuard.


(** ** The downloader *)
Section Downloader.

Variable srv : asset_server.
Variable max_retries : Z.

Local Abbreviation loop := (download_loop srv max_retries).

Lemma attempts_cons_get a t : attempts (Get a :: t) = S (attempts t).
Proof. reflexivity. Qed.

Lemma attempts_cons_sleep s t : attempts (Sleep s :: t) = attempts t.
Proof. reflexivity. Qed.

Lemma sleeps_cons_get a t : sleeps (Get a :: t) = sleeps t.
Proof. reflexivity. Qed.

Lemma sleeps_cons_sleep s t : sleeps (Sleep s :: t) = s :: sleeps t.
Proof. reflexivity. Qed.

(** An attempt that ends in the handler: back off and go on, unless
    it was the last. *)
Lemma loop_request_exception fuel attempt :
  attempt ≤ max_retries →
  raises_request_exception (srv (attempt + 1)) = true →
  ∃ evs, attempts evs = 0%nat ∧ sleeps evs = []
  ∧ loop (S fuel) attempt =
    if max_retries <? attempt + 1
    then Some (Get (attempt + 1) :: evs, Return false)
    else after (Get (attempt + 1) :: evs ++ [Sleep (5 * (attempt + 1))])
               (loop fuel (attempt + 1)).
Proof.
  intros Hle Hexn. cbn [download_loop].
  rewrite (proj2 (Z.leb_le _ _) Hle).
  destruct (srv (attempt + 1)) as [|status ra body]; [by exists []|].
  cbn in Hexn. apply andb_true_iff in Hexn as [H503 Herr].
  apply negb_true_iff in H503. rewrite H503.
  destruct (is_http_error status); [by exists []|].
  destruct body; try done. by exists [MadeDirs; Opened].
Qed.

Lemma attempts_app t1 t2 : attempts (t1 ++ t2) = (attempts t1 + attempts t2)%nat.
Proof. unfold attempts. by rewrite List.filter_app, length_app. Qed.

Lemma sleeps_app t1 t2 : sleeps (t1 ++ t2) = sleeps t1 ++ sleeps t2.
Proof. unfold sleeps. apply omap_app. Qed.

(** The loop ends once the fuel exceeds the passes left. *)
Lemma download_loop_total n : ∀ attempt fuel,
  max_retries + 1 - attempt ≤ Z.of_nat n → (n < fuel)%nat →
  ∃ r, loop fuel attempt = Some r.
Proof.
  induction n as [|n IH]; intros attempt fuel Hn Hfuel;
    (destruct fuel as [|fuel]; [lia|]); cbn [download_loop].
  - rewrite (proj2 (Z.leb_gt _ _)) by lia. by eexists.
  - destruct (attempt <=? max_retries) eqn:Hle; [|by eexists].
    destruct (IH (attempt + 1) fuel) as [[t r] Hr]; [lia..|]. rewrite Hr.
    destruct (srv (attempt + 1)) as [|status ra body].
    + destruct (max_retries <? attempt + 1); by eexists.
    + destruct (status =? 503).
      * destruct (py_int _) as [s|]; [|by eexists].
        destruct (time_sleep _ s); by eexists.
      * destruct (is_http_error status);
          [destruct (max_retries <? attempt + 1); by eexists|].
        destruct body; try by eexists.
        destruct (max_retries <? attempt + 1); by eexists.
Qed.

Lemma after_some {A} evs (x : option (traced A)) r :
  after evs x = Some r → ∃ t y, x = Some (t, y) ∧ r = (evs ++ t, y).
Proof. destruct x as [[t y]|]; [|done]. intros [= <-]. eauto. Qed.

(** More fuel does not change a run that ended. *)
Lemma download_loop_mono fuel : ∀ fuel' attempt r,
  loop fuel attempt = Some r → (fuel ≤ fuel')%nat → loop fuel' attempt = Some r.
Proof.
  induction fuel as [|fuel IH]; intros fuel' attempt r Hrun Hle; [done|].
  destruct fuel' as [|fuel']; [lia|]. cbn [download_loop] in *.
  destruct (attempt <=? max_retries); [|done].
  assert (∀ evs, after evs (loop fuel (attempt + 1)) = Some r →
                 after evs (loop fuel' (attempt + 1)) = Some r) as Hafter.
  { intros evs (t & y & Ht & ->)%after_some.
    rewrite (IH fuel' _ _ Ht) by lia. done. }
  destruct (srv (attempt + 1)) as [|status ra body].
  - destruct (max_retries <? attempt + 1); auto.
  - destruct (status =? 503).
    + destruct (py_int _) as [s|]; [|done]. destruct (time_sleep _ s); auto.
    + destruct (is_http_error status);
        [destruct (max_retries <? attempt + 1); auto|].
      destruct body; try done.
      destruct (max_retries <? attempt + 1); auto.
Qed.

(** [download_with_retries] is the loop run to its end. *)
Lemma download_with_retries_loop fuel :
  (download_fuel max_retries ≤ fuel)%nat →
  loop fuel 0 = Some (download_with_retries srv max_retries).
Proof.
  intros Hfuel. unfold download_with_retries.
  destruct (download_loop_total (Z.to_nat (max_retries + 1)) 0
              (download_fuel max_retries)) as [r Hr];
    [lia|unfold download_fuel; lia|].
  rewrite Hr. cbn. by eapply download_loop_mono.
Qed.

(** When every attempt ends in the handler, the loop makes the passes
    left and backs off between them. *)
Lemma exhaustion_from n : ∀ attempt fuel,
  (∀ a, raises_request_exception (srv a) = true) →
  Z.of_nat n = max_retries + 1 - attempt → (n < fuel)%nat →
  ∃ t, loop fuel attempt = Some (t, Return false)
       ∧ attempts t = n
       ∧ sleeps t = map (λ i, 5 * (attempt + Z.of_nat i)) (seq 1 (n - 1)).
Proof.
  induction n as [|n IH]; intros attempt fuel Hexn Hn Hfuel;
    (destruct fuel as [|fuel]; [lia|]).
  - cbn [download_loop]. rewrite (proj2 (Z.leb_gt _ _)) by lia. by exists [].
  - destruct (loop_request_exception fuel attempt) as (evs & Hevs & Hsle & ->);
      [lia|done|].
    destruct (max_retries <? attempt + 1) eqn:Hlast.
    + apply Z.ltb_lt in Hlast. assert (n = 0%nat) as -> by lia.
      exists (Get (attempt + 1) :: evs). split; [done|].
      rewrite attempts_cons_get, sleeps_cons_get, Hevs, Hsle. done.
    + apply Z.ltb_ge in Hlast.
      destruct (IH (attempt + 1) fuel) as (t & -> & Hatt & Hsl); [done|lia..|].
      eexists. split; [done|]. cbn [app].
      rewrite attempts_cons_get, sleeps_cons_get, <- app_assoc.
      rewrite attempts_app, sleeps_app, Hevs, Hsle. cbn [app Nat.add].
      rewrite attempts_cons_sleep, Hatt. split; [done|].
      destruct n as [|n]; [lia|].
      rewrite sleeps_cons_sleep, Hsl.
      replace (S (S n) - 1)%nat with (S n) by lia.
      replace (S n - 1)%nat with n by lia. cbn [seq map].
      f_equal. rewrite <- (seq_shift n 1), map_map.
      apply map_ext. intros i. lia.
Qed.

(** C4 (retry exhaustion).  For [max_retries >= 0], when every attempt
    ends in a [RequestException] (as with HTTP 500 each time),
    [download_with_retries] returns [False] after exactly
    [max_retries + 1] requests, having slept 5, 10, ..., [5 * max_retries]
    seconds between them. *)
Theorem retry_exhaustion fuel :
  0 ≤ max_retries →
  (∀ a, raises_request_exception (srv a) = true) →
  (Z.to_nat (max_retries + 1) < fuel)%nat →
  ∃ t, loop fuel 0 = Some (t, Return false)
       ∧ download_with_retries srv max_retries = (t, Return false)
       ∧ attempts t = Z.to_nat (max_retries + 1)
       ∧ sleeps t = backoffs (Z.to_nat max_retries).
Proof.
  intros Hmax Hexn Hfuel.
  destruct (exhaustion_from (Z.to_nat (max_retries + 1)) 0 fuel)
    as (t & Hrun & Hatt & Hsl); [done|lia|done|].
  exists t. split; [done|]. split.
  - pose proof (download_with_retries_loop (fuel `max` download_fuel max_retries)) as H.
    rewrite (download_loop_mono _ _ _ _ Hrun) in H by lia.
    symmetry. injection H; [done|lia].
  - split; [done|]. rewrite Hsl. unfold backoffs.
    replace (Z.to_nat (max_retries + 1) - 1)%nat with (Z.to_nat max_retries) by lia.
    done.
Qed.

(** One pass of the loop: a request, what the attempt does besides,
    and then either the end of the run or the rest of the loop. *)
Lemma loop_step fuel attempt t r :
  attempt ≤ max_retries →
  loop (S fuel) attempt = Some (t, r) →
  ∃ evs rest, t = Get (attempt + 1) :: evs ++ rest
    ∧ attempts evs = 0%nat
    ∧ (rest = [] ∨ loop fuel (attempt + 1) = Some (rest, r)).
Proof.
  intros Hle Hrun. cbn [download_loop] in Hrun.
  rewrite (proj2 (Z.leb_le _ _) Hle) in Hrun.
  assert (∀ evs, attempts evs = 0%nat →
            after (Get (attempt + 1) :: evs) (loop fuel (attempt + 1)) = Some (t, r) →
            ∃ evs rest, t = Get (attempt + 1) :: evs ++ rest
              ∧ attempts evs = 0%nat
              ∧ (rest = [] ∨ loop fuel (attempt + 1) = Some (rest, r))) as Hgo.
  { intros evs Hevs (t' & y & Ht & [= -> ->])%after_some.
    exists evs, t'. auto. }
  assert (∀ evs, attempts evs = 0%nat →
            Some (Get (attempt + 1) :: evs, r) = Some (t, r) →
            ∃ evs rest, t = Get (attempt + 1) :: evs ++ rest
              ∧ attempts evs = 0%nat
              ∧ (rest = [] ∨ loop fuel (attempt + 1) = Some (rest, r))) as Hend.
  { intros evs Hevs [= <-]. exists evs, []. rewrite app_nil_r. auto. }
  destruct (srv (attempt + 1)) as [|status ra body].
  - destruct (max_retries <? attempt + 1).
    + injection Hrun as <- <-. by apply (Hend []).
    + by apply (Hgo [Sleep (5 * (attempt + 1))]).
  - destruct (status =? 503).
    + destruct (py_int _) as [s|].
      * destruct (time_sleep _ s).
        -- injection Hrun as <- <-. by apply (Hend []).
        -- by apply (Hgo [Sleep s]).
      * injection Hrun as <- <-. by apply (Hend []).
    + destruct (is_http_error status).
      * destruct (max_retries <? attempt + 1).
        -- injection Hrun as <- <-. by apply (Hend []).
        -- by apply (Hgo [Sleep (5 * (attempt + 1))]).
      * destruct body.
        -- injection Hrun as <- <-. by apply (Hend [MadeDirs; Opened; Saved]).
        -- injection Hrun as <- <-. by apply (Hend []).
        -- injection Hrun as <- <-. by apply (Hend [MadeDirs]).
        -- destruct (max_retries <? attempt + 1).
           ++ injection Hrun as <- <-. by apply (Hend [MadeDirs; Opened]).
           ++ by apply (Hgo [MadeDirs; Opened; Sleep (5 * (attempt + 1))]).
        -- injection Hrun as <- <-. by apply (Hend [MadeDirs; Opened]).
Qed.




End Downloader.


(** ** The driver *)
(** *** Text before the first separator *)

Lemma index_char c s : String.index 0 (String c "") s = find_char c s.
Proof.
  induction s as [|a s IH]; [done|].
  cbn [String.index find_char String.prefix].
  destruct (ascii_dec c a) as [->|Hne].
  - rewrite Ascii.eqb_refl. by destruct s.
  - rewrite (proj2 (Ascii.eqb_neq a c)) by congruence.
    rewrite IH. by destruct (find_char c s).
Qed.



Lemma contains_char c s :
  contains (String c "") s = bool_decide (is_Some (find_char c s)).
Proof.
  unfold contains. rewrite index_char. by destruct (find_char c s).
Qed.



Section DriverProofs.

Variable summary_srv : json → page_response.
Variable asset_srv : json → asset_server.
Variable py_str : json → string.

Local Abbreviation dpf := (download_package_formats summary_srv asset_srv py_str).
Local Abbreviation formats_loop := (download_formats asset_srv py_str).
Local Abbreviation run_all := (process_packages summary_srv asset_srv py_str).









End DriverProofs.


(** ** Text, years, paths and the destination *)
(** *** Characters and pieces of text *)

Lemma find_char_none_app c a b :
  find_char c (a ++ b) = None ↔ find_char c a = None ∧ find_char c b = None.
Proof.
  induction a as [|x a IH]; simpl; [naive_solver|].
  destruct (Ascii.eqb x c); [naive_solver|].
  destruct (find_char c (a ++ b)), (find_char c a); naive_solver.
Qed.

Lemma find_char_none_take c n : ∀ s,
  find_char c s = None → find_char c (str_take n s) = None.
Proof.
  unfold str_take. induction n as [|n IH]; intros [|x s]; simpl; try done.
  destruct (Ascii.eqb x c); [done|]. intros Hs.
  destruct (find_char c s) eqn:Hf; [done|]. by rewrite IH.
Qed.

(** The text splits at the first [c]. *)
Lemma find_char_split c : ∀ s i,
  find_char c s = Some i →
  s = (str_take i s ++ String c (str_drop (S i) s))%string
  ∧ find_char c (str_take i s) = None.
Proof.
  unfold str_take. induction s as [|x s IH]; intros i; simpl; [done|].
  destruct (Ascii.eqb x c) eqn:Hx.
  - intros [= <-]. apply Ascii.eqb_eq in Hx as ->. simpl. by destruct s.
  - destruct (find_char c s) as [j|] eqn:Hf; [|done]. intros [= <-]. simpl.
    destruct (IH j eq_refl) as [Heq Hnone]. rewrite Hx, Hnone.
    split; [|done]. change (String x s = String x (substring 0 j s +:+ String c (str_drop (S j) s))).
    by f_equal.
Qed.

Lemma all_chars_find_none (p : ascii → bool) c s :
  p c = false → all_chars p s = true → find_char c s = None.
Proof.
  intros Hc. induction s as [|x s IH]; simpl; [done|].
  intros [Hx Hs]%andb_true_iff.
  destruct (Ascii.eqb_spec x c) as [->|_]; [congruence|]. by rewrite IH.
Qed.

Lemma all_chars_take p n : ∀ s,
  all_chars p s = true → all_chars p (str_take n s) = true.
Proof.
  unfold str_take. induction n as [|n IH]; intros [|x s]; simpl; try done.
  intros [-> Hs]%andb_true_iff. by apply IH.
Qed.


(** *** The year *)

Lemma valid_date_year y m d : Dates.valid_date y m d = true → 1 ≤ y ≤ 9999.
Proof.
  unfold Dates.valid_date. rewrite !andb_true_iff, !Z.leb_le. lia.
Qed.

Lemma strptime_year_range fmt s y :
  Dates.strptime_year fmt s = Some y → 1 ≤ y ≤ 9999.
Proof.
  unfold Dates.strptime_year.
  destruct (Dates.match_toks fmt s) as [[vs [|? ?]]|]; try done.
  do 5 (destruct vs as [|? vs]; [done|]).
  destruct vs as [|? vs].
  - destruct (Dates.valid_date _ _ _) eqn:Hv; [|done].
    intros [= <-]. by eapply valid_date_year.
  - do 5 (destruct vs as [|? vs]; [done|]).
    destruct (Dates.valid_date _ _ _) eqn:Hv; [|done].
    cbn [andb]. destruct (Dates.valid_time _ _ _); [|done].
    intros [= <-]. by eapply valid_date_year.
Qed.

Lemma first_year_range fmts s y : first_year fmts s = Some y → 1 ≤ y ≤ 9999.
Proof.
  induction fmts as [|fmt fmts IH]; [done|]. cbn [first_year].
  destruct (Dates.strptime_year fmt s) eqn:Hy; [|done].
  intros [= <-]. by eapply strptime_year_range.
Qed.

(** The years from 1 to 9999 print as one to four digits. *)
Lemma year_digits y :
  1 ≤ y ≤ 9999 →
  isdigit (str_of_int y) = true ∧ (String.length (str_of_int y) ≤ 4)%nat.
Proof.
  intros Hy.
  assert (forallb (λ y, isdigit (str_of_int y)
                        && (String.length (str_of_int y) <=? 4)%nat)
                  (seqZ 1 9999) = true) as Hall by (vm_compute; reflexivity).
  rewrite forallb_forall in Hall.
  specialize (Hall y). rewrite <- list_elem_of_In, elem_of_seqZ in Hall.
  apply andb_true_iff in Hall as [? ?%Nat.leb_le]; [done|lia].
Qed.

(** Where the year comes from: the sentinel, the year of a date that
    parsed, or the first four characters when they are digits. *)
Lemma year_origin date_issued :
  package_year_from_date date_issued = "unknown_year"%string
  ∨ (∃ y, 1 ≤ y ≤ 9999 ∧ package_year_from_date date_issued = str_of_int y)
  ∨ (∃ d, date_issued = Some d ∧ isdigit (str_take 4 d) = true
          ∧ package_year_from_date date_issued = str_take 4 d).
Proof.
  unfold package_year_from_date. destruct date_issued as [d|]; [|by left].
  destruct (String.eqb d ""); [by left|].
  destruct (first_year _ _) as [y|] eqn:Hy.
  - right. left. exists y. split; [by eapply first_year_range|done].
  - destruct (isdigit (str_take 4 d)) eqn:Hd; [|by left].
    right. right. by exists d.
Qed.

(** The year is a plain path component. *)
Lemma year_plain date_issued :
  find_char "/" (package_year_from_date date_issued) = None
  ∧ Paths.keep (package_year_from_date date_issued) = true.
Proof.
  assert (∀ s, isdigit s = true →
               find_char "/" s = None ∧ Paths.keep s = true) as Hdigits.
  { intros s Hs. split.
    - apply andb_true_iff in Hs as [_ Hs].
      by eapply all_chars_find_none; [|exact Hs].
    - unfold Paths.keep. apply andb_true_iff.
      rewrite !negb_true_iff, !String.eqb_neq.
      split; intros ->; done. }
  destruct (year_origin date_issued) as [->|[(y & Hy & ->)|(d & _ & Hd & ->)]].
  - done.
  - by apply Hdigits, year_digits.
  - by apply Hdigits.
Qed.

(** *** Paths *)

Lemma split_char_none c : ∀ s, find_char c s = None → split_char c s = [s].
Proof.
  induction s as [|x s IH]; simpl; [done|].
  destruct (Ascii.eqb x c); [done|]. intros Hs.
  destruct (find_char c s); [done|]. by rewrite IH.
Qed.

(** Joining a plain component appends it. *)
Lemma joinpath_plain p seg :
  find_char "/" seg = None → Paths.keep seg = true →
  p // seg = Paths.mkPath (Paths.root p) (Paths.parts p ++ [seg]).
Proof.
  intros Hfree Hkeep. unfold Paths.joinpath, startswith.
  assert (String.prefix "/" seg = false) as ->.
  { destruct seg as [|x seg]; [done|]. cbn [String.prefix].
    destruct (ascii_dec "/" x) as [<-|]; [|done].
    cbn [find_char] in Hfree. by rewrite Ascii.eqb_refl in Hfree. }
  unfold Paths.parts_of. rewrite split_char_none by done. cbn [List.filter].
  by rewrite Hkeep.
Qed.

Lemma known_kind_plain fmt :
  is_Some (DOWNLOAD_KEY_MAP !! fmt) →
  find_char "/" fmt = None ∧ fmt ≠ ""%string.
Proof.
  intros [key Hkey]. unfold DOWNLOAD_KEY_MAP in Hkey.
  apply elem_of_list_to_map_2 in Hkey.
  repeat (apply elem_of_cons in Hkey as [[= -> ->]|Hkey]; [done|]).
  by apply elem_of_nil in Hkey.
Qed.

Lemma keep_spec seg :
  Paths.keep seg = true ↔ seg ≠ ""%string ∧ seg ≠ "."%string.
Proof.
  unfold Paths.keep. rewrite andb_true_iff, !negb_true_iff, !String.eqb_neq. done.
Qed.

(** The collection code of an id without a slash has none. *)
Lemma collection_code_slash_free id :
  find_char "/" id = None → find_char "/" (package_collection_code id) = None.
Proof.
  intros Hid. unfold package_collection_code, before_first.
  rewrite contains_char, index_char.
  destruct (find_char "-" id) as [i|] eqn:Hf.
  - rewrite (bool_decide_eq_true_2 (is_Some (Some i))) by (by eexists).
    by apply find_char_none_take.
  - by rewrite (bool_decide_eq_false_2 (is_Some None)) by (by intros [? ?]).
Qed.

(** The name of the file is a plain component, and never [".."]. *)
Lemma file_name_plain id fmt :
  find_char "/" id = None → is_Some (DOWNLOAD_KEY_MAP !! fmt) →
  find_char "/" (id ++ "." ++ fmt)%string = None
  ∧ Paths.keep (id ++ "." ++ fmt)%string = true
  ∧ (id ++ "." ++ fmt)%string ≠ ".."%string.
Proof.
  intros Hid Hkey. destruct (known_kind_plain fmt Hkey) as [Hfmt Hne].
  split; [by rewrite !find_char_none_app|]. split.
  - apply keep_spec. split; [by destruct id|].
    destruct id as [|x [|??]]; [|by destruct fmt|done].
    cbn. intros [= ?]. by destruct fmt.
  - destruct id as [|x [|a s]].
    + intros Heq. vm_compute in Heq. injection Heq as ->.
      destruct Hkey as [key Hkey]. by vm_compute in Hkey.
    + intros Heq. vm_compute in Heq. injection Heq as _ Heq. by destruct fmt.
    + intros Heq. destruct s; vm_compute in Heq; by injection Heq.
Qed.



Section Layout.

Variable summary_srv : json → page_response.
Variable asset_srv : json → asset_server.
Variable py_str : json → string.

Local Abbreviation dpf := (download_package_formats summary_srv asset_srv py_str).


End Layout.







Example three_pages_run :
  ∃ P, fetch_published_packages no_query three_pages 3 ["BILLS"%string] 100 None
       = Some (["*"; "p2"; "p3"]%string, Return (P, RepeatedOffset "p2"))
       ∧ ids P = JStr <$> ["A-1"; "A-2"; "A-3"; "A-4"; "A-5"; "A-6"]%string.
Proof. eexists. split; [vm_compute; reflexivity|reflexivity]. Qed.


Example three_pages_capped :
  ∃ P, fetch_published_packages no_query three_pages 10 ["BILLS"%string] 100 (Some 3)
       = Some (["*"; "p2"]%string, Return (P, CapReached))
       ∧ ids P = JStr <$> ["A-1"; "A-2"; "A-3"]%string.
Proof. eexists. split; [vm_compute; reflexivity|reflexivity]. Qed.


(** C7 fails as stated: a server that serves one item on two pages gets
    its id back twice. *)
Lemma distinct_ids_counterexample :
  ∃ t P why,
    fetch_published_packages no_query repeating_server 10 ["BILLS"%string] 100 None
    = Some (t, Return (P, why))
    ∧ ids P = [JStr "BILLS-1"; JStr "BILLS-1"]
    ∧ ¬ NoDup (ids P).
Proof.
  eexists _, _, _. split; [vm_compute; reflexivity|]. split; [reflexivity|].
  intros [Hnot _]%NoDup_cons. apply Hnot. left.
Qed.

Lemma three_pages_ids :
  ids (fetched three_pages ["*"; "p2"; "p3"]%string)
  = JStr <$> ["A-1"; "A-2"; "A-3"; "A-4"; "A-5"; "A-6"]%string.
Proof. reflexivity. Defined.

(** Six distinct ids served, six distinct ids returned. *)
Lemma returned_ids_witness :
  ∃ t P why,
    fetch_published_packages no_query three_pages 10 ["BILLS"%string] 100 None
    = Some (t, Return (P, why))
    ∧ (∃ rest, fetched three_pages t = P ++ rest ∧ (why ≠ CapReached → rest = []))
    ∧ NoDup (ids P).
Proof.
  eexists _, _, _. split; [vm_compute; reflexivity|].
  apply (returned_ids_distinct_if_served_distinct no_query three_pages 10
           ["BILLS"%string] 100 None); [vm_compute; reflexivity|].
  rewrite three_pages_ids. apply NoDup_fmap_2; [by intros ?? [=]|].
  by apply (bool_decide_unpack _).
Defined.

(** The sentinel server: two requests for ["*"], the record twice. *)
Lemma sentinel_followed_once_witness :
  fetch_published_packages no_query sentinel_server 2 ["BILLS"%string] 100 None =
  Some (["*"; "*"]%string,
        Return (records_of_items [item "BILLS-1"]
                  ++ records_of_items [item "BILLS-1"],
                RepeatedOffset "*")).
Proof.
  apply (sentinel_followed_once no_query sentinel_server sentinel_page
           [item "BILLS-1"] 2 ["BILLS"%string] 100);
    [reflexivity|reflexivity|reflexivity|done|reflexivity|reflexivity|lia].
Defined.

(** C6 fails as stated: when the second request fails,
    [fetch_packages_for_collection] raises, where
    [fetch_published_packages] returns the record of the first page. *)
Lemma graceful_partial_results_counterexample :
  fetch_packages_for_collection failing_server 10
  = Some ([JStr "*"; JStr "p2"], Raise RequestException)
  ∧ ∃ P, fetch_published_packages no_query failing_server 10 ["BILLS"%string] 100 None
         = Some (["*"; "p2"]%string, Return (P, RequestError))
         ∧ ids P = [JStr "A-1"].
Proof.
  split; [reflexivity|]. eexists. split; [vm_compute; reflexivity|reflexivity].
Qed.

(** The second request fails. *)
Lemma graceful_partial_results_witness :
  (∃ t out,
     fetch_published_packages no_query failing_server 10 ["BILLS"%string] 100 None
     = Some (t, out)
     ∧ (length t ≤ 2)%nat
     ∧ (length t = 2%nat →
        ∃ why, out = Return (fetched failing_server (take 1 t), why)
               ∧ (why = RequestError ∨ why = DecodeError)))
  ∧ (∃ t r, fetch_packages_for_collection failing_server 10 = Some (t, r)
       ∧ (length t ≤ 2)%nat
       ∧ (length t = 2%nat →
          r = Raise RequestException ∨ r = Raise JSONDecodeError)).
Proof.
  apply (graceful_partial_results no_query failing_server 1 10
           ["BILLS"%string] 100 None);
    [reflexivity|intros c; reflexivity|lia].
Defined.

(** C3 (the downloader never raises) does not hold of the code.  A 503
    whose Retry-After is an HTTP date, or a negative number, makes
    [int()] or [time.sleep] raise [ValueError], and a destination that
    cannot be written raises [OSError]; the handler catches
    [RequestException] only, so the exception leaves
    [download_with_retries] after the first request. *)
Theorem download_lets_exceptions_out :
  download_with_retries
    (always 503 (Some "Wed, 21 Oct 2015 07:28:00 GMT"%string)) 3
  = ([Get 1], Raise ValueError)
  ∧ download_with_retries (always 503 (Some "-1"%string)) 3
    = ([Get 1], Raise ValueError)
  ∧ download_with_retries unwritable 3 = ([Get 1], Raise OSError).
Proof. repeat split; vm_compute; reflexivity. Qed.

(** HTTP 500 on every attempt, [max_retries = 3]: four requests. *)
Lemma retry_exhaustion_witness :
  ∃ t, download_loop (always 500 None) 3 5 0 = Some (t, Return false)
       ∧ download_with_retries (always 500 None) 3 = (t, Return false)
       ∧ attempts t = Z.to_nat (3 + 1)
       ∧ sleeps t = backoffs (Z.to_nat 3).
Proof.
  apply (retry_exhaustion (always 500 None) 3 5);
    [lia|intros a; reflexivity|vm_compute; lia].
Defined.

Example retry_exhaustion_trace :
  download_with_retries (always 500 None) 3
  = ([Get 1; Sleep 5; Get 2; Sleep 10; Get 3; Sleep 15; Get 4], Return false).
Proof. vm_compute. reflexivity. Qed.



Example busy_twice_trace :
  download_with_retries busy_twice 3
  = ([Get 1; Sleep 2; Get 2; Sleep 2; Get 3; MadeDirs; Opened; Saved],
     Return true).
Proof. vm_compute. reflexivity. Qed.

Example busy_default_wait :
  download_with_retries (always 503 None) 1
  = ([Get 1; Sleep 30; Get 2; Sleep 30], Return false).
Proof. vm_compute. reflexivity. Qed.



Example five_records_run :
  (process_packages summaries assets plain_str
     [record "R-1" "2019-05-01"; record "R-2" "2019-05-02";
      record "R-3" "2019-05-03"; record "R-4" "2019-05-04";
      record "R-5" "2019-05-05"] ["pdf"%string] data_dir false).2
  = Return tt
  ∧ length (List.filter (λ ev, bool_decide (is_Some (dest_of ev)))
      (process_packages summaries assets plain_str
        [record "R-1" "2019-05-01"; record "R-2" "2019-05-02";
         record "R-3" "2019-05-03"; record "R-4" "2019-05-04";
         record "R-5" "2019-05-05"] ["pdf"%string] data_dir false).1) = 4%nat.
Proof. split; vm_compute; reflexivity. Qed.



Example unparseable_date_year :
  package_year_from_date (Some "spring 2019"%string) = "unknown_year"%string
  ∧ package_year_from_date None = "unknown_year"%string
  ∧ package_year_from_date (Some "2019-02-30"%string) = "2019"%string
  ∧ package_year_from_date (Some "2019-05-01T10:20:30Z"%string) = "2019"%string.
Proof. repeat split; vm_compute; reflexivity. Qed.


(** * More of the code: proofs

    ** Discovery: the items of a page *)
(** *** More on the item loop *)

Lemma has_id_dict m :
  has_id (JObj m) = truthy (py_or (dict_get m "packageId") (dict_get m "package_id")).
Proof. unfold has_id. by rewrite get_or_dict. Qed.

(** The records made from dicts are made from the items that have an
    identifier, in order. *)
Lemma records_of_items_raw items :
  forallb is_dict items = true →
  map raw (records_of_items items) = List.filter has_id items.
Proof.
  induction items as [|it items IH]; [done|].
  intros [Hd Hrest]%andb_true_iff. destruct it as [| | | | |m]; try done.
  rewrite records_of_items_cons. cbn [List.filter item_record].
  rewrite has_id_dict.
  destruct (truthy (py_or _ _)); cbn [map raw]; by rewrite IH.
Qed.

Lemma records_of_items_from_item items :
  Forall from_item (records_of_items items).
Proof.
  induction items as [|it items IH]; [constructor|].
  rewrite records_of_items_cons.
  destruct (item_record it) as [r|] eqn:Hr; [|done].
  constructor; [|done].
  destruct it as [| | | | |m]; try done. cbn [item_record] in Hr.
  destruct (truthy (py_or _ _)) eqn:Hid; [|done]. injection Hr as <-.
  unfold from_item. cbn [package_id raw date_issued]. by rewrite !get_or_dict.
Qed.

Lemma fetched_from_item srv t : Forall from_item (fetched srv t).
Proof.
  unfold fetched. apply Forall_concat, Forall_forall.
  intros l (n & c & -> & _)%elem_of_lookup_imap.
  apply records_of_items_from_item.
Qed.

Section MoreDiscovery.

Variable parse_qs_get : string → string → option (list string).
Variable srv : server.

Local Abbreviation fetch := (fetch_published_packages parse_qs_get srv).
Local Abbreviation loop := (published_loop parse_qs_get srv).

(** X1 (items without an identifier are skipped).  Without a cap, the
    item loop of [fetch_published_packages] over items that are dicts
    runs through and appends one record for each item that has a truthy
    ["packageId"] or ["package_id"], in order, each holding its item
    as [raw]; the other items are passed over, so the records appended
    and the items passed over add up to the items. *)
Theorem missing_identifier_skip items P :
  forallb is_dict items = true →
  ∃ new, scan_items None P items = Return (Through (P ++ new))
    ∧ map raw new = List.filter has_id items
    ∧ (length new + length (List.filter (λ it, negb (has_id it)) items)
       = length items)%nat.
Proof.
  intros Hd. exists (records_of_items items).
  split; [by apply scan_items_uncapped|].
  pose proof (records_of_items_raw items Hd) as Hraw. split; [done|].
  rewrite <- (length_map raw), Hraw. apply List.filter_length.
Qed.

(** X2 (what a returned record holds).  Every record that
    [fetch_published_packages] returns has a truthy packageId, which is
    what its raw item gives under ["packageId"] or else under
    ["package_id"], and has as its issued date what the raw item gives
    under ["dateIssued"] or else under ["date_issued"]. *)
Theorem returned_records_have_ids fuel cols ps max t P why :
  fetch fuel cols ps max = Some (t, Return (P, why)) →
  Forall (λ r, truthy (package_id r) = true
             ∧ get_or (raw r) "packageId" "package_id" = Return (package_id r)
             ∧ get_or (raw r) "dateIssued" "date_issued"
               = Return (date_issued r)) P.
Proof.
  intros (rest & Heq & _)%returned_prefix.
  pose proof (fetched_from_item srv t) as H. rewrite Heq in H.
  by apply Forall_app in H as [H _].
Qed.

(** X3 (an item that is no dict ends discovery).  When a page is
    fetched whose list of items holds, after items that the loop runs
    through, an item that is no dict, the pass raises [AttributeError]:
    [fetch_published_packages] returns nothing, the records gathered
    until then are lost. *)
Theorem non_dict_item_aborts max fuel P c seen t data pre bad post Q :
  srv (length t) (JStr c) = Body data →
  find_items data = Return (pre ++ bad :: post) →
  scan_items max P pre = Return (Through Q) →
  is_dict bad = false →
  loop max (S fuel) P c seen t = Some (t ++ [c], Raise AttributeError).
Proof.
  intros Hsrv Hfind Hpre Hbad. cbn [published_loop]. rewrite Hsrv.
  unfold process_page. rewrite Hfind. cbn [mbind result_bind Py.bind].
  rewrite scan_items_app, Hpre, scan_items_not_dict by done.
  by destruct pre.
Qed.

End MoreDiscovery.


(** ** The downloader: requests and the file *)
Section MoreDownloader.

Variable srv : asset_server.
Variable max_retries : Z.

Local Abbreviation loop := (download_loop srv max_retries).

(** An attempt answered with a 503 that can be waited for: sleep and go
    round again. *)
Lemma loop_busy fuel attempt :
  attempt ≤ max_retries →
  busy srv (attempt + 1) = true →
  ∃ seconds, loop (S fuel) attempt =
    after [Get (attempt + 1); Sleep seconds] (loop fuel (attempt + 1)).
Proof.
  intros Hle Hbusy. cbn [download_loop]. rewrite (proj2 (Z.leb_le _ _) Hle).
  unfold busy, retry_after_wait in Hbusy.
  destruct (srv (attempt + 1)) as [|status ra body]; [done|].
  apply andb_true_iff in Hbusy as [-> Hwait].
  destruct (py_int _) as [s|]; [|done].
  destruct (time_sleep _ s); [done|]. by exists s.
Qed.

(** An attempt whose body is written ends the loop. *)
Lemma loop_succeeds fuel attempt :
  attempt ≤ max_retries →
  succeeds (srv (attempt + 1)) = true →
  loop (S fuel) attempt
  = Some ([Get (attempt + 1); MadeDirs; Opened; Saved], Return true).
Proof.
  intros Hle Hok. cbn [download_loop]. rewrite (proj2 (Z.leb_le _ _) Hle).
  destruct (srv (attempt + 1)) as [|status ra []]; try done.
  cbn [succeeds] in Hok. apply andb_true_iff in Hok as [H503 Herr].
  apply negb_true_iff in H503, Herr. by rewrite H503, Herr.
Qed.

(** The requests of a run are no more than the passes left. *)
Lemma loop_attempts_bound fuel : ∀ attempt t r,
  loop fuel attempt = Some (t, r) →
  (attempts t ≤ Z.to_nat (max_retries + 1 - attempt))%nat.
Proof.
  induction fuel as [|fuel IH]; intros attempt t r Hrun; [done|].
  destruct (decide (attempt ≤ max_retries)) as [Hle|Hgt].
  2: { cbn [download_loop] in Hrun. rewrite (proj2 (Z.leb_gt _ _)) in Hrun by lia.
       injection Hrun as <- <-. cbn. lia. }
  destruct (loop_step _ _ _ _ _ _ Hle Hrun) as (evs & rest & -> & Hevs & Hrest).
  rewrite attempts_cons_get, attempts_app, Hevs.
  destruct Hrest as [->|Hrest]; [cbn; lia|].
  apply IH in Hrest. lia.
Qed.

(** X4 (the number of requests).  Whatever the endpoint answers,
    [download_with_retries] makes at most [max_retries + 1] requests
    (none when [max_retries] is negative). *)
Theorem attempts_bounded :
  (attempts (download_with_retries srv max_retries).1
   ≤ Z.to_nat (max_retries + 1))%nat.
Proof.
  pose proof (download_with_retries_loop srv max_retries _ (le_n _)) as Hrun.
  destruct (download_with_retries srv max_retries) as [t r].
  apply loop_attempts_bound in Hrun. cbn [fst]. by rewrite Z.sub_0_r in Hrun.
Qed.

(** The file is written whole at the end of a run that returns
    [True], and in no other run. *)
Lemma loop_saved fuel : ∀ attempt t r,
  loop fuel attempt = Some (t, r) →
  (r = Return true →
   ∃ pre a, t = pre ++ [Get a; MadeDirs; Opened; Saved] ∧ Saved ∉ pre)
  ∧ (r ≠ Return true → Saved ∉ t).
Proof.
  induction fuel as [|fuel IH]; intros attempt t r Hrun; [done|].
  cbn [download_loop] in Hrun.
  assert (∀ evs, Saved ∉ evs →
            after evs (loop fuel (attempt + 1)) = Some (t, r) →
            (r = Return true →
             ∃ pre a, t = pre ++ [Get a; MadeDirs; Opened; Saved] ∧ Saved ∉ pre)
            ∧ (r ≠ Return true → Saved ∉ t)) as Hgo.
  { intros evs Hevs (t' & y & Ht' & [= -> ->])%after_some.
    apply IH in Ht' as [Hyes Hno]. split.
    - intros (pre & a & -> & Hpre)%Hyes.
      exists (evs ++ pre), a.
      split; [by rewrite <- app_assoc|]. set_solver.
    - intros Hne%Hno. set_solver. }
  assert (∀ evs r0, Saved ∉ evs → r0 ≠ Return true →
            Some (evs, r0) = Some (t, r) →
            (r = Return true →
             ∃ pre a, t = pre ++ [Get a; MadeDirs; Opened; Saved] ∧ Saved ∉ pre)
            ∧ (r ≠ Return true → Saved ∉ t)) as Hend.
  { intros evs r0 Hevs Hr0 [= <- <-]. split; [done|auto]. }
  destruct (attempt <=? max_retries).
  2: { injection Hrun as <- <-. split; [done|]. intros _. apply not_elem_of_nil. }
  destruct (srv (attempt + 1)) as [|status ra body].
  - destruct (max_retries <? attempt + 1).
    + eapply Hend; [| |exact Hrun]; [set_solver|done].
    + eapply Hgo; [|exact Hrun]. set_solver.
  - destruct (status =? 503).
    + destruct (py_int _) as [s|].
      * destruct (time_sleep _ s).
        -- eapply Hend; [| |exact Hrun]; [set_solver|done].
        -- eapply Hgo; [|exact Hrun]. set_solver.
      * eapply Hend; [| |exact Hrun]; [set_solver|done].
    + destruct (is_http_error status).
      * destruct (max_retries <? attempt + 1).
        -- eapply Hend; [| |exact Hrun]; [set_solver|done].
        -- eapply Hgo; [|exact Hrun]. set_solver.
      * destruct body.
        -- injection Hrun as <- <-. split; [|done]. intros _.
           exists [], (attempt + 1). split; [done|apply not_elem_of_nil].
        -- eapply Hend; [| |exact Hrun]; [set_solver|done].
        -- eapply Hend; [| |exact Hrun]; [set_solver|done].
        -- destruct (max_retries <? attempt + 1).
           ++ eapply Hend; [| |exact Hrun]; [set_solver|done].
           ++ eapply Hgo; [|exact Hrun]. set_solver.
        -- eapply Hend; [| |exact Hrun]; [set_solver|done].
Qed.

(** X5 (the whole file is written exactly when [True] is returned).
    [download_with_retries] returns [True] if and only if the body was
    written whole; that follows a request, the making of the
    directories and the opening of the file, and is the last thing the
    call does.  A call that returns [False] may yet have opened the
    file, and so created or emptied it, and written a part of the body:
    on an endpoint whose body breaks off every time it does so at each
    attempt. *)
Theorem saved_iff_success t r :
  download_with_retries srv max_retries = (t, r) →
  (r = Return true ↔ Saved ∈ t)
  ∧ (Saved ∈ t →
     ∃ pre a, t = pre ++ [Get a; MadeDirs; Opened; Saved] ∧ Saved ∉ pre)
  ∧ download_with_retries breaking_off 1
    = ([Get 1; MadeDirs; Opened; Sleep 5; Get 2; MadeDirs; Opened],
       Return false).
Proof.
  intros Hdl.
  pose proof (download_with_retries_loop srv max_retries _ (le_n _)) as Hrun.
  rewrite Hdl in Hrun. apply loop_saved in Hrun as [Hyes Hno].
  assert (Saved ∈ t → r = Return true) as Hback.
  { intros Hin. destruct r as [[]|e]; [done|..]; by destruct Hno. }
  split; [|split].
  - split; [|done]. intros (pre & a & -> & _)%Hyes. set_solver.
  - intros Hin. by apply Hyes, Hback.
  - vm_compute. reflexivity.
Qed.

(** The loop goes on through answers it can retry until the first
    answer that is written. *)
Lemma retry_until_success k n : ∀ attempt fuel,
  k ≤ max_retries + 1 →
  Z.of_nat n = k - 1 - attempt →
  (∀ a, attempt < a < k →
        raises_request_exception (srv a) || busy srv a = true) →
  succeeds (srv k) = true →
  (n < fuel)%nat →
  ∃ t, loop fuel attempt = Some (t, Return true) ∧ attempts t = S n.
Proof.
  induction n as [|n IH]; intros attempt fuel Hk Hn Hretry Hok Hfuel;
    (destruct fuel as [|fuel]; [lia|]).
  - replace k with (attempt + 1) in * by lia.
    rewrite loop_succeeds by (done || lia). by eexists.
  - destruct (IH (attempt + 1) fuel) as (t & Hrun & Hatt);
      [done|lia|intros; apply Hretry; lia|done|lia|].
    specialize (Hretry (attempt + 1) ltac:(lia)).
    apply orb_true_iff in Hretry as [Hexn|Hbusy].
    + destruct (loop_request_exception srv max_retries fuel attempt)
        as (evs & Hevs & _ & ->); [lia|done|].
      rewrite (proj2 (Z.ltb_ge _ _)) by lia. rewrite Hrun.
      eexists. split; [done|]. cbn [app].
      rewrite attempts_cons_get, <- app_assoc, attempts_app, Hevs. cbn [app].
      by rewrite attempts_cons_sleep, Hatt.
    + destruct (loop_busy fuel attempt) as [s ->]; [lia|done|]. rewrite Hrun.
      eexists. split; [done|]. cbn [app].
      by rewrite attempts_cons_get, attempts_cons_sleep, Hatt.
Qed.

(** X6 (the first good answer wins).  When the answers to the attempts
    before the [k]-th are failed requests or 503 with a Retry-After that
    [int] reads as a length that [time.sleep] takes, and the [k]-th
    answer, within the
    [max_retries + 1] attempts, is a body that is written, then
    [download_with_retries] returns [True] after exactly [k]
    requests. *)
Theorem first_success_wins k :
  1 ≤ k ≤ max_retries + 1 →
  (∀ a, 1 ≤ a < k →
        raises_request_exception (srv a) || busy srv a = true) →
  succeeds (srv k) = true →
  ∃ t, download_with_retries srv max_retries = (t, Return true)
       ∧ attempts t = Z.to_nat k.
Proof.
  intros Hk Hretry Hok.
  destruct (retry_until_success k (Z.to_nat (k - 1)) 0
              (download_fuel max_retries)) as (t & Hrun & Hatt);
    [lia|lia|intros; apply Hretry; lia|done|unfold download_fuel; lia|].
  rewrite download_with_retries_loop in Hrun by done.
  injection Hrun as Hrun. exists t. split; [done|]. rewrite Hatt. lia.
Qed.

End MoreDownloader.


(** ** The shape of collection codes, years and destinations *)
(** X7 (the shape of the collection code).  [package_collection_code]
    gives a text without a hyphen: for an id with a hyphen the text
    that the id starts with up to its first hyphen, and ["UNKNOWN"]
    for an id without one. *)
Theorem collection_code_shape id :
  contains "-" (package_collection_code id) = false
  ∧ (if contains "-" id
     then ∃ rest, id = (package_collection_code id ++ "-" ++ rest)%string
     else package_collection_code id = "UNKNOWN"%string).
Proof.
  unfold package_collection_code, before_first.
  rewrite (contains_char "-" id), index_char.
  destruct (find_char "-" id) as [i|] eqn:Hf.
  - destruct (find_char_split _ _ _ Hf) as [Heq Hnone].
    rewrite (bool_decide_eq_true_2 (is_Some (Some i))) by (by eexists).
    rewrite contains_char, Hnone. split; [done|].
    by exists (str_drop (S i) id).
  - rewrite (bool_decide_eq_false_2 (is_Some None)) by (by intros [? ?]). done.
Qed.


Section MoreDriver.

Variable summary_srv : json → page_response.
Variable asset_srv : json → asset_server.
Variable py_str : json → string.

Local Abbreviation dpf := (download_package_formats summary_srv asset_srv py_str).
Local Abbreviation formats_loop := (download_formats asset_srv py_str).
Local Abbreviation run_all := (process_packages summary_srv asset_srv py_str).

(** X9 (the destination lies three levels below the output root).
    For an id without a slash whose collection code is neither empty,
    ["."] nor [".."], and a kind that the table knows, the destination is
    the output root with exactly three components appended, the
    collection code, the year and ["<id>.<kind>"], none of which is
    [".."] or holds a slash. *)
Theorem destination_parts base id date_issued fmt :
  find_char "/" id = None →
  Paths.keep (package_collection_code id) = true →
  package_collection_code id ≠ ".."%string →
  is_Some (DOWNLOAD_KEY_MAP !! fmt) →
  destination py_str base (JStr id) (package_collection_code id)
              (package_year_from_date date_issued) fmt
  = Paths.mkPath (Paths.root base)
      (Paths.parts base ++ [package_collection_code id;
                            package_year_from_date date_issued;
                            (id ++ "." ++ fmt)%string])
  ∧ Forall (λ part, part ≠ ".."%string ∧ find_char "/" part = None
                    ∧ Paths.keep part = true)
      [package_collection_code id; package_year_from_date date_issued;
       (id ++ "." ++ fmt)%string].
Proof.
  intros Hid Hcode Hdots Hkey. split.
  - unfold destination, file_name.
    pose proof (collection_code_slash_free id Hid) as Hc.
    destruct (year_plain date_issued) as [Hy Hky].
    destruct (file_name_plain id fmt Hid Hkey) as (Hn & Hkn & _).
    rewrite (joinpath_plain base _ Hc Hcode).
    rewrite (joinpath_plain _ _ Hy Hky).
    rewrite (joinpath_plain _ _ Hn Hkn).
    cbn [Paths.root Paths.parts]. by rewrite <- !app_assoc.
  - repeat apply Forall_cons_2; [| | |apply Forall_nil_2].
    + split; [done|]. split; [by apply collection_code_slash_free|done].
    + destruct (year_plain date_issued) as [Hy Hky]. split; [|done].
      destruct (year_origin date_issued) as [->|[(y & Hr & ->)|(d & _ & Hd & ->)]];
        [done| |].
      * destruct (year_digits y Hr) as [Hdig _]. by intros Heq; rewrite Heq in Hdig.
      * by intros Heq; rewrite Heq in Hd.
    + destruct (file_name_plain id fmt Hid Hkey) as (Hn & Hkn & Hne). done.
Qed.

End MoreDriver.


(** ** The driver: dry runs and summary requests *)
Section DriverRuns.

Variable summary_srv : json → page_response.
Variable asset_srv : json → asset_server.
Variable py_str : json → string.

Local Abbreviation dpf := (download_package_formats summary_srv asset_srv py_str).
Local Abbreviation formats_loop := (download_formats asset_srv py_str).
Local Abbreviation run_all := (process_packages summary_srv asset_srv py_str).

(** *** A dry run against a real run *)

Lemma download_formats_plan pid info code year base l : ∀ t r,
  formats_loop pid info code year base false l = (t, r) →
  ∃ more r',
    formats_loop pid info code year base true l = (map planned t ++ more, r')
    ∧ (r = Return tt → more = [] ∧ r' = Return tt).
Proof.
  induction l as [|fmt l IH]; intros t r; cbn [download_formats].
  { intros [= <- <-]. by exists [], (Return tt). }
  destruct (DOWNLOAD_KEY_MAP !! fmt) as [key|]; [|by apply IH].
  destruct (get info key) as [url|e].
  2: { intros [= <- <-]. by exists [], (Raise e). }
  destruct (truthy url); cbn [negb]; [|by apply IH].
  destruct (download_with_retries (asset_srv url) 3) as [calls [b|e]].
  - destruct (formats_loop pid info code year base false l) as [t0 r0].
    intros [= <- <-]. destruct (IH _ _ eq_refl) as (more & r' & -> & Hr).
    by exists more, r'.
  - intros [= <- <-].
    destruct (formats_loop pid info code year base true l) as [t1 r1].
    by exists t1, r1.
Qed.

Lemma download_package_formats_plan pkg fmts base t r :
  dpf pkg fmts base false = (t, r) →
  ∃ more r',
    dpf pkg fmts base true = (map planned t ++ more, r')
    ∧ (r = Return tt → more = [] ∧ r' = Return tt).
Proof.
  unfold download_package_formats.
  destruct (normalize_formats fmts) as [|f fs].
  { intros [= <- <-]. by exists [], (Return tt). }
  destruct (negb (truthy (fetch_package_summary summary_srv (package_id pkg)))).
  { intros [= <- <-]. by exists [], (Return tt). }
  destruct (get _ "download") as [d|e]; cbn [mbind result_bind Py.bind].
  2: { intros [= <- <-]. by exists [], (Raise e). }
  destruct (negb (truthy (py_or d (JObj ∅)))).
  { intros [= <- <-]. by exists [], (Return tt). }
  destruct (collection_code_of (package_id pkg)) as [code|e];
    cbn [mbind result_bind Py.bind].
  2: { intros [= <- <-]. by exists [], (Raise e). }
  destruct (year_of (date_issued pkg)) as [year|e];
    cbn [mbind result_bind Py.bind].
  2: { intros [= <- <-]. by exists [], (Raise e). }
  destruct (formats_loop _ _ _ _ _ false _) as [t0 r0] eqn:Hreal.
  intros [= <- <-].
  destruct (download_formats_plan _ _ _ _ _ _ _ _ Hreal) as (more & r' & -> & Hr).
  by exists more, r'.
Qed.

(** X10 (a dry run shows what a real run does).  What a real run of the
    loop over the records does to the outside, each download read as the
    line a dry run logs for it, is the start of what the dry run does
    on the same records; and it is all of it when the real run
    returns. *)
Theorem dry_run_shows_real_run pkgs fmts out t r :
  run_all pkgs fmts out false = (t, r) →
  ∃ more r',
    run_all pkgs fmts out true = (map planned t ++ more, r')
    ∧ (r = Return tt → more = [] ∧ r' = Return tt).
Proof.
  revert t r. induction pkgs as [|pkg pkgs IH]; intros t r;
    cbn [process_packages].
  { intros [= <- <-]. by exists [], (Return tt). }
  destruct (dpf pkg fmts out false) as [t0 r0] eqn:Hreal.
  destruct (download_package_formats_plan _ _ _ _ _ Hreal)
    as (more & r' & -> & Hr).
  destruct r0 as [[]|e].
  - destruct (Hr eq_refl) as [-> ->]. rewrite app_nil_r.
    destruct (run_all pkgs fmts out false) as [t1 r1].
    intros [= <- <-]. destruct (IH _ _ eq_refl) as (more & r' & -> & Hr').
    exists more, r'. by rewrite map_app, app_assoc.
  - intros [= <- <-]. destruct r' as [[]|e'].
    + destruct (run_all pkgs fmts out true) as [t1 r1].
      exists (more ++ t1), r1. by rewrite app_assoc.
    + by exists more, (Raise e').
Qed.

(** *** The summary requests *)

Lemma download_formats_no_summary pid info code year base dry l : ∀ t r,
  formats_loop pid info code year base dry l = (t, r) →
  omap summary_of t = [].
Proof.
  induction l as [|fmt l IH]; intros t r; cbn [download_formats].
  { by intros [= <- <-]. }
  destruct (DOWNLOAD_KEY_MAP !! fmt) as [key|]; [|by apply IH].
  destruct (get info key) as [url|e]; [|by intros [= <- <-]].
  destruct (truthy url); cbn [negb]; [|by apply IH].
  destruct dry.
  - destruct (formats_loop pid info code year base true l) as [t0 r0].
    intros [= <- <-]. cbn. by eapply IH.
  - destruct (download_with_retries (asset_srv url) 3) as [calls [b|e]].
    + destruct (formats_loop pid info code year base false l) as [t0 r0].
      intros [= <- <-]. cbn. by eapply IH.
    + by intros [= <- <-].
Qed.

Lemma download_package_formats_summary pkg fmts base dry t r :
  normalize_formats fmts ≠ [] →
  dpf pkg fmts base dry = (t, r) →
  omap summary_of t = [package_id pkg].
Proof.
  intros Hfmts. unfold download_package_formats.
  destruct (normalize_formats fmts) as [|f fs]; [done|].
  destruct (negb (truthy (fetch_package_summary summary_srv (package_id pkg)))).
  { by intros [= <- <-]. }
  destruct (get _ "download") as [d|e]; cbn [mbind result_bind Py.bind].
  2: { by intros [= <- <-]. }
  destruct (negb (truthy (py_or d (JObj ∅)))).
  { by intros [= <- <-]. }
  destruct (collection_code_of (package_id pkg)) as [code|e];
    cbn [mbind result_bind Py.bind].
  2: { by intros [= <- <-]. }
  destruct (year_of (date_issued pkg)) as [year|e];
    cbn [mbind result_bind Py.bind].
  2: { by intros [= <- <-]. }
  destruct (formats_loop _ _ _ _ _ dry _) as [t0 r0] eqn:Hloop.
  intros [= <- <-]. cbn. f_equal. by eapply download_formats_no_summary.
Qed.

(** The summary requests of the loop are those for the first records
    of the list, as far as the loop got. *)
Lemma summaries_taken pkgs fmts out dry t r :
  normalize_formats fmts ≠ [] →
  run_all pkgs fmts out dry = (t, r) →
  ∃ k, omap summary_of t = map package_id (take k pkgs)
       ∧ (r = Return tt → k = length pkgs).
Proof.
  intros Hfmts. revert t r. induction pkgs as [|pkg pkgs IH]; intros t r;
    cbn [process_packages].
  { intros [= <- <-]. by exists 0%nat. }
  destruct (dpf pkg fmts out dry) as [t0 r0] eqn:Hone.
  pose proof (download_package_formats_summary _ _ _ _ _ _ Hfmts Hone) as Hsum.
  destruct r0 as [[]|e].
  - destruct (run_all pkgs fmts out dry) as [t1 r1].
    intros [= <- <-]. destruct (IH _ _ eq_refl) as (k & Hk & Hall).
    exists (S k). rewrite omap_app, Hsum, Hk. split; [done|].
    intros Hr. cbn [length]. by rewrite <- Hall.
  - intros [= <- <-]. exists 1%nat. rewrite Hsum. split; [|done].
    cbn. by rewrite take_0.
Qed.

(** X11 (one summary request for each record, in the order of the
    records).  With a kind requested, the packageIds for which the loop
    over the records asks the Packages service are the ids of the first
    records of the list, each once and in order, and of all the records
    when the loop returns. *)
Theorem one_summary_per_record pkgs fmts out dry t r :
  normalize_formats fmts ≠ [] →
  run_all pkgs fmts out dry = (t, r) →
  omap summary_of t `prefix_of` map package_id pkgs
  ∧ (r = Return tt → omap summary_of t = map package_id pkgs).
Proof.
  intros Hfmts Hrun.
  destruct (summaries_taken _ _ _ _ _ _ Hfmts Hrun) as (k & -> & Hall).
  split.
  - exists (map package_id (drop k pkgs)).
    by rewrite <- map_app, take_drop.
  - intros Hr. by rewrite (Hall Hr), firstn_all.
Qed.

(** *** What a dry run plans for a record *)

Lemma download_formats_dry_plan pid d code year base l :
  formats_loop pid (JObj d) code year base true l
  = (omap (λ fmt, url ← offered d fmt;
                  Some (DryRun url (destination py_str base pid code year fmt))) l,
     Return tt).
Proof.
  induction l as [|fmt l IH]; [done|].
  cbn [download_formats]. rewrite IH. cbn [get]. simpl omap. unfold offered.
  destruct (DOWNLOAD_KEY_MAP !! fmt) as [key|]; [|done].
  by destruct (truthy (dict_get d key)).
Qed.

(** X12 (the plan of a dry run for a record).  For a record whose id is
    text and whose issued date is text or counts as none, and a summary
    that is a dict with a download section that is a dict and not
    empty, the dry run asks for the summary and then plans one download
    for each requested kind that the table knows and the section has a
    link for, in the order of the request, a kind asked for twice
    planned twice, each to the destination of its kind. *)
Theorem dry_run_plan pkg id m d fmts base :
  package_id pkg = JStr id →
  date_readable (date_issued pkg) = true →
  summary_srv (JStr id) = Body (JObj m) →
  m !! "download"%string = Some (JObj d) → d ≠ ∅ →
  normalize_formats fmts ≠ [] →
  dpf pkg fmts base true
  = (SummaryRequest (JStr id)
       :: omap (λ fmt, url ← offered d fmt;
                  Some (DryRun url
                          (destination py_str base (JStr id)
                             (package_collection_code id)
                             (package_year_from_date (date_text (date_issued pkg)))
                             fmt)))
               (normalize_formats fmts),
     Return tt).
Proof.
  intros Hid Hdate Hsum Hdl Hd Hfmts. unfold download_package_formats.
  destruct (normalize_formats fmts) as [|f fs] eqn:Hn; [done|].
  rewrite Hid. unfold fetch_package_summary. rewrite Hsum.
  assert (m ≠ ∅) as Hm by (intros ->; by rewrite lookup_empty in Hdl).
  cbn [truthy get]. rewrite (bool_decide_eq_false_2 (m = ∅)) by done.
  cbn [negb mbind result_bind Py.bind]. unfold dict_get. rewrite Hdl.
  change (default JNull (Some (JObj d))) with (JObj d).
  unfold py_or. cbn [truthy].
  rewrite (bool_decide_eq_false_2 (d = ∅)) by done.
  cbn [negb collection_code_of mbind result_bind Py.bind].
  assert (year_of (date_issued pkg)
          = Return (package_year_from_date (date_text (date_issued pkg)))) as ->.
  { unfold year_of, date_readable in *.
    destruct (date_issued pkg) as [|b|z|s|l|o]; try (by rewrite Hdate).
    cbn [truthy date_text package_year_from_date].
    by destruct (String.eqb s ""). }
  cbn [mbind result_bind Py.bind truthy]. rewrite download_formats_dry_plan.
  by rewrite (bool_decide_eq_false_2 (d = ∅)) by done.
Qed.

End DriverRuns.

Section DryRuns.

Variable summary_srv : json → page_response.
Variable asset_srv other_srv : json → asset_server.
Variable py_str : json → string.

Lemma download_formats_dry pid info code year base l : ∀ t r,
  download_formats asset_srv py_str pid info code year base true l = (t, r) →
  download_formats other_srv py_str pid info code year base true l = (t, r)
  ∧ Forall (λ ev, is_download ev = false) t.
Proof.
  induction l as [|fmt l IH]; intros t r; cbn [download_formats].
  { by intros [= <- <-]. }
  destruct (DOWNLOAD_KEY_MAP !! fmt) as [key|]; [|by apply IH].
  destruct (get info key) as [url|e]; [|by intros [= <- <-]].
  destruct (truthy url); cbn [negb]; [|by apply IH].
  destruct (download_formats asset_srv _ _ _ _ _ _ true l) as [t0 r0].
  intros [= <- <-]. destruct (IH _ _ eq_refl) as [-> Hall].
  split; [done|]. by constructor.
Qed.

Lemma download_package_formats_dry pkg fmts base t r :
  download_package_formats summary_srv asset_srv py_str pkg fmts base true = (t, r) →
  download_package_formats summary_srv other_srv py_str pkg fmts base true = (t, r)
  ∧ Forall (λ ev, is_download ev = false) t.
Proof.
  unfold download_package_formats.
  destruct (normalize_formats fmts) as [|f fs]; [by intros [= <- <-]|].
  destruct (negb (truthy (fetch_package_summary summary_srv (package_id pkg)))).
  { intros [= <- <-]. split; [done|]. by repeat constructor. }
  destruct (get _ "download") as [d|e]; cbn [mbind result_bind Py.bind].
  2: { intros [= <- <-]. split; [done|]. by repeat constructor. }
  destruct (negb (truthy (py_or d (JObj ∅)))).
  { intros [= <- <-]. split; [done|]. by repeat constructor. }
  destruct (collection_code_of (package_id pkg)) as [code|e];
    cbn [mbind result_bind Py.bind].
  2: { intros [= <- <-]. split; [done|]. by repeat constructor. }
  destruct (year_of (date_issued pkg)) as [year|e];
    cbn [mbind result_bind Py.bind].
  2: { intros [= <- <-]. split; [done|]. by repeat constructor. }
  destruct (download_formats asset_srv _ _ _ _ _ _ true _) as [t0 r0] eqn:Hdry.
  intros [= <- <-]. destruct (download_formats_dry _ _ _ _ _ _ _ _ Hdry) as [-> Hall].
  split; [done|]. by constructor.
Qed.

(** X13 (a dry run asks for no asset).  Among what a dry run of the loop
    over the records does there is no download, and the run is the
    same whatever the asset endpoints would answer. *)
Theorem dry_run_downloads_nothing pkgs fmts out t r :
  process_packages summary_srv asset_srv py_str pkgs fmts out true = (t, r) →
  process_packages summary_srv other_srv py_str pkgs fmts out true = (t, r)
  ∧ Forall (λ ev, is_download ev = false) t.
Proof.
  revert t r. induction pkgs as [|pkg pkgs IH]; intros t r;
    cbn [process_packages]; [by intros [= <- <-]|].
  destruct (download_package_formats summary_srv asset_srv _ _ _ _ true)
    as [t0 r0] eqn:Hdry.
  destruct (download_package_formats_dry _ _ _ _ _ Hdry) as [-> Hall].
  destruct r0 as [[]|e]; [|by intros [= <- <-]].
  destruct (process_packages summary_srv asset_srv _ _ _ _ true) as [t1 r1].
  intros [= <- <-]. destruct (IH _ _ eq_refl) as [-> Hall'].
  split; [done|]. by apply Forall_app.
Qed.

End DryRuns.


(** ** The date ranges *)
(** *** The calendar *)

Section Calendar.

Import Datetime.

Lemma month_day_table :
  forallb (λ n,
    forallb (λ leap,
      let '(m, d) := month_day n leap in
      (1 <=? m) && (m <=? 12) && (1 <=? d)
      && (d <=? (if m =? 2 then (if leap then 29 else 28)
                 else if (m =? 4) || (m =? 6) || (m =? 9) || (m =? 11) then 30
                 else 31))
      && (DAYS_BEFORE_MONTH m + (if (2 <? m) && leap then 1 else 0) + d =? n + 1))
      [true; false])
    (seqZ 0 365) = true.
Proof. by vm_compute. Qed.

Lemma month_day_spec n leap m d :
  0 ≤ n < 365 → month_day n leap = (m, d) →
  1 ≤ m ≤ 12 ∧ 1 ≤ d
  ∧ d ≤ (if m =? 2 then (if leap then 29 else 28)
         else if (m =? 4) || (m =? 6) || (m =? 9) || (m =? 11) then 30
         else 31)
  ∧ DAYS_BEFORE_MONTH m + (if (2 <? m) && leap then 1 else 0) + d = n + 1.
Proof.
  intros Hn Hmd. pose proof month_day_table as Ht.
  rewrite forallb_forall in Ht.
  assert (In n (seqZ 0 365)) as Hin.
  { apply list_elem_of_In, elem_of_seqZ. lia. }
  specialize (Ht n Hin). rewrite forallb_forall in Ht.
  assert (In leap [true; false]) as Hl by (destruct leap; simpl; auto).
  specialize (Ht leap Hl). rewrite Hmd in Ht.
  rewrite !andb_true_iff in Ht. destruct Ht as [[[[H1 H2] H3] H4] H5].
  lia.
Qed.

Lemma is_leap_spec y :
  Dates.is_leap y = true ↔ y mod 4 = 0 ∧ (y mod 100 ≠ 0 ∨ y mod 400 = 0).
Proof.
  unfold Dates.is_leap.
  rewrite andb_true_iff, orb_true_iff, negb_true_iff, !Z.eqb_eq, Z.eqb_neq. done.
Qed.

Lemma ord2ymd_spec n :
  1 ≤ n ≤ MAXORDINAL →
  valid (ord2ymd n) = true ∧ toordinal (ord2ymd n) = n.
Proof.
  intros Hn. unfold MAXORDINAL in Hn. unfold ord2ymd, DI400Y, DI100Y, DI4Y.
  set (n0 := n - 1).
  set (a := n0 / 146097). set (r1 := n0 mod 146097).
  set (b := r1 / 36524). set (r2 := r1 mod 36524).
  set (c := r2 / 1461). set (r3 := r2 mod 1461).
  set (e := r3 / 365). set (doy := r3 mod 365).
  assert (n0 = 146097 * a + r1 ∧ 0 ≤ r1 < 146097) as [E1 B1].
  { subst a r1. pose proof (Z.div_mod n0 146097). pose proof (Z.mod_pos_bound n0 146097). lia. }
  assert (r1 = 36524 * b + r2 ∧ 0 ≤ r2 < 36524) as [E2 B2].
  { subst b r2. pose proof (Z.div_mod r1 36524). pose proof (Z.mod_pos_bound r1 36524). lia. }
  assert (r2 = 1461 * c + r3 ∧ 0 ≤ r3 < 1461) as [E3 B3].
  { subst c r3. pose proof (Z.div_mod r2 1461). pose proof (Z.mod_pos_bound r2 1461). lia. }
  assert (r3 = 365 * e + doy ∧ 0 ≤ doy < 365) as [E4 B4].
  { subst e doy. pose proof (Z.div_mod r3 365). pose proof (Z.mod_pos_bound r3 365). lia. }
  assert (0 ≤ a ≤ 24 ∧ 0 ≤ b ≤ 4 ∧ 0 ≤ c ≤ 24 ∧ 0 ≤ e ≤ 4) as (Ba & Bb & Bc & Be) by lia.
  assert (n0 = n - 1) as E0 by done.
  clearbody a r1 b r2 c r3 e doy n0.
  set (y := a * 400 + 1 + b * 100 + c * 4 + e).
  destruct ((e =? 4) || (b =? 4)) eqn:Hspecial.
  - unfold valid, toordinal. cbn [year month day].
    assert (Hy : y - 1 = 400 * a + 100 * b + 4 * c + e) by (subst y; lia).
    apply orb_true_iff in Hspecial. rewrite !Z.eqb_eq in Hspecial.
    assert (Dates.is_leap (y - 1) = true) as Hleap.
    { apply is_leap_spec. rewrite Hy. Z.div_mod_to_equations. lia. }
    unfold Dates.valid_date, Dates.days_in_month, ymd2ord, days_before_month,
      days_before_year. rewrite Hleap.
    change (12 =? 2) with false. change (2 <? 12) with true.
    change ((12 =? 4) || (12 =? 6) || (12 =? 9) || (12 =? 11)) with false.
    change (DAYS_BEFORE_MONTH 12) with 334. cbn [andb].
    split; [rewrite !andb_true_iff, !Z.leb_le; lia|].
    Z.div_mod_to_equations. lia.
  - apply orb_false_iff in Hspecial as [He Hb]. apply Z.eqb_neq in He, Hb.
    set (leap := (e =? 3) && (negb (c =? 24) || (b =? 3))).
    assert (Dates.is_leap y = leap) as Hleap.
    { subst leap. apply eq_true_iff_eq. rewrite is_leap_spec.
      rewrite andb_true_iff, orb_true_iff, negb_true_iff, !Z.eqb_eq, Z.eqb_neq.
      subst y. Z.div_mod_to_equations. lia. }
    destruct (month_day doy leap) as [m d] eqn:Hmd.
    destruct (month_day_spec _ _ _ _ B4 Hmd) as (Hm & Hd1 & Hd2 & Hsum).
    unfold valid, toordinal. cbn [year month day]. fold y.
    unfold Dates.valid_date, Dates.days_in_month, ymd2ord, days_before_month,
      days_before_year. rewrite Hleap. split.
    + rewrite !andb_true_iff, !Z.leb_le. subst y.
      destruct (m =? 2) eqn:?, leap, ((m =? 4) || (m =? 6) || (m =? 9) || (m =? 11)); lia.
    + subst y. destruct ((2 <? m) && leap); Z.div_mod_to_equations; lia.
Qed.

Lemma valid_date_fields y m d :
  Dates.valid_date y m d = true →
  1 ≤ y ≤ 9999 ∧ 1 ≤ m ≤ 12 ∧ 1 ≤ d ≤ Dates.days_in_month y m.
Proof.
  unfold Dates.valid_date. rewrite !andb_true_iff, !Z.leb_le. lia.
Qed.

Lemma day_of_year_bounds y m d :
  Dates.valid_date y m d = true →
  1 ≤ days_before_month y m + d ≤ (if Dates.is_leap y then 366 else 365).
Proof.
  intros (Hy & Hm & Hd)%valid_date_fields.
  unfold days_before_month, Dates.days_in_month in *.
  assert (m = 1 ∨ m = 2 ∨ m = 3 ∨ m = 4 ∨ m = 5 ∨ m = 6 ∨ m = 7 ∨ m = 8
          ∨ m = 9 ∨ m = 10 ∨ m = 11 ∨ m = 12) as Hcases by lia.
  unfold DAYS_BEFORE_MONTH.
  destruct (Dates.is_leap y);
    repeat (destruct Hcases as [->|Hcases]; [vm_compute nth; simpl in Hd; simpl; lia|]);
    subst m; vm_compute nth; simpl in Hd; simpl; lia.
Qed.

(** The ordinal of a date lies within the calendar, after the whole
    years before it. *)
Lemma toordinal_bounds t :
  valid t = true →
  365 * (year t - 1) < toordinal t ≤ MAXORDINAL.
Proof.
  unfold valid, toordinal, ymd2ord, MAXORDINAL, days_before_year.
  intros Hv. pose proof (day_of_year_bounds _ _ _ Hv) as Hdoy.
  apply valid_date_fields in Hv as (Hy & _ & _).
  destruct (Dates.is_leap (year t)) eqn:Hleap.
  - apply is_leap_spec in Hleap. Z.div_mod_to_equations. lia.
  - Z.div_mod_to_equations. lia.
Qed.

(** A day that a month has in one year and not in another is the 29th
    of February. *)
Lemma only_leap_day_moves y y' m d :
  Dates.valid_date y m d = true → 1 ≤ y' ≤ 9999 →
  Dates.valid_date y' m d = false →
  m = 2 ∧ d = 29 ∧ Dates.is_leap y' = false.
Proof.
  intros (Hy & Hm & Hd)%valid_date_fields Hy' Hno.
  unfold Dates.valid_date in Hno. unfold Dates.days_in_month in *.
  rewrite !andb_false_iff, !Z.leb_gt in Hno.
  destruct (m =? 2) eqn:Hm2.
  - apply Z.eqb_eq in Hm2.
    destruct (Dates.is_leap y), (Dates.is_leap y'); lia.
  - destruct ((m =? 4) || (m =? 6) || (m =? 9) || (m =? 11)); lia.
Qed.

(** X14 (the range of [--last-years]).  On a day [today], for a number of
    years from 1 to below the year of today,
    [compute_date_range_from_years] returns, the end being today; the
    start is the same day of the month that many years before, when
    that year has the day, and else (today is the 29th of February) the
    day 365 times that many days before today. *)
Theorem last_years_range today n :
  valid today = true → 1 ≤ n < year today →
  ∃ start,
    compute_date_range_from_years today n
    = Range (isoformat start) (isoformat today)
    ∧ valid start = true
    ∧ (if Dates.valid_date (year today - n) (month today) (day today)
       then start = mkDate (year today - n) (month today) (day today)
       else month today = 2 ∧ day today = 29
            ∧ toordinal start = toordinal today - 365 * n).
Proof.
  intros Hvalid Hn. unfold compute_date_range_from_years.
  destruct (Z.leb_spec n 0) as [|_]; [lia|].
  pose proof (valid_date_fields _ _ _ Hvalid) as (Hy & Hm & Hd).
  unfold replace_year, new.
  assert (fits_int (year today - n) = true) as ->.
  { unfold fits_int. apply andb_true_iff. rewrite Z.leb_le, Z.ltb_lt. lia. }
  cbn [negb].
  destruct (Dates.valid_date (year today - n) (month today) (day today)) eqn:Hthen.
  { eexists. split; [done|]. by split. }
  destruct (only_leap_day_moves _ (year today - n) _ _ Hvalid ltac:(lia) Hthen)
    as (Hm2 & Hd29 & _).
  pose proof (toordinal_bounds today Hvalid) as Hord.
  unfold minus_days.
  destruct (Z.ltb_spec 999999999 (Z.abs (365 * n))) as [|_]; [lia|].
  set (o := toordinal today - 365 * n) in *.
  assert (1 ≤ o ≤ MAXORDINAL) as Ho by (unfold MAXORDINAL in *; lia).
  assert ((0 <? o) && (o <=? MAXORDINAL) = true) as ->.
  { apply andb_true_iff. rewrite Z.ltb_lt, Z.leb_le. lia. }
  destruct (ord2ymd_spec o Ho) as [Hv Hto].
  exists (ord2ymd o). by repeat split.
Qed.

(** X15 (the range of [--years] in the SQL script).  On a day [today],
    for a start year within the calendar, [date_range_years] raises
    [ValueError] when today is the 29th of February and the start year
    is no leap year, and else returns the same day of the month in the
    start year, and today. *)
Theorem date_range_years_leap_day today years :
  valid today = true → 1 ≤ year today - years ≤ 9999 →
  date_range_years today years
  = if (month today =? 2) && (day today =? 29)
       && negb (Dates.is_leap (year today - years))
    then RangeValueError
    else Range (isoformat (mkDate (year today - years) (month today) (day today)))
               (isoformat today).
Proof.
  intros Hvalid Hy. unfold date_range_years, new.
  assert (fits_int (year today - years) = true) as ->.
  { unfold fits_int. apply andb_true_iff. rewrite Z.leb_le, Z.ltb_lt. lia. }
  cbn [negb].
  destruct (Dates.valid_date (year today - years) (month today) (day today))
    eqn:Hthen.
  - assert ((month today =? 2) && (day today =? 29)
            && negb (Dates.is_leap (year today - years)) = false) as ->; [|done].
    apply not_true_is_false. rewrite !andb_true_iff, !Z.eqb_eq, negb_true_iff.
    intros [[Hm Hd] Hleap].
    apply valid_date_fields in Hthen as (_ & _ & Hdim).
    unfold Dates.days_in_month in Hdim. rewrite Hm, Hleap in Hdim.
    change (2 =? 2) with true in Hdim. cbn in Hdim. lia.
  - destruct (only_leap_day_moves _ _ _ _ Hvalid Hy Hthen) as (-> & -> & ->).
    done.
Qed.

End Calendar.


(** ** The lists of the command line *)
(** *** Blanks and letter case *)

Lemma is_space_lower_char c : is_space (lower_char c) = is_space c.
Proof. by destruct c as [[] [] [] [] [] [] [] []]. Qed.

Lemma upper_char_space c : all_chars is_space (upper_char c) = is_space c.
Proof. by destruct c as [[] [] [] [] [] [] [] []]. Qed.

Lemma lower_char_idem c : lower_char (lower_char c) = lower_char c.
Proof. by destruct c as [[] [] [] [] [] [] [] []]. Qed.

Lemma lower_idem s : lower (lower s) = lower s.
Proof. induction s as [|c s IH]; simpl; [done|]. by rewrite lower_char_idem, IH. Qed.

Lemma lstrip_lower s : lstrip (lower s) = lower (lstrip s).
Proof.
  unfold lstrip. induction s as [|c s IH]; simpl; [done|].
  rewrite is_space_lower_char. by destruct (is_space c).
Qed.

Lemma rstrip_lower s : rstrip (lower s) = lower (rstrip s).
Proof.
  unfold rstrip. induction s as [|c s IH]; simpl; [done|].
  rewrite IH, is_space_lower_char.
  destruct (rstrip_by is_space s); simpl; [by destruct (is_space c)|done].
Qed.

Lemma strip_lower s : strip (lower s) = lower (strip s).
Proof. unfold strip. by rewrite lstrip_lower, rstrip_lower. Qed.

Lemma rstrip_cons c s :
  rstrip (String c s) =
  match rstrip s with
  | EmptyString => if is_space c then EmptyString else String c EmptyString
  | r => String c r
  end.
Proof. reflexivity. Qed.

Lemma rstrip_idem s : rstrip (rstrip s) = rstrip s.
Proof.
  induction s as [|c s IH]; [done|]. rewrite rstrip_cons.
  destruct (rstrip s) as [|a r] eqn:Hr.
  - destruct (is_space c) eqn:Hc; [done|]. rewrite rstrip_cons.
    change (rstrip "") with ""%string. by rewrite Hc.
  - rewrite rstrip_cons. by rewrite IH.
Qed.

(** What [lstrip] leaves does not start with a blank. *)
Lemma lstrip_head s :
  match lstrip s with
  | String c _ => is_space c = false
  | EmptyString => True
  end.
Proof.
  unfold lstrip. induction s as [|c s IH]; simpl; [done|].
  by destruct (is_space c) eqn:Hc; [|simpl].
Qed.

Lemma rstrip_keeps_head c s :
  is_space c = false → rstrip (String c s) = String c (rstrip s).
Proof. intros Hc. rewrite rstrip_cons, Hc. by destruct (rstrip s). Qed.

Lemma strip_idem s : strip (strip s) = strip s.
Proof.
  unfold strip. pose proof (lstrip_head s) as Hhead.
  destruct (lstrip s) as [|c t]; [done|].
  rewrite rstrip_keeps_head by done.
  change (lstrip (String c (rstrip t)))
    with (if is_space c then lstrip (rstrip t) else String c (rstrip t)).
  rewrite Hhead.
  rewrite <- rstrip_keeps_head by done. by rewrite rstrip_idem.
Qed.

Lemma lower_empty s : lower s = ""%string ↔ s = ""%string.
Proof. by destruct s. Qed.

Lemma all_chars_app p a b :
  all_chars p (a ++ b)%string = all_chars p a && all_chars p b.
Proof.
  induction a as [|c a IH]; [done|].
  change (String c a ++ b)%string with (String c (a ++ b))%string.
  cbn [all_chars]. by rewrite IH, andb_assoc.
Qed.

(** Only a text of blanks is stripped to nothing. *)
Lemma lstrip_blank s : all_chars is_space (lstrip s) = all_chars is_space s.
Proof.
  unfold lstrip. induction s as [|c s IH]; simpl; [done|].
  destruct (is_space c) eqn:Hc; [done|]. simpl. by rewrite Hc.
Qed.

Lemma rstrip_empty s : rstrip s = ""%string ↔ all_chars is_space s = true.
Proof.
  induction s as [|c s IH]; [done|]. rewrite rstrip_cons. cbn [all_chars].
  destruct (rstrip s) as [|a r].
  - destruct (is_space c); [|done]. cbn [andb]. split; [|done].
    intros _. by apply IH.
  - split; [done|]. intros [_ Hs%IH]%andb_true_iff. done.
Qed.

Lemma strip_empty s : strip s = ""%string ↔ all_chars is_space s = true.
Proof. unfold strip. by rewrite rstrip_empty, lstrip_blank. Qed.

Lemma upper_blank s : all_chars is_space (upper s) = all_chars is_space s.
Proof.
  induction s as [|c s IH]; [done|]. cbn [upper all_chars].
  by rewrite all_chars_app, upper_char_space, IH.
Qed.

(** *** The lists of the command line *)

(** A kind as [normalize_formats] leaves it is left as it is by a
    second pass, and kept. *)
Lemma normalized_fixed f :
  String.eqb (strip f) "" = false →
  lower (strip (lower (strip f))) = lower (strip f)
  ∧ String.eqb (strip (lower (strip f))) "" = false.
Proof.
  intros Hf. rewrite strip_lower, strip_idem, lower_idem. split; [done|].
  apply String.eqb_neq. rewrite lower_empty. by apply String.eqb_neq.
Qed.

(** The kinds that [normalize_formats] leaves are not blank. *)
Lemma normalized_kept formats :
  Forall (λ f, String.eqb (strip f) "" = false) (normalize_formats formats).
Proof.
  unfold normalize_formats. apply Forall_map, Forall_forall.
  intros f Hf%list_elem_of_In%filter_In. destruct Hf as [_ Hf]. cbn.
  apply negb_true_iff in Hf. by apply normalized_fixed.
Qed.

(** X16 (the kinds are normalised once).  [download_package_formats]
    strips, lowers and filters the kinds it is given again; on a list
    that went through this once, as the list of the command has, the
    second pass changes nothing. *)
Theorem normalize_formats_idempotent formats :
  normalize_formats (normalize_formats formats) = normalize_formats formats.
Proof.
  unfold normalize_formats. induction formats as [|f l IH]; [done|].
  cbn [List.filter]. destruct (String.eqb (strip f) "") eqn:Hf; cbn [negb]; [done|].
  destruct (normalized_fixed f Hf) as [Hfix Hkeep].
  cbn [map List.filter]. rewrite Hkeep. cbn [negb map]. by rewrite Hfix, IH.
Qed.

(** The collection codes of the command pass the check of
    [fetch_published_packages]. *)
Lemma cli_collections_not_blank arg :
  Forall (λ c, String.eqb (strip c) "" = false) (cli_collections arg).
Proof.
  unfold cli_collections. apply Forall_map, Forall_forall.
  intros c Hc%list_elem_of_In%filter_In. destruct Hc as [_ Hc]. cbn.
  apply negb_true_iff, String.eqb_neq in Hc.
  apply String.eqb_neq. rewrite strip_empty, upper_blank, <- strip_empty.
  by rewrite strip_idem.
Qed.

Lemma cli_collections_valid arg page_size :
  cli_collections arg ≠ [] →
  valid_request (cli_collections arg) page_size
  = negb ((page_size <=? 0) || (MAX_PAGE_SIZE <? page_size)).
Proof.
  intros Hne. unfold valid_request.
  pose proof (cli_collections_not_blank arg) as Hall.
  destruct (cli_collections arg) as [|c l]; [done|].
  apply Forall_cons in Hall as [Hc _]. cbn [existsb]. rewrite Hc.
  cbn [negb orb]. by rewrite andb_true_r.
Qed.


(** ** The command *)
Section CommandProofs.

Variable getenv_key : option string.
Variable today : Datetime.date.
Variable prepare_output_dir : string → option Paths.Path.
Variable parse_qs_get : string → string → option (list string).
Variable srv : server.
Variable summary_srv : json → page_response.
Variable asset_srv : json → asset_server.
Variable py_str : json → string.

Local Abbreviation fetch := (fetch_published_packages parse_qs_get srv).
Local Abbreviation command :=
  (handle_download_command getenv_key today prepare_output_dir parse_qs_get
     srv summary_srv asset_srv py_str).

(** The list returned holds no more records than the cap allows, a cap
    below 1 counting as 1. *)
Lemma returned_within_cap fuel cols ps m t P why :
  fetch fuel cols ps (Some m) = Some (t, Return (P, why)) →
  Z.of_nat (length P) ≤ Z.max 1 m.
Proof.
  intros (P0 & c0 & seen0 & t0 & Hinv & -> & Hlast)%fetch_returned.
  assert (∀ Q, room (Some m) Q ↔ Z.of_nat (length Q) < Z.max 1 m) as Hroom
    by (intros Q; simpl; lia).
  pose proof (inv_below _ _ _ _ _ _ _ Hinv) as Hb. apply (proj1 (Hroom _)) in Hb.
  unfold last_pass in Hlast.
  destruct (srv (length t0) (JStr c0)) as [| |data].
  - injection Hlast as -> ->. lia.
  - injection Hlast as -> ->. lia.
  - destruct (process_page _ _ _ _ _) as [[P' why'|]|] eqn:Hpass; try done.
    injection Hlast as -> ->.
    apply process_page_finished in Hpass as (_ & _ & Hrest & Hcap & _).
    destruct (decide (why' = CapReached)) as [->|Hne].
    + destruct Hcap as (Hc & Q & r & rest & -> & HQ & _); [done|].
      rewrite (capped_length m Q r); [lia| |done]. apply HQ, Hroom, Hb.
    + apply Z.lt_le_incl, Hroom, (Hrest Hne), Hroom, Hb.
Qed.

(** A run that passed the checks made a request. *)
Lemma fetch_requests fuel cols ps max t out :
  fetch fuel cols ps max = Some (t, out) →
  t ≠ [] ↔ valid_request cols ps = true.
Proof.
  intros [(Hno & -> & _)|(Hyes & P0 & c0 & seen0 & t0 & _ & -> & _)]%fetch_run.
  - rewrite Hno. split; [done|discriminate].
  - split; [done|]. intros _ Hnil. by apply app_eq_nil in Hnil as [_ ?].
Qed.

(** X17 (the command asks for the summaries of the records it
    discovered).
    The packageIds for which a run of the command asks the Packages
    service are, in order and each once, the ids of the first records
    on the pages that the run fetched from the Published service; with
    a cap they are no more than the cap, a cap below 1 counting as
    1. *)
Theorem command_summaries fuel args run :
  command fuel args = Some run →
  omap summary_of (events run) `prefix_of` ids (fetched srv (requested run))
  ∧ ∀ m, Namespace.max_packages args = Some m →
         Z.of_nat (length (omap summary_of (events run))) ≤ Z.max 1 m.
Proof.
  unfold handle_download_command.
  assert (∀ how, Some (mkCommandRun [] [] how) = Some run →
            omap summary_of (events run) `prefix_of` ids (fetched srv (requested run))
            ∧ ∀ m, Namespace.max_packages args = Some m →
                   Z.of_nat (length (omap summary_of (events run))) ≤ Z.max 1 m)
    as Hstop.
  { intros how [= <-]. cbn. split; [apply prefix_nil|lia]. }
  destruct (resolve_api_key _ _) as [key|]; [|apply Hstop].
  destruct (determine_date_range _ _) as [how|[start_date end_date]];
    [apply Hstop|].
  destruct (cli_collections _) as [|c cols] eqn:Hcols; [apply Hstop|].
  destruct (prepare_output_dir _) as [out|]; [|apply Hstop].
  destruct (normalize_formats _) as [|f fs] eqn:Hfmts; [apply Hstop|].
  destruct (fetch _ _ _ _) as [[t [[P why]|e]]|] eqn:Hfetch; [| |done].
  2: { intros [= <-]. cbn. split; [apply prefix_nil|lia]. }
  destruct P as [|p P].
  { intros [= <-]. cbn. split; [apply prefix_nil|lia]. }
  destruct (process_packages _ _ _ _ _ _ _) as [evs r] eqn:Hrun.
  intros [= <-]. cbn [events requested].
  assert (normalize_formats (f :: fs) ≠ []) as Hne.
  { pose proof (normalized_kept (split_char "," (Namespace.formats args))) as Hk.
    rewrite Hfmts in Hk. apply Forall_cons in Hk as [Hf _].
    unfold normalize_formats. cbn [List.filter]. by rewrite Hf. }
  destruct (summaries_taken _ _ _ _ _ _ _ _ _ Hne Hrun) as (k & Hk & _).
  assert (omap summary_of evs `prefix_of` map package_id (p :: P)) as Hpre.
  { rewrite Hk. exists (map package_id (drop k (p :: P))).
    by rewrite <- map_app, take_drop. }
  destruct (returned_prefix _ _ _ _ _ _ _ _ _ Hfetch) as (rest & Hrest & _).
  split.
  - rewrite Hrest. unfold ids. rewrite map_app.
    etrans; [exact Hpre|]. by apply prefix_app_r.
  - intros m Hm. rewrite Hm in Hfetch.
    apply returned_within_cap in Hfetch.
    apply prefix_length in Hpre. rewrite length_map in Hpre. lia.
Qed.

(** X18 (the Published service is asked exactly when every check
    passes).
    A run of the command makes a request to the Published service if
    and only if there is a key, the date range is determined, a
    collection code and a kind are left after the blanks are dropped,
    the output directory is made, and the page size is from 1 to
    [MAX_PAGE_SIZE]; the check of the collection codes in
    [fetch_published_packages] never fails for the command. *)
Theorem command_reaches_service fuel args run :
  command fuel args = Some run →
  requested run ≠ [] ↔
    is_Some (resolve_api_key (Namespace.api_key args) getenv_key)
    ∧ (∃ range, determine_date_range today args = inr range)
    ∧ cli_collections (Namespace.collections args) ≠ []
    ∧ is_Some (prepare_output_dir (Namespace.output_dir args))
    ∧ normalize_formats (split_char "," (Namespace.formats args)) ≠ []
    ∧ 1 ≤ Namespace.page_size args ≤ MAX_PAGE_SIZE.
Proof.
  unfold handle_download_command.
  destruct (resolve_api_key _ _) as [key|].
  2: { intros [= <-]. cbn. split; [done|]. by intros [[? [=]] _]. }
  destruct (determine_date_range _ _) as [how|[start_date end_date]].
  { intros [= <-]. cbn. split; [done|]. by intros (_ & [? [=]] & _). }
  destruct (cli_collections _) as [|c cols] eqn:Hcols.
  { intros [= <-]. cbn. split; [done|]. by intros (_ & _ & ? & _). }
  destruct (prepare_output_dir _) as [out|].
  2: { intros [= <-]. cbn. split; [done|]. by intros (_ & _ & _ & [? [=]] & _). }
  destruct (normalize_formats _) as [|f fs] eqn:Hfmts.
  { intros [= <-]. cbn. split; [done|]. by intros (_ & _ & _ & _ & ? & _). }
  assert (valid_request (c :: cols) (Namespace.page_size args) = true
          ↔ 1 ≤ Namespace.page_size args ≤ MAX_PAGE_SIZE) as Hvalid.
  { rewrite <- Hcols, cli_collections_valid by (by rewrite Hcols).
    rewrite negb_true_iff, orb_false_iff, Z.leb_gt, Z.ltb_ge. lia. }
  destruct (fetch _ _ _ _) as [[t out0]|] eqn:Hfetch; [|done].
  apply fetch_requests in Hfetch. rewrite Hvalid in Hfetch.
  assert (requested run = t → requested run ≠ [] ↔
            is_Some (Some key) ∧ (∃ range, @inr leave _ (start_date, end_date) = inr range)
            ∧ c :: cols ≠ [] ∧ is_Some (Some out) ∧ f :: fs ≠ []
            ∧ 1 ≤ Namespace.page_size args ≤ MAX_PAGE_SIZE) as Hgoal.
  { intros ->. rewrite Hfetch. split; [|tauto].
    intros Hps. repeat split; try done; try lia; by eexists. }
  destruct out0 as [[[|p P] why]|e].
  - intros [= <-]. by apply Hgoal.
  - destruct (process_packages _ _ _ _ _ _ _) as [evs r].
    intros [= <-]. by apply Hgoal.
  - intros [= <-]. by apply Hgoal.
Qed.

End CommandProofs.


(** ** The SQL script *)
(** *** The SQL script: discovery *)

Lemma append_items_spec l : ∀ A A',
  append_items A l = Return A' →
  A' = A ++ omap sql_entry l ∧ Forall (λ it, is_dict it = true) l.
Proof.
  induction l as [|p l IH]; intros A A'; cbn [append_items].
  { intros [= <-]. by rewrite app_nil_r. }
  destruct p as [| | | | |m]; try discriminate.
  cbn [get mbind result_bind Py.bind]. intros H.
  destruct (IH _ _ H) as [-> Hall]. split; [|by constructor].
  cbn. by rewrite <- app_assoc.
Qed.

Lemma sql_page_spec A data out :
  sql_page A data = Return out →
  ∃ A', (out = inl A' ∨ ∃ offset, out = inr (A', offset))
        ∧ A' = A ++ omap sql_entry (sql_page_items (Body data))
        ∧ Forall (λ it, is_dict it = true) (sql_page_items (Body data)).
Proof.
  unfold sql_page. destruct data as [| | | | |m]; try discriminate.
  cbn [get mbind result_bind Py.bind sql_page_items].
  set (a := dict_get m "packages").
  assert ((if truthy a then Return a else Return (dict_get m "results"))
          = Return (if truthy a then a else dict_get m "results")) as ->
    by (by destruct (truthy a)).
  cbn [mbind result_bind Py.bind].
  assert (py_or a (py_or (if truthy a then a else dict_get m "results") (JArr []))
          = py_or a (py_or (dict_get m "results") (JArr []))) as ->.
  { unfold py_or. by destruct (truthy a). }
  set (items := py_or a (py_or (dict_get m "results") (JArr []))).
  destruct (truthy items) eqn:Htruthy; cbn [negb].
  2: { intros [= <-]. exists A. split; [by left|].
       destruct items as [| | | |l|]; try by rewrite app_nil_r.
       destruct l; [|done]. by rewrite app_nil_r. }
  destruct items as [| | | |l|]; try discriminate.
  cbn [iterate_items]. destruct (append_items A l) as [A'|e] eqn:Happ;
    cbn [mbind result_bind Py.bind]; [|discriminate].
  apply append_items_spec in Happ as [-> Hall].
  destruct (truthy (dict_get m "nextPage")); cbn [negb].
  - destruct (sql_next_offset _) as [offset|e]; cbn [mbind result_bind Py.bind];
      [|discriminate].
    intros [= <-]. eexists. split; [right; by eexists|done].
  - intros [= <-]. eexists. split; [by left|done].
Qed.

Lemma sql_fetched_snoc srv t c :
  sql_fetched srv (t ++ [c]) = sql_fetched srv t ++ sql_page_items (srv (length t) c).
Proof.
  unfold sql_fetched. rewrite imap_app, concat_app. cbn.
  by rewrite Nat.add_0_r, app_nil_r.
Qed.

Lemma sql_loop_spec srv fuel : ∀ A offset t t' items,
  sql_loop srv fuel A offset t = Some (t', Return items) →
  ∃ new, sql_fetched srv t' = sql_fetched srv t ++ new
         ∧ items = A ++ omap sql_entry new
         ∧ Forall (λ it, is_dict it = true) new.
Proof.
  induction fuel as [|fuel IH]; intros A offset t t' items; [done|].
  cbn [sql_loop]. unfold get_json.
  destruct (srv (length t) offset) as [| |data] eqn:Hsrv;
    cbn [mbind result_bind Py.bind]; try discriminate.
  destruct (sql_page A data) as [out|e] eqn:Hpage; [|discriminate].
  apply sql_page_spec in Hpage as (A' & Hout & -> & Hall).
  destruct Hout as [->|[offset' ->]].
  - intros [= <- <-]. eexists. split; [|done].
    by rewrite sql_fetched_snoc, Hsrv.
  - intros (new & Hf & -> & Hall')%IH.
    exists (sql_page_items (Body data) ++ new). split; [|split].
    + by rewrite Hf, sql_fetched_snoc, Hsrv, <- app_assoc.
    + by rewrite omap_app, app_assoc.
    + by apply Forall_app.
Qed.

(** X19 (the SQL script keeps every item).  When
    [fetch_packages_for_collection] returns, every item on the pages
    it fetched (the list under ["packages"], or else under ["results"])
    is a dict, and the list returned has one entry for each of them, in
    order, with or without a packageId. *)
Theorem sql_keeps_every_item srv fuel t items :
  fetch_packages_for_collection srv fuel = Some (t, Return items) →
  items = omap sql_entry (sql_fetched srv t)
  ∧ Forall (λ it, is_dict it = true) (sql_fetched srv t)
  ∧ length items = length (sql_fetched srv t).
Proof.
  unfold fetch_packages_for_collection.
  intros (new & Hf & -> & Hall)%sql_loop_spec. cbn in Hf. subst new.
  split; [done|]. split; [done|]. cbn [app].
  induction Hall as [|it l Hit Hall IH]; [done|].
  destruct it; try discriminate. cbn. by rewrite IH.
Qed.

(** *** The SQL script: the rows *)

Lemma omap_cons_None {A B} (f : A → option B) x l :
  f x = None → omap f (x :: l) = omap f l.
Proof. intros H. simpl. by rewrite H. Qed.

Lemma omap_cons_Some {A B} (f : A → option B) x y l :
  f x = Some y → omap f (x :: l) = y :: omap f l.
Proof. intros H. simpl. by rewrite H. Qed.

Section IngestProofs.

Variable summary_srv : json → page_response.

Local Abbreviation rows := (ingest_rows summary_srv).

Lemma download_items_links s links fmt url :
  download_items s = Return links →
  (fmt, url) ∈ links ↔ has_link s fmt url.
Proof.
  unfold download_items, has_link. destruct s as [| | | | |m]; try discriminate.
  destruct (m !! "download"%string) as [[| | | | |d]|] eqn:Hd; try discriminate.
  - intros [= <-]. rewrite elem_of_map_to_list. split.
    + intros H. by exists m, d.
    + intros (m' & d' & [= <-] & Hd' & H). rewrite Hd in Hd'. by injection Hd' as <-.
  - intros [= <-]. split; [by intros ?%elem_of_nil|].
    intros (m' & d' & [= <-] & Hd' & _). by rewrite Hd in Hd'.
Qed.

Lemma ingest_rows_spec code items : ∀ P D P' D',
  rows code items P D = Return (P', D') →
  ∃ newD,
    P' = P ++ omap (row_of summary_srv code) items ∧ D' = D ++ newD
    ∧ ∀ pid fmt url,
        mkDownloadRow pid fmt url ∈ newD ↔
        ∃ r, r ∈ omap (row_of summary_srv code) items
             ∧ row_package_id r = pid ∧ has_link (row_summary r) fmt url.
Proof.
  induction items as [|p items IH]; intros P D P' D'; cbn [ingest_rows].
  { intros [= <- <-]. exists []. rewrite !app_nil_r. split; [done|].
    split; [done|]. intros pid fmt url. split; [by intros ?%elem_of_nil|].
    by intros (r & ?%elem_of_nil & _). }
  assert (row_of summary_srv code p = None →
          rows code items P D = Return (P', D') →
          ∃ newD,
            P' = P ++ omap (row_of summary_srv code) (p :: items) ∧ D' = D ++ newD
            ∧ ∀ pid fmt url,
                mkDownloadRow pid fmt url ∈ newD ↔
                ∃ r, r ∈ omap (row_of summary_srv code) (p :: items)
                     ∧ row_package_id r = pid ∧ has_link (row_summary r) fmt url)
    as Hskip.
  { intros Hnone H. rewrite (omap_cons_None _ _ _ Hnone). by apply IH. }
  unfold fetch_summary. unfold row_of in Hskip.
  destruct (truthy (packageId p)) eqn:Hpid; cbn [negb]; [|by apply Hskip].
  destruct (summary_srv (packageId p)) as [| |s] eqn:Hsum;
    [by apply Hskip|by apply Hskip|].
  destruct (download_items s) as [links|e] eqn:Hlinks;
    cbn [mbind result_bind Py.bind]; [|discriminate].
  intros (newD & -> & -> & Hnew)%IH.
  set (r0 := mkPackageRow (packageId p) code (dateIssued p) (lastModified p) s).
  exists (map (λ '(fmt, url), mkDownloadRow (packageId p) fmt url) links ++ newD).
  assert (omap (row_of summary_srv code) (p :: items)
          = r0 :: omap (row_of summary_srv code) items) as ->.
  { apply omap_cons_Some. unfold row_of. by rewrite Hpid, Hsum. }
  split; [by rewrite <- app_assoc|]. split; [by rewrite <- app_assoc|].
  intros pid fmt url. rewrite elem_of_app, Hnew. split.
  - intros [Hin|(r & Hr & Hrest)].
    + apply list_elem_of_fmap in Hin as ([f u] & [= -> -> ->] & Hin).
      exists r0. split; [by left|]. split; [done|].
      by apply (download_items_links _ _ _ _ Hlinks).
    + exists r. split; [by right|done].
  - intros (r & Hr & Hid & Hlink). apply elem_of_cons in Hr as [->|Hr].
    + left. apply list_elem_of_fmap. exists (fmt, url). cbn in Hid. subst pid.
      split; [done|]. by apply (download_items_links _ _ _ _ Hlinks).
    + right. by exists r.
Qed.

(** X20 (the rows of [ingest_packages]).  When it returns, there is one
    row for the table [packages] for each item with a packageId whose
    summary request was answered with a document, in the order of the
    items, with the fields of the item and the document; items without
    a packageId and items whose summary request failed are passed
    over; and the rows for the table [downloads] are the links of the
    download sections of these documents, each under the packageId of
    its row. *)
Theorem ingest_packages_rows code items pkg_rows dl_rows :
  ingest_packages summary_srv code items = Return (pkg_rows, dl_rows) →
  pkg_rows = omap (row_of summary_srv code) items
  ∧ ∀ pid fmt url,
      mkDownloadRow pid fmt url ∈ dl_rows ↔
      ∃ r, r ∈ pkg_rows ∧ row_package_id r = pid
           ∧ has_link (row_summary r) fmt url.
Proof.
  unfold ingest_packages. intros (newD & -> & -> & Hnew)%ingest_rows_spec.
  done.
Qed.

(** X21 (one summary whose links cannot be read loses the batch).  When
    the summary of an item with a packageId arrives and is no dict, or
    has under ["download"] a value that is no dict ([null], say),
    [ingest_packages] raises [AttributeError] whatever the other items
    are, and inserts no row. *)
Theorem unreadable_summary_aborts_ingest code items bad s e :
  bad ∈ items →
  truthy (packageId bad) = true →
  summary_srv (packageId bad) = Body s →
  download_items s = Raise e →
  ingest_packages summary_srv code items = Raise AttributeError.
Proof.
  intros Hin Hpid Hsum Hlinks. unfold ingest_packages.
  generalize (@nil package_row) (@nil download_row).
  induction items as [|p items IH]; intros P D; [by apply elem_of_nil in Hin|].
  cbn [ingest_rows]. unfold fetch_summary.
  apply elem_of_cons in Hin as [<-|Hin].
  - rewrite Hpid, Hsum. cbn [negb]. rewrite Hlinks.
    unfold download_items in Hlinks.
    destruct s as [| | | | |m]; try by injection Hlinks as <-.
    destruct (m !! "download"%string) as [[]|]; try done; by injection Hlinks as <-.
  - destruct (negb (truthy (packageId p))); [by apply IH|].
    destruct (summary_srv (packageId p)) as [| |s']; [by apply IH|by apply IH|].
    destruct (download_items s') as [links|e'] eqn:Hl';
      cbn [mbind result_bind Py.bind]; [by apply IH|].
    unfold download_items in Hl'.
    destruct s' as [| | | | |m]; try by injection Hl' as <-.
    destruct (m !! "download"%string) as [[]|]; try done; by injection Hl' as <-.
Qed.

End IngestProofs.


(** ** Further runs on example inputs *)
(** Three items, the second without a packageId. *)
Lemma missing_identifier_skip_witness :
  ∃ new,
    scan_items None [] [item "A-3"; obj []; item "A-4"] = Return (Through ([] ++ new))
    ∧ map raw new = List.filter has_id [item "A-3"; obj []; item "A-4"]
    ∧ (length new
       + length (List.filter (λ it, negb (has_id it)) [item "A-3"; obj []; item "A-4"])
       = length [item "A-3"; obj []; item "A-4"])%nat.
Proof.
  apply (missing_identifier_skip [item "A-3"; obj []; item "A-4"] []).
  reflexivity.
Defined.

Example one_item_skipped :
  (List.filter has_id [item "A-3"; obj []; item "A-4"]) = [item "A-3"; item "A-4"].
Proof. vm_compute. reflexivity. Qed.

(** The records of the three pages. *)
Lemma returned_records_have_ids_witness :
  ∃ t P why,
    fetch_published_packages no_query three_pages 10 ["BILLS"%string] 100 None
    = Some (t, Return (P, why))
    ∧ Forall (λ r, truthy (package_id r) = true
                   ∧ get_or (raw r) "packageId" "package_id" = Return (package_id r)
                   ∧ get_or (raw r) "dateIssued" "date_issued" = Return (date_issued r))
             P.
Proof.
  eexists _, _, _. split; [vm_compute; reflexivity|].
  eapply (returned_records_have_ids no_query three_pages 10 ["BILLS"%string] 100 None).
  vm_compute. reflexivity.
Defined.

(** A page whose second item is a string. *)
Lemma non_dict_item_aborts_witness :
  published_loop no_query ragged_server None 1 [] "*" ∅ []
  = Some ([] ++ ["*"%string], Raise AttributeError).
Proof.
  apply (non_dict_item_aborts no_query ragged_server None 0 [] "*" ∅ []
           ragged_page [item "A-1"] (JStr "oops") [item "A-2"]
           (records_of_items [item "A-1"]));
    [reflexivity|vm_compute; reflexivity|vm_compute; reflexivity|reflexivity].
Defined.

(** 503 twice, then 200. *)
Lemma saved_iff_success_witness :
  ∃ t r,
    download_with_retries busy_twice 3 = (t, r)
    ∧ (r = Return true ↔ Saved ∈ t)
    ∧ (Saved ∈ t →
       ∃ pre a, t = pre ++ [Get a; MadeDirs; Opened; Saved] ∧ Saved ∉ pre)
    ∧ download_with_retries breaking_off 1
      = ([Get 1; MadeDirs; Opened; Sleep 5; Get 2; MadeDirs; Opened],
         Return false).
Proof.
  eexists _, _. split; [vm_compute; reflexivity|].
  apply (saved_iff_success busy_twice 3). vm_compute. reflexivity.
Defined.

Lemma first_success_wins_witness :
  ∃ t, download_with_retries busy_twice 3 = (t, Return true)
       ∧ attempts t = Z.to_nat 3.
Proof.
  apply (first_success_wins busy_twice 3 3); [lia| |reflexivity].
  intros a Ha. assert (a = 1 ∨ a = 2) as [->| ->] by lia; reflexivity.
Defined.

(** The record of the specification. *)
Lemma destination_parts_witness :
  destination plain_str data_dir (JStr "BILLS-116hr34enr")
              (package_collection_code "BILLS-116hr34enr")
              (package_year_from_date (Some "2019-05-01"%string)) "pdf"
  = Paths.mkPath (Paths.root data_dir)
      (Paths.parts data_dir
       ++ [package_collection_code "BILLS-116hr34enr";
           package_year_from_date (Some "2019-05-01"%string);
           ("BILLS-116hr34enr" ++ "." ++ "pdf")%string])
  ∧ Forall (λ part, part ≠ ".."%string ∧ find_char "/" part = None
                    ∧ Paths.keep part = true)
      [package_collection_code "BILLS-116hr34enr";
       package_year_from_date (Some "2019-05-01"%string);
       ("BILLS-116hr34enr" ++ "." ++ "pdf")%string].
Proof.
  apply (destination_parts plain_str data_dir "BILLS-116hr34enr"
           (Some "2019-05-01"%string) "pdf");
    [reflexivity|reflexivity|vm_compute; discriminate|].
  exists "pdfLink"%string. vm_compute. reflexivity.
Defined.

(** An id whose collection code is [".."] leaves the output root. *)
Example destination_above_root :
  Paths.to_string
    (destination plain_str data_dir (JStr "..-x") (package_collection_code "..-x")
       (package_year_from_date (Some "2019-05-01"%string)) "pdf")
  = "/data/../2019/..-x.pdf"%string.
Proof. vm_compute. reflexivity. Qed.

Example destination_parts_text :
  Paths.to_string
    (destination plain_str data_dir (JStr "BILLS-116hr34enr")
       (package_collection_code "BILLS-116hr34enr")
       (package_year_from_date (Some "2019-05-01"%string)) "pdf")
  = "/data/BILLS/2019/BILLS-116hr34enr.pdf"%string.
Proof. vm_compute. reflexivity. Qed.

(** Five records, the summary of the third fails. *)
Lemma dry_run_shows_real_run_witness :
  ∃ t r,
    process_packages summaries assets plain_str five_records ["pdf"%string]
                     data_dir false = (t, r)
    ∧ ∃ more r',
        process_packages summaries assets plain_str five_records ["pdf"%string]
                         data_dir true = (map planned t ++ more, r')
        ∧ (r = Return tt → more = [] ∧ r' = Return tt).
Proof.
  eexists _, _. split; [vm_compute; reflexivity|].
  apply (dry_run_shows_real_run summaries assets plain_str five_records
           ["pdf"%string] data_dir).
  vm_compute. reflexivity.
Defined.

(** The real run stops at a file that cannot be written; the dry run
    goes on. *)
Example dry_run_goes_further :
  ∃ t e more,
    process_packages summaries no_assets plain_str five_records ["pdf"%string]
                     data_dir false = (t, Raise e)
    ∧ process_packages summaries no_assets plain_str five_records ["pdf"%string]
                       data_dir true = (map planned t ++ more, Return tt)
    ∧ length t = 2%nat ∧ length more = 7%nat.
Proof. eexists _, _, _. repeat split; vm_compute; reflexivity. Qed.

Lemma dry_run_downloads_nothing_witness :
  ∃ t r,
    process_packages summaries assets plain_str five_records ["pdf"%string]
                     data_dir true = (t, r)
    ∧ process_packages summaries no_assets plain_str five_records ["pdf"%string]
                       data_dir true = (t, r)
    ∧ Forall (λ ev, is_download ev = false) t.
Proof.
  eexists _, _. split; [vm_compute; reflexivity|].
  apply (dry_run_downloads_nothing summaries assets no_assets plain_str
           five_records ["pdf"%string] data_dir).
  vm_compute. reflexivity.
Defined.

Lemma one_summary_per_record_witness :
  ∃ t r,
    process_packages summaries assets plain_str five_records ["pdf"%string]
                     data_dir false = (t, r)
    ∧ omap summary_of t `prefix_of` map package_id five_records
    ∧ (r = Return tt → omap summary_of t = map package_id five_records).
Proof.
  eexists _, _. split; [vm_compute; reflexivity|].
  apply (one_summary_per_record summaries assets plain_str five_records
           ["pdf"%string] data_dir false); [done|].
  vm_compute. reflexivity.
Defined.

(** Kinds [" PDF "], ["xml"] and ["pdf"] for a summary with a PDF link
    only. *)
Lemma dry_run_plan_witness :
  let pkg := record "R-1" "2019-05-01" in
  let d : gmap string json :=
    list_to_map [("pdfLink"%string, JStr "https://api.govinfo.gov/pdf")] in
  let fmts := [" PDF "; "xml"; "pdf"]%string in
  download_package_formats summaries assets plain_str pkg fmts data_dir true
  = (SummaryRequest (JStr "R-1")
       :: omap (λ fmt, url ← offered d fmt;
                  Some (DryRun url
                          (destination plain_str data_dir (JStr "R-1")
                             (package_collection_code "R-1")
                             (package_year_from_date (date_text (date_issued pkg)))
                             fmt)))
               (normalize_formats fmts),
     Return tt).
Proof.
  intros pkg d fmts.
  apply (dry_run_plan summaries assets plain_str pkg "R-1"
           (list_to_map [("download"%string, JObj d)]) d fmts data_dir);
    [reflexivity|reflexivity|reflexivity|vm_compute; reflexivity| |done].
  intros H. apply (f_equal (λ m : gmap string json, m !! "pdfLink"%string)) in H.
  vm_compute in H. discriminate H.
Defined.

Example dry_run_plan_twice :
  (download_package_formats summaries assets plain_str (record "R-1" "2019-05-01")
     [" PDF "; "xml"; "pdf"]%string data_dir true).1
  = [SummaryRequest (JStr "R-1");
     DryRun (JStr "https://api.govinfo.gov/pdf")
            (Paths.of_string "/data/R/2019/R-1.pdf");
     DryRun (JStr "https://api.govinfo.gov/pdf")
            (Paths.of_string "/data/R/2019/R-1.pdf")].
Proof. vm_compute. reflexivity. Qed.

(** One year back from the 29th of February 2024. *)
Lemma last_years_range_witness :
  ∃ start,
    compute_date_range_from_years leap_day 1
    = Range (Datetime.isoformat start) (Datetime.isoformat leap_day)
    ∧ Datetime.valid start = true
    ∧ (if Dates.valid_date (Datetime.year leap_day - 1) (Datetime.month leap_day)
                           (Datetime.day leap_day)
       then start = Datetime.mkDate (Datetime.year leap_day - 1)
                      (Datetime.month leap_day) (Datetime.day leap_day)
       else Datetime.month leap_day = 2 ∧ Datetime.day leap_day = 29
            ∧ Datetime.toordinal start = Datetime.toordinal leap_day - 365 * 1).
Proof.
  apply (last_years_range leap_day 1); [reflexivity|vm_compute; split; [|reflexivity]; discriminate].
Defined.

Example last_years_on_leap_day :
  compute_date_range_from_years leap_day 1 = Range "2023-03-01" "2024-02-29"
  ∧ compute_date_range_from_years leap_day 5 = Range "2019-03-02" "2024-02-29"
  ∧ compute_date_range_from_years leap_day 4 = Range "2020-02-29" "2024-02-29"
  ∧ compute_date_range_from_years leap_day 0 = RangeValueError
  ∧ compute_date_range_from_years leap_day 2030 = RangeOverflowError.
Proof. repeat split; vm_compute; reflexivity. Qed.

Lemma date_range_years_leap_day_witness :
  date_range_years leap_day 1
  = if (Datetime.month leap_day =? 2) && (Datetime.day leap_day =? 29)
       && negb (Dates.is_leap (Datetime.year leap_day - 1))
    then RangeValueError
    else Range (Datetime.isoformat
                  (Datetime.mkDate (Datetime.year leap_day - 1)
                     (Datetime.month leap_day) (Datetime.day leap_day)))
               (Datetime.isoformat leap_day).
Proof.
  apply (date_range_years_leap_day leap_day 1);
    [reflexivity|vm_compute; split; discriminate].
Defined.

Example date_range_years_on_leap_day :
  date_range_years leap_day 1 = RangeValueError
  ∧ date_range_years leap_day 20 = Range "2004-02-29" "2024-02-29"
  ∧ date_range_years leap_day (-4) = Range "2028-02-29" "2024-02-29".
Proof. repeat split; vm_compute; reflexivity. Qed.

(** The command on the three pages, three records at most, dry. *)
Lemma command_summaries_witness :
  ∃ run,
    handle_download_command example_key leap_day prepare_any no_query
      three_pages all_pdf assets plain_str 10 example_args = Some run
    ∧ omap summary_of (events run) = [JStr "A-1"; JStr "A-2"; JStr "A-3"]
    ∧ omap summary_of (events run) `prefix_of` ids (fetched three_pages (requested run))
    ∧ ∀ m, Namespace.max_packages example_args = Some m →
           Z.of_nat (length (omap summary_of (events run))) ≤ Z.max 1 m.
Proof.
  eexists. split; [vm_compute; reflexivity|]. split; [vm_compute; reflexivity|].
  apply (command_summaries example_key leap_day prepare_any no_query
           three_pages all_pdf assets plain_str 10 example_args).
  vm_compute. reflexivity.
Defined.

Lemma command_reaches_service_witness :
  ∃ run,
    handle_download_command example_key leap_day prepare_any no_query
      three_pages all_pdf assets plain_str 10 example_args = Some run
    ∧ (requested run ≠ [] ↔
       is_Some (resolve_api_key (Namespace.api_key example_args) example_key)
       ∧ (∃ range, determine_date_range leap_day example_args = inr range)
       ∧ cli_collections (Namespace.collections example_args) ≠ []
       ∧ is_Some (prepare_any (Namespace.output_dir example_args))
       ∧ normalize_formats (split_char "," (Namespace.formats example_args)) ≠ []
       ∧ 1 ≤ Namespace.page_size example_args ≤ MAX_PAGE_SIZE).
Proof.
  eexists. split; [vm_compute; reflexivity|].
  apply (command_reaches_service example_key leap_day prepare_any no_query
           three_pages all_pdf assets plain_str 10 example_args).
  vm_compute. reflexivity.
Defined.

(** Without a key the command stops before anything else. *)
Example command_without_key :
  handle_download_command None leap_day prepare_any no_query
    three_pages all_pdf assets plain_str 10 example_args
  = Some (mkCommandRun [] [] SystemExit).
Proof. reflexivity. Qed.

(** The SQL script on the three pages: the item without a packageId is
    kept, the list under ["records"] is not read. *)
Lemma sql_keeps_every_item_witness :
  ∃ t items,
    fetch_packages_for_collection three_pages 10 = Some (t, Return items)
    ∧ items = omap sql_entry (sql_fetched three_pages t)
    ∧ Forall (λ it, is_dict it = true) (sql_fetched three_pages t)
    ∧ length items = length (sql_fetched three_pages t).
Proof.
  eexists _, _. split; [vm_compute; reflexivity|].
  apply (sql_keeps_every_item three_pages 10). vm_compute. reflexivity.
Defined.

Example sql_three_pages :
  ∃ t items,
    fetch_packages_for_collection three_pages 10 = Some (t, Return items)
    ∧ t = [JStr "*"; JStr "p2"; JStr "p3"]
    ∧ map packageId items = [JStr "A-1"; JStr "A-2"; JStr "A-3"; JNull; JStr "A-4"].
Proof. eexists _, _. repeat split; vm_compute; reflexivity. Qed.

(** Four entries: one without a packageId, one whose summary fails. *)
Lemma ingest_packages_rows_witness :
  ∃ pkg_rows dl_rows,
    ingest_packages summaries (JStr "BILLS") four_entries = Return (pkg_rows, dl_rows)
    ∧ map row_package_id pkg_rows = [JStr "R-1"; JStr "R-4"]
    ∧ pkg_rows = omap (row_of summaries (JStr "BILLS")) four_entries
    ∧ ∀ pid fmt url,
        mkDownloadRow pid fmt url ∈ dl_rows ↔
        ∃ r, r ∈ pkg_rows ∧ row_package_id r = pid
             ∧ has_link (row_summary r) fmt url.
Proof.
  eexists _, _. split; [vm_compute; reflexivity|]. split; [vm_compute; reflexivity|].
  apply (ingest_packages_rows summaries (JStr "BILLS") four_entries).
  vm_compute. reflexivity.
Defined.

(** The summary of the last entry has [null] under ["download"]. *)
Lemma unreadable_summary_aborts_ingest_witness :
  ingest_packages null_download (JStr "BILLS") four_entries = Raise AttributeError.
Proof.
  apply (unreadable_summary_aborts_ingest null_download (JStr "BILLS") four_entries
           (mkSqlItem (JStr "R-4") JNull (JStr "2019-05-04"))
           (obj [("download", JNull)]%string) AttributeError);
    [do 3 right; left|reflexivity|reflexivity|vm_compute; reflexivity].
Defined.
